(** * run_benchmarks.py: the sweep driver, the report writer, the report
      parser and the table generator, embedded and verified.

    The development follows the source file top to bottom:
    - [Py]: the fragments of the Python runtime the script relies on
      (text methods, [int], [range], ["%.3f" %], [str] of numbers and
      lists, [statistics.mean], [ast.literal_eval] on number sequences);
    - [Driver]: [run_benchmark], an exception/state computation over the
      file system, the standard output and the external collaborators;
    - [Parser]: [parse_results];
    - [Tables]: [generate_tables];
    followed by the properties of each.

    Floating point.  Measured values (clock readings, per-call times,
    means, ratios) are idealised as exact rationals.  A value that went
    through [float("%.3f" % x)] is a [dec3]: a sign and a number of
    thousandths; it stands for the binary64 number nearest to that decimal,
    which is faithful (same [repr], same round trip) while the magnitude is
    below 10^12.  The direction ["%.3f"] takes when the exact value sits
    half-way between two thousandths depends on the binary expansion of the
    operand; it is a parameter ([tie_up]) of everything that formats. *)

From Stdlib Require Import ZArith QArith Qabs Qround String Ascii List Bool Lia Lqa.
From Stdlib Require Import DecimalString DecimalZ DecimalPos DecimalFacts.
From stdpp Require Import gmap strings.
Import ListNotations.

Local Open Scope string_scope.
Local Open Scope list_scope.

#[local] Arguments String.append : simpl nomatch.

(** ** Python runtime fragments *)

Module Py.

(** *** Text *)

Definition nl_char : ascii := ascii_of_nat 10.
Definition nl : string := String nl_char "".
Definition sp_char : ascii := ascii_of_nat 32.

(** [str.isspace] on the ASCII range: TAB..CR, FS..US and the space. *)
Definition is_ws (c : ascii) : bool :=
  let n := nat_of_ascii c in
  ((9 <=? n)%nat && (n <=? 13)%nat) || ((28 <=? n)%nat && (n <=? 31)%nat)
  || (n =? 32)%nat.

(** [s.rstrip()] *)
Fixpoint rstrip (s : string) : string :=
  match s with
  | EmptyString => EmptyString
  | String c t =>
      match rstrip t with
      | EmptyString => if is_ws c then EmptyString else String c EmptyString
      | t' => String c t'
      end
  end.

(** [s.lstrip()] *)
Fixpoint lstrip (s : string) : string :=
  match s with
  | EmptyString => EmptyString
  | String c t => if is_ws c then lstrip t else s
  end.

(** [s.strip()] *)
Definition strip (s : string) : string := lstrip (rstrip s).

(** [s.split(c)] for a one-character separator: every occurrence cuts,
    empty fields are kept, and the empty string gives one empty field. *)
Fixpoint split (sep : ascii) (s : string) : list string :=
  match s with
  | EmptyString => [EmptyString]
  | String c t =>
      if Ascii.eqb c sep then EmptyString :: split sep t
      else match split sep t with
           | w :: ws => String c w :: ws
           | [] => [String c EmptyString]
           end
  end.

(** [sep.join(l)] *)
Fixpoint join (sep : string) (l : list string) : string :=
  match l with
  | [] => EmptyString
  | w :: ws =>
      match ws with
      | [] => w
      | _ :: _ => w ++ sep ++ join sep ws
      end
  end.

(** Iterating over a text file: the lines, each with its terminating
    newline, the last one without when the file does not end in one. *)
Fixpoint readlines (s : string) : list string :=
  match s with
  | EmptyString => []
  | String c t =>
      if Ascii.eqb c nl_char then String c EmptyString :: readlines t
      else match readlines t with
           | [] => [String c EmptyString]
           | l :: ls => String c l :: ls
           end
  end.

(** [p] is a prefix of [s]; when it is, what follows it. *)
Fixpoint strip_prefix (p s : string) : option string :=
  match p with
  | EmptyString => Some s
  | String a p' =>
      match s with
      | EmptyString => None
      | String b s' => if Ascii.eqb a b then strip_prefix p' s' else None
      end
  end.

(** [s.split(pat)] for a non-empty pattern: scan left to right, cut at
    each occurrence and resume after it.  [skip] counts the characters of
    a matched occurrence still to be passed over. *)
Fixpoint split_pat_go (pat : string) (skip : nat) (s : string) : list string :=
  match s with
  | EmptyString => [EmptyString]
  | String c t =>
      match skip with
      | S k => split_pat_go pat k t
      | O =>
          match strip_prefix pat s with
          | Some _ => EmptyString :: split_pat_go pat (String.length pat - 1) t
          | None =>
              match split_pat_go pat 0 t with
              | w :: ws => String c w :: ws
              | [] => [String c EmptyString]
              end
          end
      end
  end.

Definition split_pat (pat s : string) : list string := split_pat_go pat 0 s.

(** *** Integers *)

(** [str(z)] *)
Definition str_int (z : Z) : string := NilZero.string_of_int (Z.to_int z).

(** [int(s)] on decimal text: surrounding white space and one sign are
    accepted, then at least one digit (digit-group underscores are not
    modelled).  [None] is [ValueError]. *)
Definition int_of_str (s : string) : option Z :=
  match strip s with
  | EmptyString => None
  | String c t =>
      if Ascii.eqb c "-" then option_map (fun u => (- Z.of_uint u)%Z) (NilZero.uint_of_string t)
      else if Ascii.eqb c "+" then option_map Z.of_uint (NilZero.uint_of_string t)
      else option_map Z.of_uint (NilZero.uint_of_string (String c t))
  end.

(** [list(range(start, stop, step))]; [None] is the [ValueError] of a
    zero step. *)
Definition range (start stop step : Z) : option (list Z) :=
  if (step =? 0)%Z then None
  else
    let n := if (0 <? step)%Z then ((stop - start + step - 1) / step)%Z
             else ((start - stop - step - 1) / (- step))%Z in
    Some (map (fun k => (start + Z.of_nat k * step)%Z) (seq 0 (Z.to_nat n))).

(** *** Floats

    A [dec3] is a float that came out of [float("%.3f" % x)]: a sign and
    a magnitude counted in thousandths.  The sign is kept apart so that
    the negative zero of ["%.3f" % -0.0001] is represented. *)

Record dec3 : Type := Dec3 { d_neg : bool; d_mag : N }.

Definition dec3_eq_dec (a b : dec3) : {a = b} + {a <> b}.
Proof. decide equality; [apply N.eq_dec | apply Bool.bool_dec]. Defined.

(** The exact value of a [dec3]. *)
Definition Q_of_dec3 (d : dec3) : Q :=
  let m := (Z.of_N (d_mag d) # 1000)%Q in
  if d_neg d then Qopp m else m.

(** Python's [==] on two such floats: numeric, so both zeros are equal. *)
Definition dec3_eqb (a b : dec3) : bool :=
  (N.eqb (d_mag a) (d_mag b))
  && ((N.eqb (d_mag a) 0) || Bool.eqb (d_neg a) (d_neg b)).

Definition digit (n : N) : ascii := ascii_of_N (48 + n).

Definition str_N (n : N) : string := NilZero.string_of_uint (N.to_uint n).

(** The three fraction digits of [r] thousandths, [r < 1000]. *)
Definition frac3 (r : N) : string :=
  String (digit (r / 100))
    (String (digit ((r / 10) mod 10)) (String (digit (r mod 10)) EmptyString)).

(** Fraction digits as [repr] prints them: trailing zeros dropped, one
    digit kept. *)
Definition frac_repr (r : N) : string :=
  if (r mod 100 =? 0)%N then String (digit (r / 100)) EmptyString
  else if (r mod 10 =? 0)%N
       then String (digit (r / 100)) (String (digit ((r / 10) mod 10)) EmptyString)
       else frac3 r.

Definition sign_str (neg : bool) : string := if neg then "-" else "".

(** ["%.3f" % d] for a value that already has three decimals. *)
Definition fmt3_dec (d : dec3) : string :=
  sign_str (d_neg d) ++ str_N (d_mag d / 1000) ++ "." ++ frac3 (d_mag d mod 1000).

(** [repr(d)], which is also [str(d)]: positional notation, the shortest
    digits that read back as the same float. *)
Definition repr_float (d : dec3) : string :=
  sign_str (d_neg d) ++ str_N (d_mag d / 1000) ++ "." ++ frac_repr (d_mag d mod 1000).

Section Rounding.

(** Whether ["%.3f"] rounds away from zero at an exact tie. *)
Variable tie_up : Q -> bool.

(** [float("%.3f" % q)]: the nearest number of thousandths. *)
Definition round3 (q : Q) : dec3 :=
  let a := (Qabs q * 1000)%Q in
  let f := Qfloor a in
  let r := (a - inject_Z f)%Q in
  let up := match (r ?= 1 # 2)%Q with
            | Lt => false
            | Gt => true
            | Eq => tie_up q
            end in
  Dec3 (negb (Qle_bool 0 q)) (Z.to_N (if up then f + 1 else f)%Z).

(** ["%.3f" % q] *)
Definition fmt3 (q : Q) : string := fmt3_dec (round3 q).

End Rounding.

(** Decimal digits, possibly none. *)
Definition digits_of_str (s : string) : option N :=
  option_map N.of_uint (NilEmpty.uint_of_string s).

Definition pow10 (k : nat) : N := N.pow 10 (N.of_nat k).

(** The text of an unsigned decimal number with at most three fraction
    digits: [I], [I.], [I.F] or [.F].  [None] is [ValueError], or a
    spelling (exponent, more digits, [inf], [nan]) outside the model. *)
Definition umag_of_str (s : string) : option N :=
  match split "." s with
  | [i] =>
      match i with
      | EmptyString => None
      | _ => option_map (fun n => (n * 1000)%N) (digits_of_str i)
      end
  | [i; f] =>
      if ((String.length i =? 0)%nat && (String.length f =? 0)%nat) then None
      else if (3 <? String.length f)%nat then None
      else
        match digits_of_str i, digits_of_str f with
        | Some n, Some m => Some (n * 1000 + m * pow10 (3 - String.length f))%N
        | _, _ => None
        end
  | _ => None
  end.

(** [float(s)] *)
Definition float_of_str (s : string) : option dec3 :=
  match strip s with
  | EmptyString => None
  | String c t =>
      if Ascii.eqb c "-" then option_map (Dec3 true) (umag_of_str t)
      else if Ascii.eqb c "+" then option_map (Dec3 false) (umag_of_str t)
      else option_map (Dec3 false) (umag_of_str (String c t))
  end.

(** [statistics.mean]: the exact mean; [None] is the [StatisticsError]
    of an empty sequence. *)
Definition Qsum (l : list Q) : Q := fold_right Qplus 0%Q l.

Definition average (l : list Q) : Q := (Qsum l / inject_Z (Z.of_nat (List.length l)))%Q.

Definition mean (l : list Q) : option Q :=
  match l with
  | [] => None
  | _ :: _ => Some (average l)
  end.

(** [str(l)] of a list, from the [repr] of its elements. *)
Definition str_list {A} (repr : A -> string) (l : list A) : string :=
  "[" ++ join ", " (map repr l) ++ "]".

(** *** Values and literals *)

(** The numbers the script stores in its lists. *)
Inductive num : Type := NInt (z : Z) | NFloat (d : dec3).

(** [repr] of a number. *)
Definition repr_num (n : num) : string :=
  match n with
  | NInt z => str_int z
  | NFloat d => repr_float d
  end.

Definition Q_of_num (n : num) : Q :=
  match n with
  | NInt z => inject_Z z
  | NFloat d => Q_of_dec3 d
  end.

(** [float(n)] of a number already within the range of [dec3]. *)
Definition float_of_num (n : num) : dec3 :=
  match n with
  | NInt z => Dec3 (z <? 0)%Z (Z.to_N (Z.abs z) * 1000)
  | NFloat d => d
  end.

(** The entries of a parameter list: numbers and booleans. *)
Inductive pyval : Type := PNum (n : num) | PBool (b : bool).

Definition repr_val (v : pyval) : string :=
  match v with
  | PNum n => repr_num n
  | PBool true => "True"
  | PBool false => "False"
  end.

(** Truth value, as [not v] and [if v] test it. *)
Definition truthy (v : pyval) : bool :=
  match v with
  | PBool b => b
  | PNum (NInt z) => negb (z =? 0)%Z
  | PNum (NFloat d) => negb (d_mag d =? 0)%N
  end.

(** [b == v] for a boolean [b]: numeric comparison, [True] being 1. *)
Definition bool_eq_val (b : bool) (v : pyval) : bool :=
  match v with
  | PBool b' => Bool.eqb b b'
  | PNum (NInt z) => (z =? (if b then 1 else 0))%Z
  | PNum (NFloat d) =>
      if b then (d_mag d =? 1000)%N && negb (d_neg d) else (d_mag d =? 0)%N
  end.

Fixpoint all_some {A} (l : list (option A)) : option (list A) :=
  match l with
  | [] => Some []
  | None :: _ => None
  | Some a :: t => option_map (cons a) (all_some t)
  end.

Definition has_char (c : ascii) (s : string) : bool :=
  match split c s with
  | [_] => false
  | _ => true
  end.

(** One number literal: an integer (no leading zero before other digits)
    or a positional decimal. *)
Definition num_of_str (s : string) : option num :=
  if has_char "." s then option_map NFloat (float_of_str s)
  else
    match int_of_str s with
    | Some z =>
        let body := match strip s with
                    | String c t => if Ascii.eqb c "-" || Ascii.eqb c "+" then t else String c t
                    | EmptyString => EmptyString
                    end in
        match body with
        | String c (String _ _) =>
            if Ascii.eqb c "0" && negb (z =? 0)%Z then None else Some (NInt z)
        | _ => Some (NInt z)
        end
    | None => None
    end.

(** What the script reads back with [ast.literal_eval]: a number, a
    list of numbers or a (bracketless) tuple of numbers. *)
Inductive literal : Type :=
  | LNum (n : num)
  | LList (l : list num)
  | LTuple (l : list num).

(** Comma-separated numbers, one trailing comma allowed. *)
Definition items_of_str (s : string) : option (list num) :=
  let fs := map strip (split "," s) in
  let fs' := match rev fs with
             | EmptyString :: _ :: _ => removelast fs
             | _ => fs
             end in
  all_some (map num_of_str fs').

Definition last_char (s : string) : option ascii :=
  match rev (list_ascii_of_string s) with
  | c :: _ => Some c
  | [] => None
  end.

Definition drop_last (s : string) : string :=
  string_of_list_ascii (removelast (list_ascii_of_string s)).

(** [ast.literal_eval(s)] on that fragment; [None] is [ValueError] or
    [SyntaxError], or a literal outside the fragment. *)
Definition literal_eval (s : string) : option literal :=
  match strip s with
  | EmptyString => None
  | String c t =>
      if Ascii.eqb c "[" then
        match last_char t with
        | Some c' =>
            if Ascii.eqb c' "]" then
              let inner := drop_last t in
              match strip inner with
              | EmptyString => Some (LList [])
              | String _ _ => option_map LList (items_of_str inner)
              end
            else None
        | None => None
        end
      else if has_char "," (String c t) then option_map LTuple (items_of_str (String c t))
      else option_map LNum (num_of_str (String c t))
  end.

End Py.

(** ** The machine: exceptions over an explicit state

    A run of the script is a function from the state of the machine to an
    outcome: a value or a raised exception, each with the state reached.
    The state holds what the source reads and writes: the outside world
    the collaborators and the clocks act on, the files, the standard
    output, and the local variables of the running function.  [trace] is
    a ghost log of the calls made to the collaborators. *)

Inductive exn : Type :=
  | AssertionError
  | BenchmarkNotSupportedError
  | StatisticsError
  | IndexError
  | ValueError
  | TypeError
  | ZeroDivisionError
  | UnboundLocalError
  | KeyError
  | FileNotFoundError.

Inductive event : Type :=
  | InstanceRequested (kind : string) (value : Z) (trial : Z)
  | CounterexampleCalled
  | AntichainOptimizationCalled.

Record machine (W L : Type) : Type := Machine {
  world : W;
  files : gmap string string;
  stdout : string;
  trace : list event;
  locals : L
}.
Arguments Machine {W L}.
Arguments world {W L}.
Arguments files {W L}.
Arguments stdout {W L}.
Arguments trace {W L}.
Arguments locals {W L}.

Inductive outcome (S A : Type) : Type :=
  | Ok (a : A) (s : S)
  | Raised (e : exn) (s : S).
Arguments Ok {S A}.
Arguments Raised {S A}.

Definition final {S A} (o : outcome S A) : S :=
  match o with Ok _ s => s | Raised _ s => s end.

Definition M (S A : Type) : Type := S -> outcome S A.

Definition ret {S A} (a : A) : M S A := fun s => Ok a s.

Definition bind {S A B} (m : M S A) (k : A -> M S B) : M S B :=
  fun s => match m s with
           | Ok a s' => k a s'
           | Raised e s' => Raised e s'
           end.

Definition raise {S A} (e : exn) : M S A := fun s => Raised e s.

Notation "x <- m ;; k" := (bind m (fun x => k))
  (at level 100, m at next level, right associativity).
Notation "m ;; k" := (bind m (fun _ => k))
  (at level 100, right associativity).

(** A value that may be missing, with the exception its absence is. *)
Definition must {S A} (e : exn) (o : option A) : M S A :=
  match o with Some a => ret a | None => raise e end.

(** [for x in l: body] *)
Fixpoint for_each {S A} (l : list A) (body : A -> M S unit) : M S unit :=
  match l with
  | [] => ret tt
  | x :: t => body x ;; for_each t body
  end.

Section MachineOps.
Context {W L : Type}.

Definition get_locals : M (machine W L) L := fun s => Ok (locals s) s.

Definition set_locals (f : L -> L) : M (machine W L) unit :=
  fun s => Ok tt (Machine (world s) (files s) (stdout s) (trace s) (f (locals s))).

(** [print(t)], and [print(t, end=" ")] *)
Definition print_end (t e : string) : M (machine W L) unit :=
  fun s => Ok tt (Machine (world s) (files s) (stdout s ++ t ++ e)%string (trace s) (locals s)).

Definition print (t : string) : M (machine W L) unit := print_end t Py.nl.

(** [open(path, "a")]: the file is created when it does not exist.
    A file object is its path; writes reach the file at once. *)
Definition open_append (path : string) : M (machine W L) unit :=
  fun s => Ok tt (Machine (world s)
                    (match files s !! path with
                     | Some _ => files s
                     | None => <[path := EmptyString]> (files s)
                     end)
                    (stdout s) (trace s) (locals s)).

(** [f.write(t)] *)
Definition write (path t : string) : M (machine W L) unit :=
  fun s => Ok tt (Machine (world s)
                    (<[path := (default EmptyString (files s !! path) ++ t)%string]> (files s))
                    (stdout s) (trace s) (locals s)).

(** [open(path, "r")] and the lines the iteration over it yields. *)
Definition open_read (path : string) : M (machine W L) (list string) :=
  fun s => match files s !! path with
           | Some c => Ok (Py.readlines c) s
           | None => Raised FileNotFoundError s
           end.

(** A call into the outside world, logged. *)
Definition call {A} (ev : list event) (f : W -> A * W) : M (machine W L) A :=
  fun s => let (a, w) := f (world s) in
           Ok a (Machine w (files s) (stdout s) (trace s ++ ev) (locals s)).

End MachineOps.

(** Calling a function: it runs on a frame of its own, and the caller's
    local variables are back when it returns or raises. *)
Definition call_fn {W L L' A} (init : L') (body : M (machine W L') A)
  : M (machine W L) A :=
  fun s =>
    let back s' := Machine (world s') (files s') (stdout s') (trace s') (locals s) in
    match body (Machine (world s) (files s) (stdout s) (trace s) init) with
    | Ok a s' => Ok a (back s')
    | Raised e s' => Raised e (back s')
    end.

(** [l[k]], a negative [k] counting from the end. *)
Definition index {S A} (l : list A) (k : Z) : M S A :=
  let n := Z.of_nat (List.length l) in
  if ((0 <=? k) && (k <? n))%Z then must IndexError (nth_error l (Z.to_nat k))
  else if ((- n <=? k) && (k <? 0))%Z then must IndexError (nth_error l (Z.to_nat (n + k)))
  else raise IndexError.

(** [range(n)] *)
Definition range0 (n : Z) : list Z := map Z.of_nat (seq 0 (Z.to_nat n)).

(** ** The sweep driver: [run_benchmark] *)

Module Driver.

(** The statistics bundle a generator returns with an instance:
    [stats[0]] .. [stats[8]]; a "calls" entry is a count and the elapsed
    time of each call. *)
Record call_stats : Type := CallStats { nbr_calls : Z; call_times : list Q }.

Record stats : Type := Stats {
  stats_0 : Z;
  stats_1 : Z;
  stats_2 : Z;
  stats_3 : Z;
  stats_4 : call_stats;
  stats_5 : call_stats;
  stats_6 : Z;
  stats_7 : call_stats;
  stats_8 : call_stats
}.

(** What the script imports and calls: the three instance generators of
    [benchmarks], the two algorithms of [verification_algorithms] and the
    three clocks of [time].  Each acts on the outside world.  They are
    taken to return; the algorithms return a boolean. *)
Record Collaborators : Type := {
  World : Type;
  Automaton : Type;
  Colors : Type;
  random_automaton :
    Py.pyval -> Py.pyval -> Z -> Py.pyval -> Py.pyval -> Py.pyval -> string ->
    World -> (stats * Automaton * Z * Colors) * World;
  intersection_example :
    Z -> bool -> World -> (stats * Automaton * Z * Colors) * World;
  intersection_example_objective_increase :
    Z -> bool -> World -> (stats * Automaton * Z * Colors) * World;
  counterexample_based_algorithm :
    Automaton -> Z -> Colors -> World -> bool * World;
  antichain_optimization_algorithm :
    Automaton -> Z -> Colors -> World -> bool * World;
  process_time : World -> Q * World;
  perf_counter : World -> Q * World;
  time_time : World -> Q * World;
  tie_up : Q -> bool
}.

(** The list variables of [run_benchmark]. *)
Inductive var : Type :=
  | temp_antichain_sizes
  | temp_nbr_payoffs_losing_player_0
  | temp_nbr_payoffs_realizable
  | temp_counterexample_antichain_sizes
  | temp_counterexample_nbr_calls
  | temp_counterexample_nbr_calls_exists
  | temp_counterexample_mean_time_calls_exists
  | temp_counterexample_nbr_calls_dominated
  | temp_counterexample_mean_time_calls_dominated
  | temp_antichain_optimization_antichain_sizes
  | temp_antichain_optimization_nbr_calls
  | temp_antichain_optimization_nbr_calls1
  | temp_antichain_optimization_mean_time_calls1
  | temp_antichain_optimization_nbr_calls2
  | temp_antichain_optimization_mean_time_calls2
  | counterexample_times_process
  | antichain_optimization_times_process
  | counterexample_times_perf_counter
  | antichain_optimization_times_perf_counter
  | counterexample_times
  | antichain_optimization_times.

Definition var_eq_dec (a b : var) : {a = b} + {a <> b}.
Proof. decide equality. Defined.

Definition all_vars : list var :=
  [temp_antichain_sizes;
   temp_nbr_payoffs_losing_player_0;
   temp_nbr_payoffs_realizable;
   temp_counterexample_antichain_sizes;
   temp_counterexample_nbr_calls;
   temp_counterexample_nbr_calls_exists;
   temp_counterexample_mean_time_calls_exists;
   temp_counterexample_nbr_calls_dominated;
   temp_counterexample_mean_time_calls_dominated;
   temp_antichain_optimization_antichain_sizes;
   temp_antichain_optimization_nbr_calls;
   temp_antichain_optimization_nbr_calls1;
   temp_antichain_optimization_mean_time_calls1;
   temp_antichain_optimization_nbr_calls2;
   temp_antichain_optimization_mean_time_calls2;
   counterexample_times_process;
   antichain_optimization_times_process;
   counterexample_times_perf_counter;
   antichain_optimization_times_perf_counter;
   counterexample_times;
   antichain_optimization_times].

(** The local variables of a call of [run_benchmark]: the contents of the
    lists, and [nbr] once a generator has returned. *)
Record frame : Type := Frame { lists : var -> list Py.num; nbr : option Z }.

Definition empty_lists : var -> list Py.num := fun _ => [].

Definition append_to (v : var) (x : Py.num) (f : frame) : frame :=
  Frame (fun v' => lists f v' ++ (if var_eq_dec v v' then [x] else [])) (nbr f).

Section Run.

Variable C : Collaborators.

Definition St : Type := machine (World C) frame.

(** [v.append(x)] *)
Definition append (v : var) (x : Py.num) : M St unit := set_locals (append_to v x).

Definition get_list (v : var) : M St (list Py.num) :=
  f <- get_locals ;; ret (lists f v).

(** [float("%.3f" % q)] *)
Definition float3 (q : Q) : Py.num := Py.NFloat (Py.round3 (tie_up C) q).

(** [statistics.mean(l)] of a list of numbers *)
Definition mean_of (l : list Py.num) : M St Q :=
  must StatisticsError (Py.mean (map Py.Q_of_num l)).

(** [float("%.3f" % statistics.mean(times))] *)
Definition mean_time (times : list Q) : M St Py.num :=
  m <- must StatisticsError (Py.mean times) ;; ret (float3 m).

(** [assert b] *)
Definition assert (b : bool) : M St unit :=
  if b then ret tt else raise AssertionError.

Definition param (parameters : list Py.pyval) (k : nat) : M St Py.pyval :=
  must IndexError (nth_error parameters k).

(** Lines 95-116: the instance of trial [j] for the value [i], and the
    answer expected of the algorithms. *)
Definition generate (benchmark_type : string) (parameters : list Py.pyval) (i j : Z)
  : M St (stats * Automaton C * Z * Colors C * Py.pyval) :=
  if String.eqb benchmark_type "random" then
    print ("-------------------- trying to generate the " ++ Py.str_int j
           ++ "th automaton with " ++ Py.str_int i
           ++ "functions --------------------") ;;
    p0 <- param parameters 0 ;;
    p1 <- param parameters 1 ;;
    p2 <- param parameters 2 ;;
    p3 <- param parameters 3 ;;
    p4 <- param parameters 4 ;;
    r <- call [InstanceRequested benchmark_type i j]
           (random_automaton C p0 p1 i p2 p3 p4 (Py.str_int j)) ;;
    gen_positivity <- param parameters 4 ;;
    ret (r, gen_positivity)
  else if String.eqb benchmark_type "intersection_vertices" then
    p0 <- param parameters 0 ;;
    r <- call [InstanceRequested benchmark_type i j]
           (intersection_example C i (negb (Py.truthy p0))) ;;
    gen_positivity <- param parameters 0 ;;
    ret (r, gen_positivity)
  else if String.eqb benchmark_type "intersection_objectives" then
    p0 <- param parameters 0 ;;
    r <- call [InstanceRequested benchmark_type i j]
           (intersection_example_objective_increase C i (negb (Py.truthy p0))) ;;
    gen_positivity <- param parameters 0 ;;
    ret (r, gen_positivity)
  else raise BenchmarkNotSupportedError.

(** Lines 118-134: one entry per statistic. *)
Definition record_stats (st : stats) : M St unit :=
  append temp_antichain_sizes (Py.NInt (stats_0 st)) ;;
  append temp_nbr_payoffs_losing_player_0 (Py.NInt (stats_1 st)) ;;
  append temp_nbr_payoffs_realizable (Py.NInt (stats_2 st)) ;;
  append temp_counterexample_antichain_sizes (Py.NInt (stats_3 st)) ;;
  append temp_counterexample_nbr_calls_exists (Py.NInt (nbr_calls (stats_4 st))) ;;
  t4 <- mean_time (call_times (stats_4 st)) ;;
  append temp_counterexample_mean_time_calls_exists t4 ;;
  append temp_counterexample_nbr_calls_dominated (Py.NInt (nbr_calls (stats_5 st))) ;;
  t5 <- mean_time (call_times (stats_5 st)) ;;
  append temp_counterexample_mean_time_calls_dominated t5 ;;
  append temp_counterexample_nbr_calls
    (Py.NInt (nbr_calls (stats_4 st) + nbr_calls (stats_5 st))) ;;
  append temp_antichain_optimization_antichain_sizes (Py.NInt (stats_6 st)) ;;
  append temp_antichain_optimization_nbr_calls1 (Py.NInt (nbr_calls (stats_7 st))) ;;
  t7 <- mean_time (call_times (stats_7 st)) ;;
  append temp_antichain_optimization_mean_time_calls1 t7 ;;
  append temp_antichain_optimization_nbr_calls2 (Py.NInt (nbr_calls (stats_8 st))) ;;
  t8 <- mean_time (call_times (stats_8 st)) ;;
  append temp_antichain_optimization_mean_time_calls2 t8 ;;
  append temp_antichain_optimization_nbr_calls
    (Py.NInt (nbr_calls (stats_7 st) + nbr_calls (stats_8 st))).

(** Lines 138-146 and 156-164: the three clocks read, one call of an
    algorithm, the three clocks read again; the answer and the three
    differences. *)
Definition measure (ev : event) (algorithm : World C -> bool * World C)
  : M St (bool * Q * Q * Q) :=
  start_time_process <- call [] (process_time C) ;;
  start_time_perf <- call [] (perf_counter C) ;;
  start <- call [] (time_time C) ;;
  positivity <- call [ev] algorithm ;;
  end_time_process <- call [] (process_time C) ;;
  end_time_perf <- call [] (perf_counter C) ;;
  end_ <- call [] (time_time C) ;;
  ret (positivity, (end_time_process - start_time_process)%Q,
       (end_time_perf - start_time_perf)%Q, (end_ - start)%Q).

(** Lines 138-152 and 156-170: the measured call, the consistency
    assertion, then the three elapsed times. *)
Definition timed_run (ev : event) (algorithm : World C -> bool * World C)
    (gen_positivity : Py.pyval) (v_process v_perf v_wall : var) : M St unit :=
  r <- measure ev algorithm ;;
  let '(positivity, d_process, d_perf, d_wall) := r in
  assert (Py.bool_eq_val positivity gen_positivity) ;;
  append v_process (float3 d_process) ;;
  append v_perf (float3 d_perf) ;;
  append v_wall (float3 d_wall).

(** [print(label + str(v))] *)
Definition print_list (label : string) (v : var) : M St unit :=
  l <- get_list v ;; print (label ++ Py.str_list Py.repr_num l).

(** Lines 172-194 *)
Definition print_progress : M St unit :=
  print_list "Antichain sizes " temp_antichain_sizes ;;
  print_list "Number of payoffs losing " temp_nbr_payoffs_losing_player_0 ;;
  print_list "Number of payoffs realizable " temp_nbr_payoffs_realizable ;;
  print_list "CE antichain sizes " temp_counterexample_antichain_sizes ;;
  print_list "CE exists calls " temp_counterexample_nbr_calls_exists ;;
  print_list "CE exists calls times " temp_counterexample_mean_time_calls_exists ;;
  print_list "CE dominated calls " temp_counterexample_nbr_calls_dominated ;;
  print_list "CE dominated calls times " temp_counterexample_mean_time_calls_dominated ;;
  print_list "CE total nbr calls " temp_counterexample_nbr_calls ;;
  print_list "CE times process " counterexample_times_process ;;
  print_list "CE times perf " counterexample_times_perf_counter ;;
  print_list "AO antichain sizes " temp_antichain_optimization_antichain_sizes ;;
  print_list "AO call1 calls " temp_antichain_optimization_nbr_calls1 ;;
  print_list "AO call1 calls times " temp_antichain_optimization_mean_time_calls1 ;;
  print_list "AO call2 calls " temp_antichain_optimization_nbr_calls2 ;;
  print_list "AO call2 calls times " temp_antichain_optimization_mean_time_calls2 ;;
  print_list "AO total nbr calls " temp_antichain_optimization_nbr_calls ;;
  print_list "AO times process " antichain_optimization_times_process ;;
  print_list "AO times perf " antichain_optimization_times_perf_counter.

(** Lines 95-136: the instance is generated and its statistics are
    recorded; what the two algorithms are then run on. *)
Definition prepare (benchmark_type : string) (parameters : list Py.pyval) (i j : Z)
  : M St (Automaton C * Z * Colors C * Py.pyval) :=
  g <- generate benchmark_type parameters i j ;;
  let '(st, aut, n, colors, gen_positivity) := g in
  set_locals (fun f => Frame (lists f) (Some n)) ;;
  record_stats st ;;
  print " ----- computing counterexample algorithm time -----" ;;
  ret (aut, n, colors, gen_positivity).

(** Lines 93-194: the body of the loop over the trials. *)
Definition trial (benchmark_type : string) (parameters : list Py.pyval) (i j : Z)
  : M St unit :=
  g <- prepare benchmark_type parameters i j ;;
  let '(aut, n, colors, gen_positivity) := g in
  timed_run CounterexampleCalled (counterexample_based_algorithm C aut n colors)
    gen_positivity
    counterexample_times_process counterexample_times_perf_counter counterexample_times ;;
  print " ----- computing antichain optimization time -----" ;;
  timed_run AntichainOptimizationCalled (antichain_optimization_algorithm C aut n colors)
    gen_positivity
    antichain_optimization_times_process antichain_optimization_times_perf_counter
    antichain_optimization_times ;;
  print_progress.

(** [f.write(label + str(v) + "\n")] *)
Definition write_list (f label : string) (v : var) : M St unit :=
  l <- get_list v ;; write f (label ++ Py.str_list Py.repr_num l ++ Py.nl).

(** ["%.3f" % statistics.mean(v)] *)
Definition fmt_mean (v : var) : M St string :=
  l <- get_list v ;; m <- mean_of l ;; ret (Py.fmt3 (tie_up C) m).

(** [f.write(label + "%.3f" % statistics.mean(v) + "\n")] *)
Definition write_mean (f label : string) (v : var) : M St unit :=
  t <- fmt_mean v ;; write f (label ++ t ++ Py.nl).

(** Lines 228-234: a label and three means on one line. *)
Definition write_means3 (f label : string) (v1 v2 v3 : var) : M St unit :=
  t1 <- fmt_mean v1 ;;
  write f (label ++ t1 ++ ", ") ;;
  t2 <- fmt_mean v2 ;;
  write f (t2 ++ ", ") ;;
  t3 <- fmt_mean v3 ;;
  write f (t3 ++ Py.nl).

(** Lines 196-261: the report writer. *)
Definition write_block (f : string) (parameters : list Py.pyval) (i : Z) : M St unit :=
  open_append f ;;
  write f ("Variable value used " ++ Py.str_int i ++ Py.nl) ;;
  write f ("Parameters " ++ Py.str_list Py.repr_val parameters ++ Py.nl) ;;
  fr <- get_locals ;;
  n <- must UnboundLocalError (nbr fr) ;;
  write f ("Number of objectives " ++ Py.str_int n ++ Py.nl) ;;
  write_list f "Antichain sizes " temp_antichain_sizes ;;
  write_list f "Number of payoffs losing " temp_nbr_payoffs_losing_player_0 ;;
  write_list f "Number of payoffs realizable " temp_nbr_payoffs_realizable ;;
  write_list f "CE antichain sizes " temp_counterexample_antichain_sizes ;;
  write_list f "CE exists calls " temp_counterexample_nbr_calls_exists ;;
  write_list f "CE exists calls times " temp_counterexample_mean_time_calls_exists ;;
  write_list f "CE dominated calls " temp_counterexample_nbr_calls_dominated ;;
  write_list f "CE dominated calls times " temp_counterexample_mean_time_calls_dominated ;;
  write_list f "CE total nbr calls " temp_counterexample_nbr_calls ;;
  write_list f "CE times process " counterexample_times_process ;;
  write_list f "CE times perf " counterexample_times_perf_counter ;;
  write_list f "CE times " counterexample_times ;;
  write_list f "AO antichain sizes " temp_antichain_optimization_antichain_sizes ;;
  write_list f "AO call1 calls " temp_antichain_optimization_nbr_calls1 ;;
  write_list f "AO call1 calls times " temp_antichain_optimization_mean_time_calls1 ;;
  write_list f "AO call2 calls " temp_antichain_optimization_nbr_calls2 ;;
  write_list f "AO call2 calls times " temp_antichain_optimization_mean_time_calls2 ;;
  write_list f "AO total nbr calls " temp_antichain_optimization_nbr_calls ;;
  write_list f "AO times process " antichain_optimization_times_process ;;
  write_list f "AO times perf " antichain_optimization_times_perf_counter ;;
  write_list f "AO times " antichain_optimization_times ;;
  write_means3 f "Mean running time CE " counterexample_times_process
    counterexample_times_perf_counter counterexample_times ;;
  write_means3 f "Mean running time AO " antichain_optimization_times_process
    antichain_optimization_times_perf_counter antichain_optimization_times ;;
  write_mean f "Mean antichain size " temp_antichain_sizes ;;
  write_mean f "Mean number losing payoffs " temp_nbr_payoffs_losing_player_0 ;;
  write_mean f "Mean number realizable payoffs " temp_nbr_payoffs_realizable ;;
  write_mean f "CE mean antichain size " temp_counterexample_antichain_sizes ;;
  write_mean f "CE mean nbr exists calls " temp_counterexample_nbr_calls_exists ;;
  write_mean f "CE mean exists time " temp_counterexample_mean_time_calls_exists ;;
  write_mean f "CE mean nbr dominated calls " temp_counterexample_nbr_calls_dominated ;;
  write_mean f "CE mean dominated time " temp_counterexample_mean_time_calls_dominated ;;
  write_mean f "CE mean total nbr calls " temp_counterexample_nbr_calls ;;
  write_mean f "AO mean antichain size " temp_antichain_optimization_antichain_sizes ;;
  write_mean f "AO mean nbr call1 calls " temp_antichain_optimization_nbr_calls1 ;;
  write_mean f "AO mean call1 time " temp_antichain_optimization_mean_time_calls1 ;;
  write_mean f "AO mean nbr call2 calls " temp_antichain_optimization_nbr_calls2 ;;
  write_mean f "AO mean call2 time " temp_antichain_optimization_mean_time_calls2 ;;
  write_mean f "AO mean total nbr calls " temp_antichain_optimization_nbr_calls ;;
  write f Py.nl ;;
  write f Py.nl ;;
  write f Py.nl.

(** Lines 66-194: fresh lists, then the trials [1 .. nbr_points]. *)
Definition run_trials (benchmark_type : string) (parameters : list Py.pyval)
    (nbr_points : Z) (i : Z) : M St unit :=
  set_locals (fun f => Frame empty_lists (nbr f)) ;;
  js <- must ValueError (Py.range 1 (nbr_points + 1) 1) ;;
  for_each js (trial benchmark_type parameters i).

(** Lines 63-261: everything done for one value of the variable. *)
Definition sweep_value (benchmark_type save_file : string)
    (parameters : list Py.pyval) (nbr_points : Z) (i : Z) : M St unit :=
  run_trials benchmark_type parameters nbr_points i ;;
  write_block save_file parameters i.

Definition run_benchmark (benchmark_type save_file : string)
    (parameters : list Py.pyval) (nbr_points range_start range_end range_step : Z)
  : M St unit :=
  set_locals (fun _ => Frame empty_lists None) ;;
  values <- must ValueError (Py.range range_start range_end range_step) ;;
  for_each values (sweep_value benchmark_type save_file parameters nbr_points).

End Run.

End Driver.

(** ** The report parser: [parse_results] *)

Module Parser.

(** The list variables of [parse_results]. *)
Inductive var : Type := x | y_ce | y_ao | mean_y_ce | mean_y_ao.

Definition var_eq_dec (a b : var) : {a = b} + {a <> b}.
Proof. decide equality. Defined.

Definition frame : Type := var -> list Py.num.

Definition empty_frame : frame := fun _ => [].

Definition append_to (v : var) (n : Py.num) (f : frame) : frame :=
  fun v' => f v' ++ (if var_eq_dec v v' then [n] else []).

Section Parse.

Variable W : Type.

Definition St : Type := machine W frame.

Definition append (v : var) (n : Py.num) : M St unit := set_locals (append_to v n).

Definition get_list (v : var) : M St (list Py.num) :=
  f <- get_locals ;; ret (f v).

(** [line[k] == w0 and line[k+1] == w1 and ...]: evaluated left to
    right, stopping at the first difference; a token that is not there
    is an [IndexError]. *)
Fixpoint tokens_are (line : list string) (k : nat) (ws : list string) : M St bool :=
  match ws with
  | [] => ret true
  | w :: ws' =>
      t <- must IndexError (nth_error line k) ;;
      if String.eqb t w then tokens_are line (S k) ws' else ret false
  end.

Definition when (b : bool) (m : M St unit) : M St unit :=
  if b then m else ret tt.

(** [lit[k]] for what [literal_eval] returned. *)
Definition subscript (lit : Py.literal) (k : Z) : M St Py.num :=
  match lit with
  | Py.LList l => index l k
  | Py.LTuple l => index l k
  | Py.LNum _ => raise TypeError
  end.

(** [ast.literal_eval(" ".join(line[k:]))] *)
Definition eval_from (line : list string) (k : nat) : M St Py.literal :=
  must ValueError (Py.literal_eval (Py.join " " (skipn k line))).

(** Lines 303-334: what one line of the report does to the lists. *)
Definition parse_line (benchmark_type : string) (nbr_points : Z) (raw : string)
  : M St unit :=
  let line := Py.split " " (Py.rstrip raw) in
  is_x <- tokens_are line 0 ["Variable"; "value"; "used"] ;;
  when is_x (
    t <- must IndexError (nth_error line 3) ;;
    current_x <- must ValueError (Py.int_of_str t) ;;
    for_each (range0 nbr_points) (fun _ =>
      when (String.eqb benchmark_type "intersection_vertices")
        (append x (Py.NInt current_x)) ;;
      when (String.eqb benchmark_type "intersection_objectives")
        (append x (Py.NInt (2 + current_x * 2))) ;;
      when (String.eqb benchmark_type "random")
        (append x (Py.NInt current_x)))) ;;
  is_ce <- tokens_are line 0 ["CE"; "times"; "process"] ;;
  when is_ce (
    current_ce_times <- eval_from line 3 ;;
    for_each (range0 nbr_points) (fun i =>
      v <- subscript current_ce_times i ;; append y_ce v)) ;;
  is_ao <- tokens_are line 0 ["AO"; "times"; "process"] ;;
  when is_ao (
    current_ao_times <- eval_from line 3 ;;
    for_each (range0 nbr_points) (fun i =>
      v <- subscript current_ao_times i ;; append y_ao v)) ;;
  when (String.eqb benchmark_type "random") (
    is_mce <- tokens_are line 0 ["Mean"; "running"; "time"; "CE"] ;;
    when is_mce (
      current_mean_y_ce <- eval_from line 4 ;;
      for_each (range0 nbr_points) (fun _ =>
        v <- subscript current_mean_y_ce 0 ;;
        append mean_y_ce (Py.NFloat (Py.float_of_num v)))) ;;
    is_mao <- tokens_are line 0 ["Mean"; "running"; "time"; "AO"] ;;
    when is_mao (
      current_mean_y_ao <- eval_from line 4 ;;
      for_each (range0 nbr_points) (fun _ =>
        v <- subscript current_mean_y_ao 0 ;;
        append mean_y_ao (Py.NFloat (Py.float_of_num v))))).

(** [str(v[i])] *)
Definition cell (v : var) (i : Z) : M St string :=
  l <- get_list v ;; n <- index l i ;; ret (Py.repr_num n).

(** Lines 339-340 and 344-345: one row of three columns. *)
Definition write_row3 (f : string) (i : Z) : M St unit :=
  cx <- cell x i ;;
  cce <- cell y_ce i ;;
  cao <- cell y_ao i ;;
  write f (cx ++ " " ++ cce ++ " " ++ cao ++ Py.nl).

(** Lines 349-351: one row of five columns. *)
Definition write_row5 (f : string) (i : Z) : M St unit :=
  cx <- cell x i ;;
  cce <- cell y_ce i ;;
  cao <- cell y_ao i ;;
  cmce <- cell mean_y_ce i ;;
  cmao <- cell mean_y_ao i ;;
  write f (cx ++ " " ++ cce ++ " " ++ cao ++ " " ++ cmce ++ " " ++ cmao ++ Py.nl).

Definition rows (write_row : Z -> M St unit) : M St unit :=
  xs <- get_list x ;;
  for_each (range0 (Z.of_nat (List.length xs))) write_row.

(** Lines 336-353: the dataset file. *)
Definition write_dataset (benchmark_type save_file : string) : M St unit :=
  open_append save_file ;;
  when (String.eqb benchmark_type "intersection_vertices") (
    write save_file ("nbr_vertices CE_time AO_time" ++ Py.nl) ;;
    rows (write_row3 save_file)) ;;
  when (String.eqb benchmark_type "intersection_objectives") (
    write save_file ("nbr_objectives CE_time AO_time" ++ Py.nl) ;;
    rows (write_row3 save_file)) ;;
  when (String.eqb benchmark_type "random") (
    write save_file ("nbr_objectives CE_time AO_time mean_CE_time mean_AO_time" ++ Py.nl) ;;
    rows (write_row5 save_file)).

(** Lines 299-334: the scan of the report. *)
Definition scan (file_name benchmark_type : string) (nbr_points : Z) : M St unit :=
  search <- open_read file_name ;;
  for_each search (parse_line benchmark_type nbr_points).

Definition parse_results (file_name benchmark_type : string) (nbr_points : Z)
    (save_file : string) : M St unit :=
  set_locals (fun _ => empty_frame) ;;
  scan file_name benchmark_type nbr_points ;;
  write_dataset benchmark_type save_file.

End Parse.

End Parser.

(** ** The table generator: [generate_tables] *)

Module Tables.

(** The keys of [dict_pattern], in the order of the dictionary display. *)
Definition patterns : list string :=
  ["Mean antichain size"; "Mean number losing payoffs";
   "Mean number realizable payoffs"; "CE mean antichain size";
   "AO mean antichain size"].

(** [dict_pattern_names], keys in order. *)
Definition dict_pattern_names : list (string * string) :=
  [("Mean antichain size", "$|\paretoSet{G}|$");
   ("CE mean antichain size", "$|A|$ in Algorithm \ref{algo:fpt}");
   ("AO mean antichain size", "$|A|$ in Algorithm \ref{algo:fpt-CE}")].

(** The local state is [dict_pattern]. *)
Definition frame : Type := gmap string (list string).

Definition initial_frame : frame :=
  list_to_map (map (fun p => (p, @nil string)) patterns).

Section Generate.

Variable W : Type.
Variable tie_up : Q -> bool.

Definition St : Type := machine W frame.

(** [dict_pattern[key]] *)
Definition lookup (key : string) : M St (list string) :=
  d <- get_locals ;; must KeyError (d !! key).

Definition store (key : string) (l : list string) : M St unit :=
  set_locals (fun d => <[key := l]> d).

(** Lines 388-393 *)
Definition collect (pattern raw : string) : M St unit :=
  let line := Py.split_pat pattern (Py.rstrip raw) in
  if (List.length line =? 2)%nat then
    l <- lookup pattern ;;
    v <- index line 1 ;;
    store pattern (l ++ [v])
  else ret tt.

(** Lines 384-395 *)
Definition extract (file_name pattern : string) : M St unit :=
  search <- open_read file_name ;;
  for_each search (collect pattern) ;;
  l <- lookup pattern ;;
  store pattern (rev l).

(** [float(s)] *)
Definition to_float (s : string) : M St Py.dec3 :=
  must ValueError (Py.float_of_str s).

(** Lines 397-401 *)
Definition print_header : M St unit :=
  l <- lookup "Mean number realizable payoffs" ;;
  let nbr_elements := Z.of_nat (List.length l) in
  print_end ("t " ++ " & ") " " ;;
  for_each (range0 (nbr_elements - 1)) (fun i =>
    print_end (Py.str_int (i + 1) ++ " & ") " ") ;;
  print (Py.str_int nbr_elements ++ " \\").

(** Lines 404-409 *)
Definition print_series (entry : string * string) : M St unit :=
  print_end (snd entry ++ " & ") " " ;;
  current_list <- lookup (fst entry) ;;
  let nbr_elements := Z.of_nat (List.length current_list) in
  for_each (range0 (nbr_elements - 1)) (fun i =>
    c <- index current_list i ;; print_end (Py.strip c ++ " & ") " ") ;;
  c <- index current_list (nbr_elements - 1) ;;
  print (Py.strip c ++ " \\").

(** [dict_pattern["Mean number losing payoffs"][i]] over
    [dict_pattern["Mean number realizable payoffs"][i]], formatted. *)
Definition ratio_at (i : Z) : M St string :=
  losing <- lookup "Mean number losing payoffs" ;;
  a <- index losing i ;;
  fa <- to_float a ;;
  realizable <- lookup "Mean number realizable payoffs" ;;
  b <- index realizable i ;;
  fb <- to_float b ;;
  if (Py.d_mag fb =? 0)%N then raise ZeroDivisionError
  else ret (Py.fmt3 tie_up (Py.Q_of_dec3 fa / Py.Q_of_dec3 fb)).

(** Lines 411-417 *)
Definition print_ratios : M St unit :=
  print_end ("Ratio of lost payoffs" ++ " & ") " " ;;
  l <- lookup "Mean number realizable payoffs" ;;
  let nbr_elements := Z.of_nat (List.length l) in
  for_each (range0 (nbr_elements - 1)) (fun i =>
    r <- ratio_at i ;; print_end (r ++ " & ") " ") ;;
  r <- ratio_at (nbr_elements - 1) ;;
  print (r ++ " \\").

Definition generate_tables (file_name : string) : M St unit :=
  set_locals (fun _ => initial_frame) ;;
  for_each patterns (extract file_name) ;;
  print_header ;;
  for_each dict_pattern_names print_series ;;
  print_ratios.

End Generate.

End Tables.

Example range_3_1 : Py.range 3 1 (-1) = Some [3%Z; 2%Z].
Proof. reflexivity. Qed.

Example repr_float_ex :
  map Py.repr_float [Py.Dec3 false 2000; Py.Dec3 false 1; Py.Dec3 true 0; Py.Dec3 false 12340]
  = ["2.0"; "0.001"; "-0.0"; "12.34"].
Proof. reflexivity. Qed.

Example fmt3_ex : Py.fmt3 (fun _ => true) (2 # 3)%Q = "0.667".
Proof. reflexivity. Qed.

Example float_of_str_ex :
  map Py.float_of_str [" 0.000"; "12.5"; "-3"; "1."; ".5"; "abc"; "1.2345"]
  = [Some (Py.Dec3 false 0); Some (Py.Dec3 false 12500); Some (Py.Dec3 true 3000);
     Some (Py.Dec3 false 1000); Some (Py.Dec3 false 500); None; None].
Proof. reflexivity. Qed.

Example literal_eval_ex :
  map Py.literal_eval ["[0.001, 2.0]"; "1.000, 2.000, 3.000"; "[]"; "7"; "[1,]"; "[,]"; "012"]
  = [Some (Py.LList [Py.NFloat (Py.Dec3 false 1); Py.NFloat (Py.Dec3 false 2000)]);
     Some (Py.LTuple [Py.NFloat (Py.Dec3 false 1000); Py.NFloat (Py.Dec3 false 2000);
                      Py.NFloat (Py.Dec3 false 3000)]);
     Some (Py.LList []); Some (Py.LNum (Py.NInt 7)); Some (Py.LList [Py.NInt 1]);
     None; None].
Proof. reflexivity. Qed.

(** * Properties *)

(** ** Text *)

Module PyFacts.
Import Py.

Lemma append_nil_r (s : string) : (s ++ "")%string = s.
Proof. induction s as [|c s IH]; simpl; [reflexivity | now rewrite IH]. Qed.

Lemma append_assoc (a b c : string) : ((a ++ b) ++ c)%string = (a ++ (b ++ c))%string.
Proof. induction a as [|x a IH]; simpl; [reflexivity | now rewrite IH]. Qed.

Lemma length_append (a b : string) :
  String.length (a ++ b) = (String.length a + String.length b)%nat.
Proof. induction a as [|x a IH]; simpl; [reflexivity | now rewrite IH]. Qed.

(** Every character of [s] satisfies [P]. *)
Fixpoint all_chars (P : ascii -> bool) (s : string) : bool :=
  match s with
  | EmptyString => true
  | String c t => P c && all_chars P t
  end.

Lemma all_chars_app P a b :
  all_chars P (a ++ b) = all_chars P a && all_chars P b.
Proof.
  induction a as [|x a IH]; simpl; [reflexivity|].
  now rewrite IH, andb_assoc.
Qed.

Lemma all_chars_weaken (P Q : ascii -> bool) s :
  (forall c, P c = true -> Q c = true) ->
  all_chars P s = true -> all_chars Q s = true.
Proof.
  intros HPQ. induction s as [|c s IH]; simpl; [reflexivity|].
  rewrite !andb_true_iff. intros [Hc Hs]. split; [now apply HPQ | now apply IH].
Qed.

(** The last character of a non-empty [s] satisfies [P]. *)
Fixpoint last_is (P : ascii -> bool) (s : string) : bool :=
  match s with
  | EmptyString => false
  | String c EmptyString => P c
  | String _ t => last_is P t
  end.

Lemma last_is_app P a b : last_is P b = true -> last_is P (a ++ b) = true.
Proof.
  intros Hb. induction a as [|x a IH]; simpl; [exact Hb|].
  destruct (a ++ b)%string eqn:E; [|exact IH].
  destruct a; simpl in E; [subst b; discriminate Hb | discriminate E].
Qed.

Definition not_char (c : ascii) : ascii -> bool := fun x => negb (Ascii.eqb x c).

(** *** [split] and [join] *)

Lemma split_not_nil sep s : split sep s <> [].
Proof.
  destruct s as [|c t]; simpl; [discriminate|].
  destruct (Ascii.eqb c sep); [discriminate|].
  destruct (split sep t); discriminate.
Qed.

Lemma split_none sep s : all_chars (not_char sep) s = true -> split sep s = [s].
Proof.
  induction s as [|c t IH]; simpl; [reflexivity|].
  unfold not_char at 1. rewrite andb_true_iff, negb_true_iff.
  intros [Hc Ht]. rewrite Hc, (IH Ht). reflexivity.
Qed.

Lemma split_app_sep sep a b :
  all_chars (not_char sep) a = true ->
  split sep (a ++ String sep b) = a :: split sep b.
Proof.
  induction a as [|c t IH]; simpl.
  - intros _. now rewrite Ascii.eqb_refl.
  - unfold not_char at 1. rewrite andb_true_iff, negb_true_iff.
    intros [Hc Ht]. rewrite Hc, (IH Ht). reflexivity.
Qed.

Lemma join_split sep s : join (String sep "") (split sep s) = s.
Proof.
  induction s as [|c t IH]; simpl; [reflexivity|].
  destruct (Ascii.eqb_spec c sep) as [->|Hne].
  - pose proof (split_not_nil sep t) as Hnn.
    destruct (split sep t) as [|w ws]; [contradiction|].
    simpl. simpl in IH. now rewrite IH.
  - pose proof (split_not_nil sep t) as Hnn.
    destruct (split sep t) as [|w ws]; [contradiction|].
    destruct ws as [|w' ws']; simpl in *; now rewrite <- IH.
Qed.

(** *** [rstrip], [lstrip] *)

Lemma rstrip_ws s : all_chars is_ws s = true -> rstrip s = "".
Proof.
  induction s as [|c t IH]; simpl; [reflexivity|].
  rewrite andb_true_iff. intros [Hc Ht]. now rewrite (IH Ht), Hc.
Qed.

Lemma rstrip_keep s : last_is (fun c => negb (is_ws c)) s = true -> rstrip s = s.
Proof.
  induction s as [|c t IH]; simpl; [discriminate|].
  destruct t as [|c' t'].
  - simpl. intros H. apply negb_true_iff in H. now rewrite H.
  - intros H. rewrite (IH H). reflexivity.
Qed.

Lemma rstrip_app_ws a w :
  last_is (fun c => negb (is_ws c)) a = true ->
  all_chars is_ws w = true -> rstrip (a ++ w) = a.
Proof.
  intros Ha Hw. induction a as [|c t IH]; simpl; [discriminate Ha|].
  destruct t as [|c' t'].
  - simpl in *. rewrite (rstrip_ws _ Hw). apply negb_true_iff in Ha. now rewrite Ha.
  - rewrite (IH Ha). reflexivity.
Qed.

Lemma lstrip_keep c t : is_ws c = false -> lstrip (String c t) = String c t.
Proof. intros H. simpl. now rewrite H. Qed.

(** *** [readlines] *)

Lemma readlines_line a rest :
  all_chars (not_char nl_char) a = true ->
  readlines (a ++ String nl_char rest) = (a ++ nl)%string :: readlines rest.
Proof.
  induction a as [|c t IH].
  - intros _. reflexivity.
  - cbn [all_chars]. unfold not_char at 1. rewrite andb_true_iff, negb_true_iff.
    intros [Hc Ht]. change (readlines (String c (t ++ String nl_char rest)) =
                            String c (t ++ nl) :: readlines rest).
    cbn [readlines]. rewrite Hc, (IH Ht). reflexivity.
Qed.

(** *** Digits *)

Definition is_digit (c : ascii) : bool :=
  let n := nat_of_ascii c in (48 <=? n)%nat && (n <=? 57)%nat.

(** Characters of a printed number: digits, the sign, the point. *)
Definition is_num_char (c : ascii) : bool :=
  is_digit c || Ascii.eqb c "-" || Ascii.eqb c ".".

(** A fact about characters that holds by inspection of the 256. *)
Ltac by_ascii_cases c :=
  destruct c as [[] [] [] [] [] [] [] []]; vm_compute; try reflexivity; try discriminate;
  intros; try discriminate; try reflexivity.

Lemma digit_not_ws c : is_digit c = true -> is_ws c = false.
Proof. by_ascii_cases c. Qed.

Lemma digit_not_char c x :
  is_digit x = false -> is_digit c = true -> not_char x c = true.
Proof.
  intros Hx Hc. unfold not_char. destruct (Ascii.eqb_spec c x) as [->|]; [congruence|reflexivity].
Qed.

Lemma num_char_not c x :
  is_num_char x = false -> is_num_char c = true -> not_char x c = true.
Proof.
  intros Hx Hc. unfold not_char. destruct (Ascii.eqb_spec c x) as [->|]; [congruence|reflexivity].
Qed.

Lemma digit_is_num c : is_digit c = true -> is_num_char c = true.
Proof. unfold is_num_char. now intros ->. Qed.

Lemma uint_digits d : all_chars is_digit (NilEmpty.string_of_uint d) = true.
Proof. induction d; simpl; auto. Qed.

Lemma N_to_uint_nonnil n : N.to_uint n <> Decimal.Nil.
Proof. destruct n; simpl; [discriminate | apply DecimalPos.Unsigned.to_uint_nonnil]. Qed.

Lemma str_N_eq n : str_N n = NilEmpty.string_of_uint (N.to_uint n).
Proof.
  unfold str_N, NilZero.string_of_uint.
  pose proof (N_to_uint_nonnil n). destruct (N.to_uint n); congruence.
Qed.

Lemma str_N_digits n : all_chars is_digit (str_N n) = true.
Proof. rewrite str_N_eq. apply uint_digits. Qed.

Lemma str_N_cons n : exists c t, str_N n = String c t /\ is_digit c = true.
Proof.
  pose proof (str_N_digits n) as Hd. rewrite str_N_eq in *.
  pose proof (N_to_uint_nonnil n) as Hn.
  destruct (N.to_uint n); try congruence; simpl in *; eauto.
Qed.

Lemma all_digits_last s c t :
  s = String c t -> all_chars is_digit s = true -> last_is is_digit s = true.
Proof.
  intros -> H. revert c H. induction t as [|c' t IH]; intros c H; simpl in *.
  - now rewrite andb_true_r in H.
  - apply andb_true_iff in H as [_ H]. apply (IH c' H).
Qed.

Lemma str_N_last n : last_is is_digit (str_N n) = true.
Proof.
  destruct (str_N_cons n) as (c & t & E & _).
  apply (all_digits_last _ _ _ E), str_N_digits.
Qed.

Lemma digits_of_str_N n : digits_of_str (str_N n) = Some n.
Proof.
  unfold digits_of_str. rewrite str_N_eq, NilEmpty.usu. simpl.
  now rewrite DecimalN.Unsigned.of_to.
Qed.

Lemma last_is_weaken (P Q : ascii -> bool) s :
  (forall c, P c = true -> Q c = true) -> last_is P s = true -> last_is Q s = true.
Proof.
  intros HPQ. induction s as [|c t IH]; simpl; [discriminate|].
  destruct t; auto.
Qed.

Lemma strip_keep c t :
  is_ws c = false -> last_is (fun x => negb (is_ws x)) (String c t) = true ->
  strip (String c t) = String c t.
Proof.
  intros Hc Hl. unfold strip. rewrite (rstrip_keep _ Hl). now apply lstrip_keep.
Qed.

(** *** [str] and [int] of integers *)

Lemma str_int_nonneg z : (0 <= z)%Z -> str_int z = str_N (Z.to_N z).
Proof. destruct z; simpl; intros H; try reflexivity. lia. Qed.

Lemma str_int_neg z : (z < 0)%Z -> str_int z = String "-" (str_N (Z.to_N (- z))).
Proof. destruct z; simpl; intros H; try lia. reflexivity. Qed.

Lemma str_int_chars z : all_chars is_num_char (str_int z) = true.
Proof.
  destruct (Z_lt_le_dec z 0) as [H|H].
  - rewrite (str_int_neg _ H). simpl.
    apply (all_chars_weaken is_digit); [apply digit_is_num | apply str_N_digits].
  - rewrite (str_int_nonneg _ H).
    apply (all_chars_weaken is_digit); [apply digit_is_num | apply str_N_digits].
Qed.

Lemma str_int_last z : last_is is_digit (str_int z) = true.
Proof.
  destruct (Z_lt_le_dec z 0) as [H|H].
  - rewrite (str_int_neg _ H).
    change (String "-" (str_N (Z.to_N (- z)))) with ("-" ++ str_N (Z.to_N (- z)))%string.
    apply last_is_app, str_N_last.
  - rewrite (str_int_nonneg _ H). apply str_N_last.
Qed.

Lemma num_char_not_ws c : is_num_char c = true -> is_ws c = false.
Proof. by_ascii_cases c. Qed.

Lemma str_int_cons z : exists c t, str_int z = String c t /\ is_num_char c = true.
Proof.
  pose proof (str_int_chars z) as H. pose proof (str_int_last z) as Hl.
  destruct (str_int z) as [|c t]; [discriminate Hl|].
  simpl in H. apply andb_true_iff in H as [Hc _]. eauto.
Qed.

Lemma str_int_strip z : strip (str_int z) = str_int z.
Proof.
  destruct (str_int_cons z) as (c & t & E & Hc).
  pose proof (str_int_last z) as Hl. rewrite E in *.
  apply strip_keep; [now apply num_char_not_ws|].
  revert Hl. apply last_is_weaken. intros x Hx. now rewrite (digit_not_ws _ Hx).
Qed.

Lemma uint_of_str_N n : NilZero.uint_of_string (str_N n) = Some (N.to_uint n).
Proof. unfold str_N. apply NilZero.usu, N_to_uint_nonnil. Qed.

Lemma Z_of_uint_N n : Z.of_uint (N.to_uint n) = Z.of_N n.
Proof.
  unfold Z.of_uint. change (Pos.of_uint (N.to_uint n)) with (N.of_uint (N.to_uint n)).
  now rewrite DecimalN.Unsigned.of_to.
Qed.

Lemma int_of_str_int z : int_of_str (str_int z) = Some z.
Proof.
  unfold int_of_str. rewrite str_int_strip.
  destruct (Z_lt_le_dec z 0) as [H|H].
  - rewrite (str_int_neg _ H). cbn [Ascii.eqb Bool.eqb].
    rewrite uint_of_str_N. simpl. rewrite Z_of_uint_N. f_equal. lia.
  - rewrite (str_int_nonneg _ H).
    destruct (str_N_cons (Z.to_N z)) as (c & t & E & Hc). rewrite E.
    assert (Ascii.eqb c "-" = false) as -> by (revert Hc; by_ascii_cases c).
    assert (Ascii.eqb c "+" = false) as -> by (revert Hc; by_ascii_cases c).
    rewrite <- E, uint_of_str_N. simpl. rewrite Z_of_uint_N. f_equal. lia.
Qed.

(** *** Floats with three decimals *)

(** A property of all [r < 1000], checked on each of them. *)
Lemma below_1000 (P : N -> bool) :
  forallb P (map N.of_nat (seq 0 1000)) = true ->
  forall r, (r < 1000)%N -> P r = true.
Proof.
  intros H r Hr. rewrite forallb_forall in H. apply H.
  apply in_map_iff. exists (N.to_nat r). split; [apply N2Nat.id|].
  apply in_seq. lia.
Qed.

Lemma frac3_digits r : (r < 1000)%N -> all_chars is_digit (frac3 r) = true.
Proof. apply (below_1000 (fun r => all_chars is_digit (frac3 r))). vm_compute. reflexivity. Qed.

Lemma frac_repr_digits r : (r < 1000)%N -> all_chars is_digit (frac_repr r) = true.
Proof. apply (below_1000 (fun r => all_chars is_digit (frac_repr r))). vm_compute. reflexivity. Qed.

(** Reading fraction digits back: the digits, scaled to thousandths. *)
Definition frac_value (f : string) : option N :=
  if (String.length f =? 0)%nat || (3 <? String.length f)%nat then None
  else option_map (fun m => (m * pow10 (3 - String.length f))%N) (digits_of_str f).

Lemma frac_value_frac3 r : (r < 1000)%N -> frac_value (frac3 r) = Some r.
Proof.
  intros Hr.
  apply (below_1000 (fun r => match frac_value (frac3 r) with
                              | Some m => (m =? r)%N | None => false end)) in Hr;
    [|vm_compute; reflexivity].
  destruct (frac_value (frac3 r)); [|discriminate]. f_equal. now apply N.eqb_eq.
Qed.

Lemma frac_value_frac_repr r : (r < 1000)%N -> frac_value (frac_repr r) = Some r.
Proof.
  intros Hr.
  apply (below_1000 (fun r => match frac_value (frac_repr r) with
                              | Some m => (m =? r)%N | None => false end)) in Hr;
    [|vm_compute; reflexivity].
  destruct (frac_value (frac_repr r)); [|discriminate]. f_equal. now apply N.eqb_eq.
Qed.

Lemma digit_not_point c : is_digit c = true -> not_char "." c = true.
Proof. by_ascii_cases c. Qed.

(** The text [I.F] of an unsigned number reads back as its thousandths. *)
Lemma umag_of_str_point i f r :
  frac_value f = Some r ->
  all_chars is_digit f = true ->
  umag_of_str (str_N i ++ "." ++ f) = Some (i * 1000 + r)%N.
Proof.
  intros Hf Hd. unfold umag_of_str.
  change (str_N i ++ "." ++ f)%string with (str_N i ++ String "." f)%string.
  rewrite split_app_sep
    by (apply (all_chars_weaken is_digit); [apply digit_not_point | apply str_N_digits]).
  rewrite split_none by (revert Hd; apply all_chars_weaken, digit_not_point).
  unfold frac_value in Hf.
  destruct (str_N_cons i) as (c & t & E & _).
  assert ((String.length (str_N i) =? 0)%nat = false) as -> by now rewrite E.
  cbn [andb].
  destruct (String.length f =? 0)%nat; [discriminate|].
  cbn [orb] in Hf. destruct (3 <? String.length f)%nat; [discriminate|].
  rewrite digits_of_str_N.
  destruct (digits_of_str f); [|discriminate].
  simpl in Hf. injection Hf as <-. reflexivity.
Qed.

Lemma mag_split m : (m = m / 1000 * 1000 + m mod 1000)%N.
Proof. rewrite N.mul_comm. apply N.div_mod. discriminate. Qed.

Lemma mod_1000 m : (m mod 1000 < 1000)%N.
Proof. apply N.mod_lt. discriminate. Qed.

Lemma umag_of_repr m :
  umag_of_str (str_N (m / 1000) ++ "." ++ frac_repr (m mod 1000)) = Some m.
Proof.
  rewrite (umag_of_str_point _ _ (m mod 1000)).
  - now rewrite <- mag_split.
  - apply frac_value_frac_repr, mod_1000.
  - apply frac_repr_digits, mod_1000.
Qed.

Lemma umag_of_fmt3 m :
  umag_of_str (str_N (m / 1000) ++ "." ++ frac3 (m mod 1000)) = Some m.
Proof.
  rewrite (umag_of_str_point _ _ (m mod 1000)).
  - now rewrite <- mag_split.
  - apply frac_value_frac3, mod_1000.
  - apply frac3_digits, mod_1000.
Qed.

(** The shape shared by [repr_float] and [fmt3_dec]. *)
Definition decimal_text (neg : bool) (i : N) (f : string) : string :=
  (sign_str neg ++ str_N i ++ "." ++ f)%string.

Lemma decimal_text_chars neg i f :
  all_chars is_digit f = true -> all_chars is_num_char (decimal_text neg i f) = true.
Proof.
  intros Hf. unfold decimal_text. rewrite !all_chars_app.
  rewrite (all_chars_weaken is_digit is_num_char (str_N i) digit_is_num (str_N_digits i)).
  rewrite (all_chars_weaken is_digit is_num_char f digit_is_num Hf).
  destruct neg; reflexivity.
Qed.

Lemma decimal_text_last neg i f c t :
  f = String c t -> all_chars is_digit f = true ->
  last_is is_digit (decimal_text neg i f) = true.
Proof.
  intros E Hf. unfold decimal_text.
  apply last_is_app, last_is_app, last_is_app. now apply (all_digits_last f c t).
Qed.

Lemma decimal_text_cons neg i f :
  exists c t, decimal_text neg i f = String c t /\ is_num_char c = true
              /\ (c = "-"%char <-> neg = true)
              /\ (neg = true -> t = (str_N i ++ "." ++ f)%string).
Proof.
  unfold decimal_text. destruct neg; simpl.
  - exists "-"%char, (str_N i ++ "." ++ f)%string. repeat split; auto.
  - destruct (str_N_cons i) as (c & t & E & Hc). rewrite E. simpl.
    exists c, (t ++ "." ++ f)%string. repeat split.
    + now apply digit_is_num.
    + intros ->. discriminate Hc.
    + discriminate.
    + discriminate.
Qed.

Lemma float_of_decimal_text neg i f r c t :
  f = String c t -> all_chars is_digit f = true -> frac_value f = Some r ->
  float_of_str (decimal_text neg i f) = Some (Dec3 neg (i * 1000 + r)).
Proof.
  intros E Hd Hf.
  pose proof (decimal_text_last neg i f c t E Hd) as Hl.
  destruct (decimal_text_cons neg i f) as (c0 & t0 & E0 & Hc0 & Hsign & Hneg).
  unfold float_of_str. rewrite E0 in Hl |- *.
  rewrite strip_keep;
    [| now apply num_char_not_ws
     | revert Hl; apply last_is_weaken; intros x Hx; now rewrite (digit_not_ws _ Hx)].
  destruct neg.
  - assert (c0 = "-"%char) as -> by now apply Hsign.
    cbn [Ascii.eqb Bool.eqb]. rewrite (Hneg eq_refl), (umag_of_str_point _ _ r Hf Hd).
    reflexivity.
  - assert (Ascii.eqb c0 "-" = false) as ->.
    { apply Ascii.eqb_neq. intros ->. destruct Hsign as [Hs _]. discriminate (Hs eq_refl). }
    assert (Ascii.eqb c0 "+" = false) as ->.
    { apply Ascii.eqb_neq. intros ->. discriminate Hc0. }
    rewrite <- E0. unfold decimal_text. cbn [sign_str].
    change ("" ++ str_N i ++ "." ++ f)%string with (str_N i ++ "." ++ f)%string.
    rewrite (umag_of_str_point _ _ r Hf Hd). reflexivity.
Qed.

Lemma frac3_cons r : exists c t, frac3 r = String c t.
Proof. unfold frac3. eauto. Qed.

Lemma frac_repr_cons r : exists c t, frac_repr r = String c t.
Proof. unfold frac_repr, frac3. destruct (_ =? 0)%N; [|destruct (_ =? 0)%N]; eauto. Qed.

(** [float(repr(d))] is [d]: the shortest digits read back as the same
    float. *)
Lemma float_of_repr d : float_of_str (repr_float d) = Some d.
Proof.
  destruct d as [neg m]. destruct (frac_repr_cons (m mod 1000)) as (c & t & E).
  change (repr_float (Dec3 neg m))
    with (decimal_text neg (m / 1000) (frac_repr (m mod 1000))).
  rewrite (float_of_decimal_text _ _ _ (m mod 1000) c t E).
  - now rewrite <- mag_split.
  - apply frac_repr_digits, mod_1000.
  - apply frac_value_frac_repr, mod_1000.
Qed.

(** [float("%.3f" % x)] is the rounded value the model takes for it. *)
Lemma float_of_fmt3 tie q : float_of_str (fmt3 tie q) = Some (round3 tie q).
Proof.
  unfold fmt3. destruct (round3 tie q) as [neg m].
  destruct (frac3_cons (m mod 1000)) as (c & t & E).
  change (fmt3_dec (Dec3 neg m)) with (decimal_text neg (m / 1000) (frac3 (m mod 1000))).
  rewrite (float_of_decimal_text _ _ _ (m mod 1000) c t E).
  - now rewrite <- mag_split.
  - apply frac3_digits, mod_1000.
  - apply frac_value_frac3, mod_1000.
Qed.

Lemma repr_float_chars d : all_chars is_num_char (repr_float d) = true.
Proof. apply decimal_text_chars, frac_repr_digits, mod_1000. Qed.

Lemma repr_float_last d : last_is is_digit (repr_float d) = true.
Proof.
  destruct (frac_repr_cons (d_mag d mod 1000)) as (c & t & E).
  apply (decimal_text_last _ _ _ c t E), frac_repr_digits, mod_1000.
Qed.

Lemma fmt3_dec_chars d : all_chars is_num_char (fmt3_dec d) = true.
Proof. apply decimal_text_chars, frac3_digits, mod_1000. Qed.

Lemma fmt3_dec_last d : last_is is_digit (fmt3_dec d) = true.
Proof.
  destruct (frac3_cons (d_mag d mod 1000)) as (c & t & E).
  apply (decimal_text_last _ _ _ c t E), frac3_digits, mod_1000.
Qed.

(** *** Number literals *)

(** [s] is the text of the number [n], as the writer prints numbers:
    sign, digits and point only, ending in a digit. *)
Definition num_text (s : string) (n : num) : Prop :=
  all_chars is_num_char s = true /\ last_is is_digit s = true /\ num_of_str s = Some n.

Lemma has_char_none c s : all_chars (not_char c) s = true -> has_char c s = false.
Proof. intros H. unfold has_char. now rewrite split_none. Qed.

Lemma has_char_app c a b :
  all_chars (not_char c) a = true -> has_char c (a ++ String c b) = true.
Proof.
  intros H. unfold has_char. rewrite split_app_sep by exact H.
  pose proof (split_not_nil c b). destruct (split c b); [contradiction|reflexivity].
Qed.

Lemma decimal_text_has_point neg i f : has_char "." (decimal_text neg i f) = true.
Proof.
  unfold decimal_text. rewrite <- append_assoc.
  change ((sign_str neg ++ str_N i) ++ "." ++ f)%string
    with ((sign_str neg ++ str_N i) ++ String "." f)%string.
  apply has_char_app. rewrite all_chars_app.
  rewrite (all_chars_weaken is_digit _ (str_N i) digit_not_point (str_N_digits i)).
  destruct neg; reflexivity.
Qed.

Lemma num_text_float d : num_text (repr_float d) (NFloat d).
Proof.
  split; [apply repr_float_chars|]. split; [apply repr_float_last|].
  unfold num_of_str.
  change (repr_float d) with (decimal_text (d_neg d) (d_mag d / 1000) (frac_repr (d_mag d mod 1000))).
  rewrite decimal_text_has_point.
  change (decimal_text (d_neg d) (d_mag d / 1000) (frac_repr (d_mag d mod 1000)))
    with (repr_float d).
  now rewrite float_of_repr.
Qed.

Lemma float_of_fmt3_dec d : float_of_str (fmt3_dec d) = Some d.
Proof.
  destruct d as [neg m]. destruct (frac3_cons (m mod 1000)) as (c & t & E).
  change (fmt3_dec (Dec3 neg m)) with (decimal_text neg (m / 1000) (frac3 (m mod 1000))).
  rewrite (float_of_decimal_text _ _ _ (m mod 1000) c t E).
  - now rewrite <- mag_split.
  - apply frac3_digits, mod_1000.
  - apply frac_value_frac3, mod_1000.
Qed.

Lemma num_text_fmt3 d : num_text (fmt3_dec d) (NFloat d).
Proof.
  split; [apply fmt3_dec_chars|]. split; [apply fmt3_dec_last|].
  unfold num_of_str.
  change (fmt3_dec d) with (decimal_text (d_neg d) (d_mag d / 1000) (frac3 (d_mag d mod 1000))).
  rewrite decimal_text_has_point.
  change (decimal_text (d_neg d) (d_mag d / 1000) (frac3 (d_mag d mod 1000)))
    with (fmt3_dec d).
  now rewrite float_of_fmt3_dec.
Qed.

(** The canonical digits of a number have no leading zero. *)
Lemma to_uint_no_leading_zero n d : N.to_uint n = Decimal.D0 d -> d = Decimal.Nil.
Proof.
  intros E.
  pose proof (DecimalN.Unsigned.to_of (N.to_uint n)) as H.
  rewrite DecimalN.Unsigned.of_to, E in H.
  unfold Decimal.unorm in H. rewrite DecimalFacts.nzhead_D0 in H.
  destruct (Decimal.nzhead d) eqn:Hd.
  - now injection H as <-.
  - exfalso. apply (DecimalFacts.nzhead_nonzero d d). congruence.
  - discriminate H.
  - discriminate H.
  - discriminate H.
  - discriminate H.
  - discriminate H.
  - discriminate H.
  - discriminate H.
  - discriminate H.
  - discriminate H.
Qed.

Lemma str_N_no_leading_zero n c t :
  str_N n = String "0" (String c t) -> False.
Proof.
  rewrite str_N_eq. intros E.
  destruct (N.to_uint n) as [|d|d|d|d|d|d|d|d|d|d] eqn:Hn; simpl in E; try discriminate E.
  apply to_uint_no_leading_zero in Hn. subst d. discriminate E.
Qed.

Lemma str_N_zero n t : str_N n = String "0" t -> n = 0%N.
Proof.
  intros E. destruct t as [|c t']; [|now apply str_N_no_leading_zero in E].
  pose proof (digits_of_str_N n) as H. rewrite E in H. vm_compute in H. congruence.
Qed.

Lemma digit_not_minus c : is_digit c = true -> not_char "-" c = true.
Proof. by_ascii_cases c. Qed.

Lemma str_int_no_point z : all_chars (not_char ".") (str_int z) = true.
Proof.
  destruct (Z_lt_le_dec z 0) as [H|H].
  - rewrite (str_int_neg _ H). simpl.
    apply (all_chars_weaken is_digit); [apply digit_not_point | apply str_N_digits].
  - rewrite (str_int_nonneg _ H).
    apply (all_chars_weaken is_digit); [apply digit_not_point | apply str_N_digits].
Qed.

Lemma num_text_int z : num_text (str_int z) (NInt z).
Proof.
  split; [apply str_int_chars|]. split; [apply str_int_last|].
  unfold num_of_str. rewrite has_char_none by apply str_int_no_point.
  rewrite int_of_str_int, str_int_strip.
  destruct (Z_lt_le_dec z 0) as [H|H].
  - rewrite (str_int_neg _ H). cbn [Ascii.eqb Bool.eqb orb].
    destruct (str_N (Z.to_N (- z))) as [|c [|c' t]] eqn:E; try reflexivity.
    destruct (Ascii.eqb_spec c "0") as [->|_]; [|reflexivity].
    now apply str_N_no_leading_zero in E.
  - rewrite (str_int_nonneg _ H).
    destruct (str_N_cons (Z.to_N z)) as (c & t & E & Hc). rewrite E.
    assert (Ascii.eqb c "-" || Ascii.eqb c "+" = false) as ->
        by (revert Hc; by_ascii_cases c).
    destruct t as [|c' t]; [reflexivity|].
    destruct (Ascii.eqb_spec c "0") as [->|_]; [|reflexivity].
    now apply str_N_no_leading_zero in E.
Qed.

Lemma num_text_repr n : num_text (repr_num n) n.
Proof. destruct n; [apply num_text_int | apply num_text_float]. Qed.

(** *** Sequences of number literals *)

Lemma num_char_not_comma c : is_num_char c = true -> not_char "," c = true.
Proof. by_ascii_cases c. Qed.

Lemma num_text_no_comma s n : num_text s n -> all_chars (not_char ",") s = true.
Proof. intros (H & _). revert H. apply all_chars_weaken, num_char_not_comma. Qed.

Lemma num_text_cons s n :
  num_text s n -> exists c t, s = String c t /\ is_num_char c = true.
Proof.
  intros (Hc & Hl & _). destruct s as [|c t]; [discriminate Hl|].
  simpl in Hc. apply andb_true_iff in Hc as [Hc _]. eauto.
Qed.

Lemma num_text_strip s n : num_text s n -> strip s = s.
Proof.
  intros H. destruct (num_text_cons s n H) as (c & t & -> & Hc).
  destruct H as (_ & Hl & _).
  apply strip_keep; [now apply num_char_not_ws|].
  revert Hl. apply last_is_weaken. intros x Hx. now rewrite (digit_not_ws _ Hx).
Qed.

Lemma num_text_strip_sp s n : num_text s n -> strip (String " " s) = s.
Proof.
  intros H. destruct (num_text_cons s n H) as (c & t & -> & Hc).
  destruct H as (_ & Hl & _). unfold strip.
  rewrite rstrip_keep.
  - simpl. now rewrite (num_char_not_ws _ Hc).
  - change (String " " (String c t)) with (" " ++ String c t)%string.
    apply last_is_app. revert Hl. apply last_is_weaken.
    intros x Hx. now rewrite (digit_not_ws _ Hx).
Qed.

(** The fields [split] finds in [", ".join(ts)]. *)
Definition comma_fields (ts : list string) : list string :=
  match ts with
  | [] => [EmptyString]
  | t :: ts' => t :: map (String " ") ts'
  end.

Lemma split_join_comma ts ns :
  Forall2 num_text ts ns -> split "," (join ", " ts) = comma_fields ts.
Proof.
  induction 1 as [|t n ts ns Ht Hts IH]; [reflexivity|].
  destruct Hts as [|t' n' ts' ns' Ht' Hts'].
  - simpl. apply split_none, (num_text_no_comma _ _ Ht).
  - change (join ", " (t :: t' :: ts')) with (t ++ String "," (String " " (join ", " (t' :: ts'))))%string.
    rewrite split_app_sep by apply (num_text_no_comma _ _ Ht).
    cbn [split Ascii.eqb Bool.eqb]. rewrite IH. reflexivity.
Qed.

Lemma strip_comma_fields ts ns :
  Forall2 num_text ts ns -> ts <> [] -> map strip (comma_fields ts) = ts.
Proof.
  intros H Hne. destruct H as [|t n ts ns Ht Hts]; [congruence|].
  simpl. rewrite (num_text_strip _ _ Ht). f_equal.
  induction Hts as [|t' n' ts' ns' Ht' _ IH]; [reflexivity|].
  simpl. now rewrite (num_text_strip_sp _ _ Ht'), IH.
Qed.

Lemma all_some_num_text ts ns :
  Forall2 num_text ts ns -> all_some (map num_of_str ts) = Some ns.
Proof.
  induction 1 as [|t n ts ns (_ & _ & Ht) _ IH]; [reflexivity|].
  simpl. now rewrite Ht, IH.
Qed.

Lemma no_trailing_empty {A} ts ns (a b : A) :
  Forall2 num_text ts ns ->
  match rev ts with
  | EmptyString :: _ :: _ => a
  | _ => b
  end = b.
Proof.
  intros H. destruct (rev ts) as [|t r] eqn:E; [reflexivity|].
  assert (In t ts) as Hin by (apply in_rev; rewrite E; now left).
  assert (exists n, num_text t n) as (n & Hn).
  { clear E. induction H as [|t0 n0 ts0 ns0 Ht0 _ IH]; [contradiction|].
    destruct Hin as [->|Hin]; eauto. }
  destruct (num_text_cons _ _ Hn) as (c & t' & -> & _). reflexivity.
Qed.

Lemma items_of_join ts ns :
  Forall2 num_text ts ns -> ts <> [] -> items_of_str (join ", " ts) = Some ns.
Proof.
  intros H Hne. unfold items_of_str.
  rewrite (split_join_comma _ _ H), (strip_comma_fields _ _ H Hne).
  rewrite (no_trailing_empty _ _ _ _ H). now apply all_some_num_text.
Qed.

Lemma list_ascii_app a b :
  list_ascii_of_string (a ++ b) = list_ascii_of_string a ++ list_ascii_of_string b.
Proof. induction a as [|c a IH]; simpl; [reflexivity | now rewrite IH]. Qed.

Lemma last_char_snoc a c : last_char (a ++ String c "") = Some c.
Proof.
  unfold last_char. rewrite list_ascii_app. simpl. now rewrite rev_unit.
Qed.

Lemma drop_last_snoc a c : drop_last (a ++ String c "") = a.
Proof.
  unfold drop_last. rewrite list_ascii_app. simpl.
  rewrite removelast_last. apply string_of_list_ascii_of_string.
Qed.

Lemma join_num_text_cons sep ts ns :
  Forall2 num_text ts ns -> ts <> [] ->
  exists c t, join sep ts = String c t /\ is_num_char c = true.
Proof.
  intros H Hne. destruct H as [|t n ts ns Ht Hts]; [congruence|].
  destruct (num_text_cons _ _ Ht) as (c & t' & -> & Hc).
  destruct ts; simpl; eauto.
Qed.

(** A bracketed list of number texts evaluates to the list of the
    numbers. *)
Lemma literal_eval_list ts ns :
  Forall2 num_text ts ns ->
  literal_eval ("[" ++ join ", " ts ++ "]") = Some (LList ns).
Proof.
  intros H. unfold literal_eval.
  change ("[" ++ join ", " ts ++ "]")%string with (String "[" (join ", " ts ++ "]")).
  rewrite strip_keep.
  - cbn [Ascii.eqb Bool.eqb]. rewrite last_char_snoc. cbn [Ascii.eqb Bool.eqb].
    rewrite drop_last_snoc.
    destruct ts as [|t ts'].
    + inversion H. reflexivity.
    + destruct (join_num_text_cons ", " (t :: ts') ns H) as (c & r & E & Hc); [discriminate|].
      assert (strip (join ", " (t :: ts')) <> EmptyString) as Hs.
      { rewrite E. unfold strip. intros Hs.
        assert (String.length (lstrip (rstrip (String c r))) = 0%nat) as Hl by now rewrite Hs.
        clear - Hc Hl. simpl in Hl. destruct (rstrip r).
        - rewrite (num_char_not_ws _ Hc) in Hl. simpl in Hl.
          rewrite (num_char_not_ws _ Hc) in Hl. discriminate Hl.
        - simpl in Hl. rewrite (num_char_not_ws _ Hc) in Hl. discriminate Hl. }
      destruct (strip (join ", " (t :: ts'))); [congruence|].
      rewrite (items_of_join _ _ H) by discriminate. reflexivity.
  - reflexivity.
  - change (String "[" (join ", " ts ++ "]")) with ("[" ++ join ", " ts ++ "]")%string.
    apply last_is_app, last_is_app. reflexivity.
Qed.

Lemma join_two_has_comma t t' ts ns :
  Forall2 num_text (t :: t' :: ts) ns -> has_char "," (join ", " (t :: t' :: ts)) = true.
Proof.
  intros H. inversion H as [|? n ? ns' Ht Hts]; subst.
  change (join ", " (t :: t' :: ts)) with (t ++ String "," (String " " (join ", " (t' :: ts))))%string.
  apply has_char_app, (num_text_no_comma _ _ Ht).
Qed.

Lemma join_num_text_last ts ns :
  Forall2 num_text ts ns -> ts <> [] -> last_is is_digit (join ", " ts) = true.
Proof.
  induction 1 as [|t n ts ns Ht Hts IH]; [congruence|]. intros _.
  destruct Hts as [|t' n' ts' ns' Ht' Hts'].
  - apply Ht.
  - change (join ", " (t :: t' :: ts')) with (t ++ ", " ++ join ", " (t' :: ts'))%string.
    apply last_is_app, last_is_app, IH. discriminate.
Qed.

(** Two or more number texts separated by commas evaluate to the tuple
    of the numbers. *)
Lemma literal_eval_tuple t t' ts ns :
  Forall2 num_text (t :: t' :: ts) ns ->
  literal_eval (join ", " (t :: t' :: ts)) = Some (LTuple ns).
Proof.
  intros H. unfold literal_eval.
  destruct (join_num_text_cons ", " _ ns H) as (c & r & E & Hc); [discriminate|].
  pose proof (join_num_text_last _ _ H) as Hl.
  rewrite E in Hl |- *.
  rewrite strip_keep;
    [| now apply num_char_not_ws
     | apply (last_is_weaken is_digit);
       [intros x Hx; now rewrite (digit_not_ws _ Hx) | apply Hl; discriminate]].
  assert (Ascii.eqb c "[" = false) as -> by (revert Hc; by_ascii_cases c).
  rewrite <- E, (join_two_has_comma _ _ _ _ H), (items_of_join _ _ H) by discriminate.
  reflexivity.
Qed.

Lemma Forall2_repr_num l : Forall2 num_text (map repr_num l) l.
Proof. induction l; constructor; [apply num_text_repr | assumption]. Qed.

(** [ast.literal_eval(str(l))] is [l], for a list of numbers. *)
Lemma literal_eval_str_list l : literal_eval (str_list repr_num l) = Some (LList l).
Proof. apply literal_eval_list, Forall2_repr_num. Qed.

End PyFacts.

(** ** Reasoning about computations

    [post m s Q E]: run from [s], [m] returns a value and a state that
    satisfy [Q], or raises an exception in a state that satisfy [E]. *)

Definition post {S A} (m : M S A) (s : S)
    (Q : A -> S -> Prop) (E : exn -> S -> Prop) : Prop :=
  match m s with
  | Ok a s' => Q a s'
  | Raised e s' => E e s'
  end.

Definition no_exn {S} : exn -> S -> Prop := fun _ _ => False.
Definition any_exn {S} : exn -> S -> Prop := fun _ _ => True.

Section PostRules.
Context {S : Type}.

Lemma post_ret {A} (a : A) (s : S) Q E : Q a s -> post (ret a) s Q E.
Proof. exact (fun H => H). Qed.

Lemma post_raise {A} e (s : S) (Q : A -> S -> Prop) E : E e s -> post (raise e) s Q E.
Proof. exact (fun H => H). Qed.

Lemma post_bind {A B} (m : M S A) (k : A -> M S B) s Q E :
  post m s (fun a s' => post (k a) s' Q E) E -> post (bind m k) s Q E.
Proof. unfold post, bind. destruct (m s); exact (fun H => H). Qed.

Lemma post_bind_inv {A B} (m : M S A) (k : A -> M S B) s Q E :
  post (bind m k) s Q E -> post m s (fun a s' => post (k a) s' Q E) E.
Proof. unfold post, bind. destruct (m s); exact (fun H => H). Qed.

Lemma post_weaken {A} (m : M S A) s (Q Q' : A -> S -> Prop) (E E' : exn -> S -> Prop) :
  post m s Q E ->
  (forall a s', Q a s' -> Q' a s') -> (forall e s', E e s' -> E' e s') ->
  post m s Q' E'.
Proof. unfold post. destruct (m s); auto. Qed.

Lemma post_must {A} e (o : option A) (s : S) Q E :
  match o with Some a => Q a s | None => E e s end -> post (must e o) s Q E.
Proof. destruct o; exact (fun H => H). Qed.

Lemma post_Ok {A} (m : M S A) s a s' Q E :
  m s = Ok a s' -> post m s Q E -> Q a s'.
Proof. unfold post. now intros ->. Qed.

Lemma post_Raised {A} (m : M S A) s e s' Q E :
  m s = Raised e s' -> post m s Q E -> E e s'.
Proof. unfold post. now intros ->. Qed.

Lemma post_returns {A} (m : M S A) s Q :
  post m s Q no_exn -> exists a s', m s = Ok a s' /\ Q a s'.
Proof. unfold post. destruct (m s); [eauto | contradiction]. Qed.

Lemma post_of_Ok {A} (m : M S A) s a s' (Q : A -> S -> Prop) E :
  m s = Ok a s' -> Q a s' -> post m s Q E.
Proof. unfold post. now intros ->. Qed.

(** A loop, by an invariant on what remains to be done. *)
Lemma post_for_each {A} (I : list A -> S -> Prop) (body : A -> M S unit) E l s :
  I l s ->
  (forall a rest s, I (a :: rest) s -> post (body a) s (fun _ s' => I rest s') E) ->
  post (for_each l body) s (fun _ s' => I [] s') E.
Proof.
  intros HI Hbody. revert s HI. induction l as [|a rest IH]; intros s HI.
  - exact HI.
  - cbn [for_each]. apply post_bind.
    apply (post_weaken _ _ _ _ _ _ (Hbody a rest s HI)); [|auto].
    intros _ s' Hs'. now apply IH.
Qed.

End PostRules.

(** The state after [f.write(t)]. *)
Definition appended {W L} (f t : string) (s : machine W L) : machine W L :=
  Machine (world s) (<[f := (default EmptyString (files s !! f) ++ t)%string]> (files s))
    (stdout s) (trace s) (locals s).

Definition with_locals {W L L'} (l : L') (s : machine W L) : machine W L' :=
  Machine (world s) (files s) (stdout s) (trace s) l.

Definition printed {W L} (t : string) (s : machine W L) : machine W L :=
  Machine (world s) (files s) (stdout s ++ t)%string (trace s) (locals s).

Definition called {W L} (ev : list event) (w : W) (s : machine W L) : machine W L :=
  Machine w (files s) (stdout s) (trace s ++ ev) (locals s).

Section MachineRules.
Context {W L : Type}.
Implicit Types s : machine W L.

Lemma appended_appended f t1 t2 s :
  appended f t2 (appended f t1 s) = appended f (t1 ++ t2) s.
Proof.
  unfold appended. cbn [world files stdout trace locals].
  rewrite lookup_insert_eq, insert_insert_eq. cbn [from_option id].
  now rewrite PyFacts.append_assoc.
Qed.

Lemma post_write f t s (Q : unit -> machine W L -> Prop) E :
  Q tt (appended f t s) -> post (write f t) s Q E.
Proof. exact (fun H => H). Qed.

Lemma post_open_append f s (Q : unit -> machine W L -> Prop) E :
  Q tt (appended f "" s) -> post (open_append f) s Q E.
Proof.
  unfold post, open_append, appended. destruct s as [w fs out tr l].
  cbn [world files stdout trace locals].
  destruct (fs !! f) eqn:Hf; cbn [from_option id].
  - now rewrite PyFacts.append_nil_r, insert_id.
  - exact (fun H => H).
Qed.

Lemma post_print_end t e s (Q : unit -> machine W L -> Prop) E :
  Q tt (printed (t ++ e) s) -> post (print_end t e) s Q E.
Proof. exact (fun H => H). Qed.

Lemma post_print t s (Q : unit -> machine W L -> Prop) E :
  Q tt (printed (t ++ Py.nl) s) -> post (print t) s Q E.
Proof. exact (fun H => H). Qed.

Lemma post_get_locals s (Q : L -> machine W L -> Prop) E :
  Q (locals s) s -> post get_locals s Q E.
Proof. exact (fun H => H). Qed.

Lemma post_set_locals (g : L -> L) s (Q : unit -> machine W L -> Prop) E :
  Q tt (with_locals (g (locals s)) s) -> post (set_locals g) s Q E.
Proof. exact (fun H => H). Qed.

Lemma post_call {A} ev (f : W -> A * W) s (Q : A -> machine W L -> Prop) E :
  (forall a w, f (world s) = (a, w) -> Q a (called ev w s)) -> post (call ev f) s Q E.
Proof.
  unfold post, call, called. destruct (f (world s)) as [a w]. intros H. now apply H.
Qed.

Lemma post_open_read path s (Q : list string -> machine W L -> Prop) E :
  match files s !! path with
  | Some c => Q (Py.readlines c) s
  | None => E FileNotFoundError s
  end -> post (open_read path) s Q E.
Proof. unfold post, open_read. destruct (files s !! path); exact (fun H => H). Qed.

End MachineRules.

(** ** The report writer *)

Module DriverFacts.
Import Driver.

Ltac norm :=
  cbv beta;
  cbn [with_locals printed called world files stdout trace locals fst snd lists nbr].

Lemma locals_appended {W L} f t (s : machine W L) : locals (appended f t s) = locals s.
Proof. reflexivity. Qed.

Ltac step1 :=
  lazymatch goal with
  | |- post (bind _ _) _ _ _ => apply post_bind
  | |- post (ret _) _ _ _ => apply post_ret
  | |- post (raise _) _ _ _ => apply post_raise
  | |- post (append _ _ _) _ _ _ => apply post_set_locals
  | |- post (set_locals _) _ _ _ => apply post_set_locals
  | |- post (print _) _ _ _ => apply post_print
  | |- post (print_end _ _) _ _ _ => apply post_print_end
  | |- post get_locals _ _ _ => apply post_get_locals
  | |- post (get_list _ _) _ _ _ => unfold get_list
  | |- post (write _ _) _ _ _ => apply post_write
  | |- post (open_append _) _ _ _ => apply post_open_append
  | |- post (must _ _) _ _ _ => apply post_must
  | |- post (param _ _ _) _ _ _ => unfold param
  | |- post (assert _ _) _ _ _ => unfold assert
  | |- post (mean_time _ _) _ _ _ => unfold mean_time
  | |- post (print_list _ _ _) _ _ _ => unfold print_list
  | |- post (write_list _ _ _ _) _ _ _ => unfold write_list
  | |- post (write_mean _ _ _ _) _ _ _ => unfold write_mean
  | |- post (write_means3 _ _ _ _ _ _) _ _ _ => unfold write_means3
  | |- post (fmt_mean _ _) _ _ _ => unfold fmt_mean
  | |- post (call _ _) _ _ _ => apply post_call; intros ? ? ?
  end.

Ltac step := norm; step1; norm; rewrite ?appended_appended, ?locals_appended.

(** The labelled lists of a block, in the order they are written
    (lines 202-226). *)
Definition list_labels : list (string * var) :=
  [("Antichain sizes ", temp_antichain_sizes);
   ("Number of payoffs losing ", temp_nbr_payoffs_losing_player_0);
   ("Number of payoffs realizable ", temp_nbr_payoffs_realizable);
   ("CE antichain sizes ", temp_counterexample_antichain_sizes);
   ("CE exists calls ", temp_counterexample_nbr_calls_exists);
   ("CE exists calls times ", temp_counterexample_mean_time_calls_exists);
   ("CE dominated calls ", temp_counterexample_nbr_calls_dominated);
   ("CE dominated calls times ", temp_counterexample_mean_time_calls_dominated);
   ("CE total nbr calls ", temp_counterexample_nbr_calls);
   ("CE times process ", counterexample_times_process);
   ("CE times perf ", counterexample_times_perf_counter);
   ("CE times ", counterexample_times);
   ("AO antichain sizes ", temp_antichain_optimization_antichain_sizes);
   ("AO call1 calls ", temp_antichain_optimization_nbr_calls1);
   ("AO call1 calls times ", temp_antichain_optimization_mean_time_calls1);
   ("AO call2 calls ", temp_antichain_optimization_nbr_calls2);
   ("AO call2 calls times ", temp_antichain_optimization_mean_time_calls2);
   ("AO total nbr calls ", temp_antichain_optimization_nbr_calls);
   ("AO times process ", antichain_optimization_times_process);
   ("AO times perf ", antichain_optimization_times_perf_counter);
   ("AO times ", antichain_optimization_times)].

(** The labelled means of a block (lines 236-255). *)
Definition mean_labels : list (string * var) :=
  [("Mean antichain size ", temp_antichain_sizes);
   ("Mean number losing payoffs ", temp_nbr_payoffs_losing_player_0);
   ("Mean number realizable payoffs ", temp_nbr_payoffs_realizable);
   ("CE mean antichain size ", temp_counterexample_antichain_sizes);
   ("CE mean nbr exists calls ", temp_counterexample_nbr_calls_exists);
   ("CE mean exists time ", temp_counterexample_mean_time_calls_exists);
   ("CE mean nbr dominated calls ", temp_counterexample_nbr_calls_dominated);
   ("CE mean dominated time ", temp_counterexample_mean_time_calls_dominated);
   ("CE mean total nbr calls ", temp_counterexample_nbr_calls);
   ("AO mean antichain size ", temp_antichain_optimization_antichain_sizes);
   ("AO mean nbr call1 calls ", temp_antichain_optimization_nbr_calls1);
   ("AO mean call1 time ", temp_antichain_optimization_mean_time_calls1);
   ("AO mean nbr call2 calls ", temp_antichain_optimization_nbr_calls2);
   ("AO mean call2 time ", temp_antichain_optimization_mean_time_calls2);
   ("AO mean total nbr calls ", temp_antichain_optimization_nbr_calls)].

Definition unlines (ls : list string) : string :=
  fold_right (fun l acc => (l ++ Py.nl ++ acc)%string) EmptyString ls.

Section Block.
Variable tie : Q -> bool.

(** The arithmetic mean of a series, to three decimals, as text. *)
Definition mean_text (l : list Py.num) : string :=
  Py.fmt3 tie (Py.average (map Py.Q_of_num l)).

Definition means3_line (label : string) (l1 l2 l3 : list Py.num) : string :=
  (label ++ mean_text l1 ++ ", " ++ mean_text l2 ++ ", " ++ mean_text l3)%string.

(** The lines of the block of one value, without their newlines. *)
Definition block_lines (parameters : list Py.pyval) (i n : Z)
    (L : var -> list Py.num) : list string :=
  [("Variable value used " ++ Py.str_int i)%string;
   ("Parameters " ++ Py.str_list Py.repr_val parameters)%string;
   ("Number of objectives " ++ Py.str_int n)%string]
  ++ map (fun e => (fst e ++ Py.str_list Py.repr_num (L (snd e)))%string) list_labels
  ++ [means3_line "Mean running time CE " (L counterexample_times_process)
        (L counterexample_times_perf_counter) (L counterexample_times);
      means3_line "Mean running time AO " (L antichain_optimization_times_process)
        (L antichain_optimization_times_perf_counter) (L antichain_optimization_times)]
  ++ map (fun e => (fst e ++ mean_text (L (snd e)))%string) mean_labels
  ++ [EmptyString; EmptyString; EmptyString].

Definition block_text (parameters : list Py.pyval) (i n : Z)
    (L : var -> list Py.num) : string :=
  unlines (block_lines parameters i n L).
End Block.

Section Writer.
Variable C : Collaborators.

Lemma post_mean_of l (s : St C) (Q : Q -> St C -> Prop) E :
  (l <> [] -> Q (Py.average (map Py.Q_of_num l)) s) ->
  (l = [] -> E StatisticsError s) ->
  post (mean_of C l) s Q E.
Proof.
  intros HQ HE. unfold mean_of. apply post_must.
  destruct l; [now apply HE | apply HQ; discriminate].
Qed.

(** Why the writer can fail: [nbr] was never bound, or a list whose
    mean is taken is empty. *)
Definition write_block_fails (fr : frame) : exn -> St C -> Prop :=
  fun e _ => (e = UnboundLocalError /\ nbr fr = None)
             \/ (e = StatisticsError /\ exists v, lists fr v = []).

Ltac wstep :=
  first [ apply post_mean_of;
          [intros ? | intros ?; right; split; [reflexivity | eexists; eassumption]]
        | step ].

(** The writer appends the block of the value to the file, provided
    [nbr] is bound and no list is empty. *)
Lemma write_block_post f parameters i (s : St C) :
  post (write_block C f parameters i) s
    (fun _ s' =>
       exists n, nbr (locals s) = Some n
         /\ (forall v, lists (locals s) v <> [])
         /\ s' = appended f (block_text (tie_up C) parameters i n (lists (locals s))) s)
    (write_block_fails (locals s)).
Proof.
  destruct s as [w fs out tr [L n]]. unfold write_block.
  do 6 step. destruct n as [n|]; [|left; split; reflexivity].
  repeat wstep.
  exists n. split; [reflexivity|]. split.
  - intros v; destruct v; assumption.
  - f_equal. unfold block_text, block_lines, unlines, means3_line, mean_text, list_labels, mean_labels.
    cbn [map fold_right app fst snd].
    rewrite ?PyFacts.append_assoc, ?PyFacts.append_nil_r. reflexivity.
Qed.

Lemma write_block_returns f parameters i n (s : St C) :
  nbr (locals s) = Some n ->
  (forall v, lists (locals s) v <> []) ->
  write_block C f parameters i s
  = Ok tt (appended f (block_text (tie_up C) parameters i n (lists (locals s))) s).
Proof.
  intros Hn Hne. pose proof (write_block_post f parameters i s) as H.
  unfold post in H. destruct (write_block C f parameters i s) as [[] s'|e s'].
  - destruct H as (n' & Hn' & _ & ->). rewrite Hn in Hn'. now injection Hn' as <-.
  - exfalso. destruct H as [(_ & H)|(_ & v & H)]; [congruence | now destruct (Hne v)].
Qed.

End Writer.

End DriverFacts.

(** ** The trials of one value *)

Module TrialFacts.
Import Driver DriverFacts.

(** Each list of [fr'] is the list of [fr] with [d v] more entries. *)
Definition frame_grows (d : var -> nat) (fr fr' : frame) : Prop :=
  forall v, exists ext, lists fr' v = lists fr v ++ ext /\ List.length ext = d v.

Ltac grows :=
  let v := fresh "v" in
  intros v; destruct v; cbn [lists append_to];
  repeat match goal with
         | |- context [if var_eq_dec ?a ?b then _ else _] =>
             let d := eval vm_compute in (if var_eq_dec a b then true else false) in
             lazymatch d with
             | true => change (if var_eq_dec a b then ?x else ?y) with x
             | false => change (if var_eq_dec a b then ?x else ?y) with y
             end
         end;
  rewrite ?app_nil_r, <- ?app_assoc;
  first [ exists (@nil Py.num); split; [symmetry; apply app_nil_r | reflexivity]
        | eexists; split; reflexivity ].

Ltac tstep :=
  norm; cbv beta iota;
  lazymatch goal with
  | |- post (call _ _) _ _ _ =>
      let a := fresh "a" in
      apply post_call; intros a ? ?;
      repeat lazymatch type of a with (_ * _)%type => destruct a as [a ?] end
  | |- post (if ?b then _ else _) _ _ _ => destruct b eqn:?
  | |- match ?o with Some _ => _ | None => _ end => destruct o eqn:?
  | |- any_exn _ _ => exact I
  | |- _ => step1
  end; norm.

Section Trial.
Variable C : Collaborators.

Lemma trial_post benchmark_type parameters i j (s : St C) :
  post (trial C benchmark_type parameters i j) s
    (fun _ s' => files s' = files s
                 /\ frame_grows (fun _ => 1%nat) (locals s) (locals s')
                 /\ exists n, nbr (locals s') = Some n)
    any_exn.
Proof.
  destruct s as [w fs out tr [L n0]].
  unfold trial, prepare, generate, record_stats, timed_run, measure, print_progress.
  repeat tstep.
  all: (split; [reflexivity|]; split; [grows | eauto]).
Qed.

(** *** Every trial adds one entry to every list *)

Lemma range_trials N :
  exists js, Py.range 1 (N + 1) 1 = Some js /\ List.length js = Z.to_nat N
             /\ (1 <= N -> exists js', js = 1 :: js')%Z.
Proof.
  unfold Py.range. cbn [Z.eqb Z.ltb Z.compare].
  replace ((N + 1 - 1 + 1 - 1) / 1)%Z with N by (rewrite Z.div_1_r; lia).
  eexists. split; [reflexivity|]. split.
  - now rewrite length_map, length_seq.
  - intros HN. destruct (Z.to_nat N) as [|k] eqn:Hk; [lia|].
    cbn [seq map]. eexists. f_equal.
Qed.

Lemma run_trials_post benchmark_type parameters N i (s : St C) :
  post (run_trials C benchmark_type parameters N i) s
    (fun _ s' => files s' = files s
                 /\ (forall v, List.length (lists (locals s') v) = Z.to_nat N)
                 /\ ((1 <= N)%Z -> exists n, nbr (locals s') = Some n))
    any_exn.
Proof.
  unfold run_trials. apply post_bind, post_set_locals, post_bind.
  destruct (range_trials N) as (js & -> & Hlen & Hcons). apply post_must.
  apply (post_weaken _ _
           (fun _ s' => files s' = files s
              /\ (forall v, (List.length (lists (locals s') v) + List.length (@nil Z))%nat
                            = Z.to_nat N)
              /\ (List.length (@nil Z) < Z.to_nat N -> exists n, nbr (locals s') = Some n)%nat)
           _ any_exn _); [| |auto].
  - apply (post_for_each
             (fun rest s' => files s' = files s
                /\ (forall v, (List.length (lists (locals s') v) + List.length rest)%nat
                              = Z.to_nat N)
                /\ (List.length rest < Z.to_nat N -> exists n, nbr (locals s') = Some n)%nat)).
    + split; [reflexivity|]. split; [intros v; simpl; lia | lia].
    + intros j rest s1 (Hf & Hl & _).
      apply (post_weaken _ _ _ _ _ _ (trial_post benchmark_type parameters i j s1)); [|auto].
      intros _ s2 (Hf2 & Hg & Hn). split; [congruence|]. split; [|auto].
      intros v. destruct (Hg v) as (ext & -> & Hext). specialize (Hl v).
      rewrite length_app, Hext. simpl in Hl. lia.
  - intros _ s' (Hf & Hl & Hn). split; [exact Hf|]. split.
    + intros v. specialize (Hl v). simpl in Hl. lia.
    + intros HN. apply Hn. simpl. lia.
Qed.

(** *** Collaborators under which a sweep completes *)

Definition stats_ok (st : stats) : Prop :=
  call_times (stats_4 st) <> [] /\ call_times (stats_5 st) <> []
  /\ call_times (stats_7 st) <> [] /\ call_times (stats_8 st) <> [].

(** The intersection generator reports at least one call of each kind,
    and both algorithms answer [b]. *)
Record well_behaved (b : bool) : Prop := {
  wb_stats : forall i neg w,
    stats_ok (fst (fst (fst (fst (intersection_example C i neg w)))));
  wb_ce : forall aut n colors w,
    fst (counterexample_based_algorithm C aut n colors w) = b;
  wb_ao : forall aut n colors w,
    fst (antichain_optimization_algorithm C aut n colors w) = b
}.

Lemma trial_returns b i j (s : St C) :
  well_behaved b ->
  post (trial C "intersection_vertices" [Py.PBool b] i j) s
    (fun _ s' => files s' = files s
                 /\ frame_grows (fun _ => 1%nat) (locals s) (locals s')
                 /\ exists n, nbr (locals s') = Some n)
    no_exn.
Proof.
  intros [Hst Hce Hao].
  destruct s as [w fs out tr [L n0]].
  unfold trial, prepare, generate, record_stats, timed_run, measure, print_progress.
  cbn [String.eqb Ascii.eqb Bool.eqb].
  repeat tstep.
  all: repeat match goal with
         | H : nth_error [_] 0 = _ |- _ =>
             cbn in H; first [discriminate H | injection H as <-]
         end.
  all: match goal with
       | H : intersection_example C ?i ?neg ?w = _ |- _ =>
           let Hs := fresh "Hs" in
           pose proof (Hst i neg w) as Hs; rewrite H in Hs; cbn [fst] in Hs;
           unfold stats_ok in Hs; destruct Hs as (? & ? & ? & ?)
       end.
  all: try match goal with
         | H : Py.mean ?l = None |- _ => destruct l; [congruence | discriminate H]
         end.
  all: try match goal with
         | H : counterexample_based_algorithm C ?a ?n ?c ?w = (?r, _),
           Hb : Py.bool_eq_val ?r _ = false |- _ =>
             pose proof (Hce a n c w) as Hr; rewrite H in Hr; cbn [fst] in Hr;
             subst r; destruct b; discriminate Hb
         end.
  all: try match goal with
         | H : antichain_optimization_algorithm C ?a ?n ?c ?w = (?r, _),
           Hb : Py.bool_eq_val ?r _ = false |- _ =>
             pose proof (Hao a n c w) as Hr; rewrite H in Hr; cbn [fst] in Hr;
             subst r; destruct b; discriminate Hb
         end.
  split; [reflexivity|]; split; [grows | eauto].
Qed.
End Trial.

End TrialFacts.

(** ** The sweep over the values *)

Module SweepFacts.
Import Driver DriverFacts TrialFacts.

(** What a completed value has left in the report: the value, the number
    of objectives of its last instance, and its lists. *)
Record block : Type := Block { b_value : Z; b_nbr : Z; b_lists : var -> list Py.num }.

(** Every list of the block has [N] entries. *)
Definition full (N : Z) (b : block) : Prop :=
  forall v, List.length (b_lists b v) = Z.to_nat N.

Definition report_text (tie : Q -> bool) (parameters : list Py.pyval) (bs : list block)
  : string :=
  fold_right (fun b acc => (block_text tie parameters (b_value b) (b_nbr b) (b_lists b)
                            ++ acc)%string) EmptyString bs.

Lemma report_text_app tie ps bs bs' :
  report_text tie ps (bs ++ bs') = (report_text tie ps bs ++ report_text tie ps bs')%string.
Proof.
  induction bs as [|b bs IH]; [reflexivity|].
  change (report_text tie ps ((b :: bs) ++ bs'))
    with (block_text tie ps (b_value b) (b_nbr b) (b_lists b)
          ++ report_text tie ps (bs ++ bs'))%string.
  rewrite IH.
  change (report_text tie ps (b :: bs))
    with (block_text tie ps (b_value b) (b_nbr b) (b_lists b) ++ report_text tie ps bs)%string.
  now rewrite PyFacts.append_assoc.
Qed.

(** [fs'] is [fs] with [t] appended to the file [f]. *)
Definition file_grown (f t : string) (fs fs' : gmap string string) : Prop :=
  (forall p, p <> f -> fs' !! p = fs !! p)
  /\ default EmptyString (fs' !! f) = (default EmptyString (fs !! f) ++ t)%string.

Section Sweep.
Variable C : Collaborators.

Lemma run_trials_returns b N i (s : St C) :
  well_behaved C b ->
  post (run_trials C "intersection_vertices" [Py.PBool b] N i) s
    (fun _ s' => files s' = files s
                 /\ (forall v, List.length (lists (locals s') v) = Z.to_nat N)
                 /\ ((1 <= N)%Z -> exists n, nbr (locals s') = Some n))
    no_exn.
Proof.
  intros Hwb.
  unfold run_trials. apply post_bind, post_set_locals, post_bind.
  destruct (range_trials N) as (js & -> & Hlen & Hcons). apply post_must.
  apply (post_weaken _ _
           (fun _ s' => files s' = files s
              /\ (forall v, (List.length (lists (locals s') v) + List.length (@nil Z))%nat
                            = Z.to_nat N)
              /\ (List.length (@nil Z) < Z.to_nat N -> exists n, nbr (locals s') = Some n)%nat)
           _ no_exn _); [| |auto].
  - apply (post_for_each
             (fun rest s' => files s' = files s
                /\ (forall v, (List.length (lists (locals s') v) + List.length rest)%nat
                              = Z.to_nat N)
                /\ (List.length rest < Z.to_nat N -> exists n, nbr (locals s') = Some n)%nat)).
    + split; [reflexivity|]. split; [intros v; simpl; lia | lia].
    + intros j rest s1 (Hf & Hl & _).
      apply (post_weaken _ _ _ _ _ _ (trial_returns C b i j s1 Hwb)); [|auto].
      intros _ s2 (Hf2 & Hg & Hn). split; [congruence|]. split; [|auto].
      intros v. destruct (Hg v) as (ext & -> & Hext). specialize (Hl v).
      rewrite length_app, Hext. simpl in Hl. lia.
  - intros _ s' (Hf & Hl & Hn). split; [exact Hf|]. split.
    + intros v. specialize (Hl v). simpl in Hl. lia.
    + intros HN. apply Hn. simpl. lia.
Qed.

Lemma sweep_value_returns b f N i (s : St C) :
  well_behaved C b -> (1 <= N)%Z ->
  post (sweep_value C "intersection_vertices" f [Py.PBool b] N i) s
    (fun _ s' => exists blk, b_value blk = i /\ full N blk
         /\ files s'
            = files (appended f (block_text (tie_up C) [Py.PBool b] i (b_nbr blk)
                                   (b_lists blk)) s))
    no_exn.
Proof.
  intros Hwb HN. unfold sweep_value. apply post_bind.
  apply (post_weaken _ _ _ _ _ _ (run_trials_returns b N i s Hwb)); [|auto].
  intros _ s1 (Hf & Hl & Hn). destruct (Hn HN) as (n & Hn1).
  eapply post_of_Ok.
  - apply (write_block_returns C f _ i n s1 Hn1).
    intros v Hv. specialize (Hl v). rewrite Hv in Hl. simpl in Hl. lia.
  - exists (Block i n (lists (locals s1))). split; [reflexivity|]. split; [exact Hl|].
    unfold appended. cbn [files b_nbr b_lists]. now rewrite Hf.
Qed.

Lemma file_grown_appended {L} f t t0 (s0 : machine (World C) L) fs' :
  file_grown f t0 (files s0) fs' ->
  forall fs'', fs'' = <[f := (default EmptyString (fs' !! f) ++ t)%string]> fs' ->
  file_grown f (t0 ++ t) (files s0) fs''.
Proof.
  intros (Hother & Hf) fs'' ->. split.
  - intros p Hp. rewrite lookup_insert_ne by congruence. now apply Hother.
  - rewrite lookup_insert_eq. cbn [from_option id]. now rewrite Hf, PyFacts.append_assoc.
Qed.

(** The loop over the values: one full block per value, in order. *)
Lemma sweep_returns b f N vs (s : St C) :
  well_behaved C b -> (1 <= N)%Z ->
  post (for_each vs (sweep_value C "intersection_vertices" f [Py.PBool b] N)) s
    (fun _ s' => exists bs, map b_value bs = vs /\ Forall (full N) bs
         /\ file_grown f (report_text (tie_up C) [Py.PBool b] bs) (files s) (files s')
         /\ (vs <> [] -> is_Some (files s' !! f)))
    no_exn.
Proof.
  intros Hwb HN.
  apply (post_weaken _ _
           (fun _ s' => exists bs, map b_value bs ++ [] = vs /\ Forall (full N) bs
              /\ file_grown f (report_text (tie_up C) [Py.PBool b] bs) (files s) (files s')
              /\ (bs <> [] -> is_Some (files s' !! f)))
           _ no_exn _); [| |auto].
  - apply (post_for_each
             (fun rest s' => exists bs, map b_value bs ++ rest = vs /\ Forall (full N) bs
                /\ file_grown f (report_text (tie_up C) [Py.PBool b] bs) (files s) (files s')
                /\ (bs <> [] -> is_Some (files s' !! f)))).
    + exists []. split; [reflexivity|]. split; [constructor|]. split; [|congruence].
      split; [reflexivity|]. cbn [report_text fold_right]. now rewrite PyFacts.append_nil_r.
    + intros i rest s1 (bs & Hvs & Hfull & Hg & _).
      apply (post_weaken _ _ _ _ _ _ (sweep_value_returns b f N i s1 Hwb HN)); [|auto].
      intros _ s2 (blk & Hi & Hblk & Hf2). exists (bs ++ [blk]).
      split; [rewrite map_app, <- app_assoc; cbn [map app]; now rewrite Hi|].
      split; [apply Forall_app; split; [exact Hfull | now constructor]|].
      split.
      * rewrite report_text_app. cbn [report_text fold_right].
        rewrite PyFacts.append_nil_r.
        apply (file_grown_appended f _ _ s _ Hg). rewrite Hi. exact Hf2.
      * intros _. rewrite Hf2. unfold appended. cbn [files].
        rewrite lookup_insert_eq. eauto.
  - intros _ s' (bs & Hvs & Hfull & Hg & Hsome). rewrite app_nil_r in Hvs.
    exists bs. repeat split; try assumption; try apply Hg.
    intros Hne. apply Hsome. intros ->. now subst vs.
Qed.

Lemma run_benchmark_returns b f N range_start range_end range_step vs (s : St C) :
  well_behaved C b -> (1 <= N)%Z ->
  Py.range range_start range_end range_step = Some vs ->
  post (run_benchmark C "intersection_vertices" f [Py.PBool b] N
          range_start range_end range_step) s
    (fun _ s' => exists bs, map b_value bs = vs /\ Forall (full N) bs
         /\ file_grown f (report_text (tie_up C) [Py.PBool b] bs) (files s) (files s')
         /\ (vs <> [] -> is_Some (files s' !! f)))
    no_exn.
Proof.
  intros Hwb HN Hr. unfold run_benchmark.
  apply post_bind, post_set_locals, post_bind. rewrite Hr. apply post_must.
  exact (sweep_returns b f N vs (with_locals (Frame empty_lists None) s) Hwb HN).
Qed.

End Sweep.
End SweepFacts.

(** ** A small instance of the collaborators, to run the script on *)

Module Example.
Import Driver.

Definition toy_stats : stats :=
  Stats 4 0 2 3 (CallStats 5 [1 # 2; 1 # 4]%Q) (CallStats 1 [1 # 10]%Q) 2
    (CallStats 2 [1 # 3]%Q) (CallStats 3 [2 # 3]%Q).

(** The world is a clock counting milliseconds; the algorithms take 1500
    and 250 of them and answer [ce] and [ao]. *)
Definition toy (ce ao : bool) : Collaborators := {|
  World := Z;
  Automaton := unit;
  Colors := unit;
  random_automaton := fun _ _ i _ _ _ _ w => ((toy_stats, tt, i, tt), w);
  intersection_example := fun _ _ w => ((toy_stats, tt, 1%Z, tt), w);
  intersection_example_objective_increase := fun i _ w => ((toy_stats, tt, i, tt), w);
  counterexample_based_algorithm := fun _ _ _ w => (ce, (w + 1500)%Z);
  antichain_optimization_algorithm := fun _ _ _ w => (ao, (w + 250)%Z);
  process_time := fun w => ((w # 1000)%Q, w);
  perf_counter := fun w => ((w # 1000)%Q, (w + 1)%Z);
  time_time := fun w => ((w # 1000)%Q, (w + 1)%Z);
  tie_up := fun _ => true
|}.

(** No file, nothing printed, nothing called. *)
Definition start {L} (l : L) : machine Z L := Machine 0%Z ∅ EmptyString [] l.

Definition fresh_frame : frame := Frame empty_lists None.

End Example.

(** ** The consistency check, the series and the unsupported kinds *)

Module ClaimsDriver.
Import Driver DriverFacts TrialFacts SweepFacts.

Lemma post_raises {S A} (m : M S A) s e0 s0 :
  post m s (fun _ _ => False) (fun e s' => e = e0 /\ s' = s0) -> m s = Raised e0 s0.
Proof. unfold post. destruct (m s); [contradiction | now intros [-> ->]]. Qed.

Lemma bind_Ok {S A B} (m : M S A) (k : A -> M S B) s a s' :
  m s = Ok a s' -> bind m k s = k a s'.
Proof. unfold bind. now intros ->. Qed.

Lemma bind_print {W L B} (t : string) (k : unit -> M (machine W L) B) s :
  bind (print t) k s = k tt (printed (t ++ Py.nl) s).
Proof. reflexivity. Qed.

Lemma bind_Raised {S A B} (m : M S A) (k : A -> M S B) s e s' :
  m s = Raised e s' -> bind m k s = Raised e s'.
Proof. unfold bind. now intros ->. Qed.

Section Consistency.
Variable C : Collaborators.

(** The frame once the three elapsed times of one algorithm are
    appended (lines 150-152, 168-170). *)
Definition record_times (v_process v_perf v_wall : var) (d_process d_perf d_wall : Q)
    (fr : frame) : frame :=
  append_to v_wall (float3 C d_wall)
    (append_to v_perf (float3 C d_perf) (append_to v_process (float3 C d_process) fr)).

Lemma timed_run_eq ev algorithm gen_positivity v1 v2 v3 (s s' : St C) b t1 t2 t3 :
  measure C ev algorithm s = Ok (b, t1, t2, t3) s' ->
  timed_run C ev algorithm gen_positivity v1 v2 v3 s
  = if Py.bool_eq_val b gen_positivity
    then Ok tt (with_locals (record_times v1 v2 v3 t1 t2 t3 (locals s')) s')
    else Raised AssertionError s'.
Proof.
  intros H. unfold timed_run. rewrite (bind_Ok _ _ _ _ _ H). cbv beta iota.
  unfold assert. destruct (Py.bool_eq_val b gen_positivity); reflexivity.
Qed.

Lemma measure_post ev algorithm (s : St C) :
  post (measure C ev algorithm) s
    (fun _ s' => locals s' = locals s /\ files s' = files s /\ stdout s' = stdout s
                 /\ trace s' = trace s ++ [ev])
    no_exn.
Proof.
  destruct s as [w fs out tr fr]. unfold measure. repeat tstep.
  repeat split. now rewrite !app_nil_r.
Qed.

Lemma print_progress_post (s : St C) :
  post (print_progress C) s
    (fun _ s' => locals s' = locals s /\ files s' = files s /\ trace s' = trace s
                 /\ world s' = world s)
    no_exn.
Proof.
  destruct s as [w fs out tr fr]. unfold print_progress. repeat tstep. repeat split.
Qed.

(** The state in which the second algorithm is measured: the times of
    the first are recorded and line 154 is printed. *)
Definition after_counterexample (t1 t2 t3 : Q) (s : St C) : St C :=
  printed (" ----- computing antichain optimization time -----" ++ Py.nl)
    (with_locals
       (record_times counterexample_times_process counterexample_times_perf_counter
          counterexample_times t1 t2 t3 (locals s)) s).

End Consistency.

Section ConsistencySteps.
Variable C : Collaborators.
Variables (benchmark_type : string) (parameters : list Py.pyval) (i j : Z).
Variables (s s1 s2 : St C) (aut : Automaton C) (n : Z) (colors : Colors C).
Variables (gen_positivity : Py.pyval) (ce : bool) (t1 t2 t3 : Q).
Hypothesis Hprep :
  prepare C benchmark_type parameters i j s = Ok (aut, n, colors, gen_positivity) s1.
Hypothesis Hce :
  measure C CounterexampleCalled (counterexample_based_algorithm C aut n colors) s1
  = Ok (ce, t1, t2, t3) s2.

Lemma trial_first_answer_differs :
  Py.bool_eq_val ce gen_positivity = false ->
  trial C benchmark_type parameters i j s = Raised AssertionError s2.
Proof.
  intros Hne. unfold trial. rewrite (bind_Ok _ _ _ _ _ Hprep). cbv beta iota.
  apply bind_Raised. rewrite (timed_run_eq C _ _ _ _ _ _ _ _ _ _ _ _ Hce), Hne.
  reflexivity.
Qed.

Lemma trial_first_answer_agrees :
  Py.bool_eq_val ce gen_positivity = true ->
  trial C benchmark_type parameters i j s
  = bind (timed_run C AntichainOptimizationCalled
            (antichain_optimization_algorithm C aut n colors) gen_positivity
            antichain_optimization_times_process
            antichain_optimization_times_perf_counter
            antichain_optimization_times)
      (fun _ => print_progress C) (after_counterexample C t1 t2 t3 s2).
Proof.
  intros Heq. unfold trial. rewrite (bind_Ok _ _ _ _ _ Hprep). cbv beta iota.
  pose proof (timed_run_eq C _ _ gen_positivity counterexample_times_process
                counterexample_times_perf_counter counterexample_times
                _ _ _ _ _ _ Hce) as Hrun.
  rewrite Heq in Hrun. rewrite (bind_Ok _ _ _ _ _ Hrun). cbv beta.
  rewrite bind_print. reflexivity.
Qed.

End ConsistencySteps.

Lemma for_each_cons_Ok {S A} (body : A -> M S unit) a l s s' :
  body a s = Ok tt s' -> for_each (a :: l) body s = for_each l body s'.
Proof. intros H. cbn [for_each]. now rewrite (bind_Ok _ _ _ _ _ H). Qed.

Lemma for_each_cons_Raised {S A} (body : A -> M S unit) a l s e s' :
  body a s = Raised e s' -> for_each (a :: l) body s = Raised e s'.
Proof. intros H. cbn [for_each]. now apply bind_Raised. Qed.

(** C1.  In every trial each algorithm is measured on the instance that
    was generated, counterexample-based first, and its answer is compared
    with the expected one as soon as it has returned.  An answer that
    differs raises [AssertionError] there: the times of that algorithm
    are not appended (after the first algorithm the lists are as
    [prepare] left them and the second algorithm is never called), and
    the loop over the trials stops with the same exception.  When both
    answers agree the trial returns, all six times appended, and the loop
    goes on with the next trial. *)
Theorem trial_checks_each_answer (C : Collaborators)
    (benchmark_type : string) (parameters : list Py.pyval) (i j : Z) (js : list Z)
    (s s1 s2 : St C) aut n colors gen_positivity ce t1 t2 t3 :
  prepare C benchmark_type parameters i j s = Ok (aut, n, colors, gen_positivity) s1 ->
  measure C CounterexampleCalled (counterexample_based_algorithm C aut n colors) s1
    = Ok (ce, t1, t2, t3) s2 ->
  let trials := for_each (j :: js) (trial C benchmark_type parameters i) in
  locals s2 = locals s1
  /\ (Py.bool_eq_val ce gen_positivity = false ->
      trial C benchmark_type parameters i j s = Raised AssertionError s2
      /\ trials s = Raised AssertionError s2
      /\ trace s2 = trace s1 ++ [CounterexampleCalled])
  /\ (Py.bool_eq_val ce gen_positivity = true ->
      forall ao u1 u2 u3 s4,
        measure C AntichainOptimizationCalled (antichain_optimization_algorithm C aut n colors)
          (after_counterexample C t1 t2 t3 s2) = Ok (ao, u1, u2, u3) s4 ->
        let with_ce := record_times C counterexample_times_process
                         counterexample_times_perf_counter counterexample_times
                         t1 t2 t3 (locals s1) in
        (Py.bool_eq_val ao gen_positivity = false ->
         trial C benchmark_type parameters i j s = Raised AssertionError s4
         /\ trials s = Raised AssertionError s4
         /\ locals s4 = with_ce)
        /\ (Py.bool_eq_val ao gen_positivity = true ->
            exists s5,
              trial C benchmark_type parameters i j s = Ok tt s5
              /\ trials s = for_each js (trial C benchmark_type parameters i) s5
              /\ locals s5 = record_times C antichain_optimization_times_process
                               antichain_optimization_times_perf_counter
                               antichain_optimization_times u1 u2 u3 with_ce)).
Proof.
  intros Hprep Hce trials.
  pose proof (post_Ok _ _ _ _ _ _ Hce (measure_post C _ _ s1)) as (Hl2 & _ & _ & Htr2).
  split; [exact Hl2|]. split.
  - intros Hne.
    pose proof (trial_first_answer_differs C _ _ _ _ _ _ _ _ _ _ _ _ _ _ _ Hprep Hce Hne) as Ht.
    split; [exact Ht|]. split; [exact (for_each_cons_Raised _ _ _ _ _ _ Ht) | exact Htr2].
  - intros Heq ao u1 u2 u3 s4 Hao with_ce.
    pose proof (post_Ok _ _ _ _ _ _ Hao (measure_post C _ _ _)) as (Hl4 & _ & _ & _).
    unfold after_counterexample in Hl4. cbn [locals printed with_locals] in Hl4.
    rewrite Hl2 in Hl4.
    pose proof (trial_first_answer_agrees C _ _ _ _ _ _ _ _ _ _ _ _ _ _ _ Hprep Hce Heq)
      as Hstep.
    pose proof (timed_run_eq C AntichainOptimizationCalled
                  (antichain_optimization_algorithm C aut n colors) gen_positivity
                  antichain_optimization_times_process
                  antichain_optimization_times_perf_counter antichain_optimization_times
                  _ _ _ _ _ _ Hao) as Hrun.
    split.
    + intros Hne. rewrite Hne in Hrun.
      rewrite (bind_Raised _ _ _ _ _ Hrun) in Hstep.
      split; [exact Hstep|]. split; [exact (for_each_cons_Raised _ _ _ _ _ _ Hstep) | exact Hl4].
    + intros Heq'. rewrite Heq' in Hrun.
      rewrite (bind_Ok _ _ _ _ _ Hrun) in Hstep. cbv beta in Hstep.
      destruct (post_returns _ _ _
                  (print_progress_post C
                     (with_locals
                        (record_times C antichain_optimization_times_process
                           antichain_optimization_times_perf_counter
                           antichain_optimization_times u1 u2 u3 (locals s4)) s4)))
        as ([] & s5 & E5 & Hl5 & _).
      rewrite E5 in Hstep. exists s5.
      split; [exact Hstep|]. split; [exact (for_each_cons_Ok _ _ _ _ _ Hstep)|].
      rewrite Hl5. cbn [locals with_locals]. rewrite Hl4. reflexivity.
Qed.


Lemma trial_checks_each_answer_witness :
  exists s2,
    trial (Example.toy false true) "intersection_vertices" [Py.PBool true] 3 1
      (Example.start Example.fresh_frame) = Raised AssertionError s2
    /\ lists (locals s2) counterexample_times_process = []
    /\ trace s2 = [InstanceRequested "intersection_vertices" 3 1; CounterexampleCalled].
Proof.
  pose (C := Example.toy false true).
  pose (s0 := Example.start Example.fresh_frame : St C).
  destruct (prepare C "intersection_vertices" [Py.PBool true] 3 1 s0)
    as [[[[aut n] colors] gp] s1|e s1] eqn:Hprep;
    [|exfalso; vm_compute in Hprep; discriminate Hprep].
  destruct (measure C CounterexampleCalled
              (counterexample_based_algorithm C aut n colors) s1)
    as [[[[ce t1] t2] t3] s2|e s2] eqn:Hce;
    [|exfalso; pose proof (post_Raised _ _ _ _ _ _ Hce (measure_post C _ _ s1)) as []].
  destruct (trial_checks_each_answer C "intersection_vertices" [Py.PBool true] 3 1 []
              s0 s1 s2 aut n colors gp ce t1 t2 t3 Hprep Hce) as (Hl & Hdiff & _).
  assert (gp = Py.PBool true /\ lists (locals s1) counterexample_times_process = []
          /\ trace s1 = [InstanceRequested "intersection_vertices" 3 1]) as (-> & Hs1 & Htr1).
  { vm_compute in Hprep. injection Hprep as _ _ _ <- <-. repeat split. }
  assert (ce = false) as ->.
  { unfold measure in Hce. vm_compute in Hce. now injection Hce as <- _ _ _ _. }
  exists s2. destruct (Hdiff eq_refl) as (Ht & _ & Htr).
  split; [exact Ht|]. split.
  - exact (eq_trans (f_equal (fun fr => lists fr counterexample_times_process) Hl) Hs1).
  - exact (eq_trans Htr (f_equal (fun l => l ++ [CounterexampleCalled]) Htr1)).
Defined.

(** C2.  When the [N >= 1] trials of a value have all returned, each of
    the twenty-one lists holds exactly [N] entries, and it is from that
    state that the means are taken and the block is written. *)
Theorem every_series_has_N_entries (C : Collaborators)
    (benchmark_type save_file : string) (parameters : list Py.pyval) (N i : Z)
    (s s' : St C) :
  (1 <= N)%Z ->
  run_trials C benchmark_type parameters N i s = Ok tt s' ->
  (forall v, Z.of_nat (List.length (lists (locals s') v)) = N)
  /\ sweep_value C benchmark_type save_file parameters N i s
     = write_block C save_file parameters i s'.
Proof.
  intros HN Hrun.
  pose proof (post_Ok _ _ _ _ _ _ Hrun (run_trials_post C benchmark_type parameters N i s))
    as (_ & Hlen & _).
  split.
  - intros v. rewrite Hlen. lia.
  - unfold sweep_value. now rewrite (bind_Ok _ _ _ _ _ Hrun).
Qed.

Lemma every_series_has_N_entries_witness :
  Forall (fun v =>
    Z.of_nat (List.length (lists (locals (final
      (run_trials (Example.toy true true) "intersection_objectives" [Py.PBool true] 2 7
         (Example.start Example.fresh_frame)))) v)) = 2%Z) all_vars.
Proof.
  pose (C := Example.toy true true).
  pose (s0 := Example.start Example.fresh_frame : St C).
  assert (run_trials C "intersection_objectives" [Py.PBool true] 2 7 s0
          = Ok tt (final (run_trials C "intersection_objectives" [Py.PBool true] 2 7 s0)))
    as Hrun by (vm_compute; reflexivity).
  apply List.Forall_forall. intros v _.
  apply (every_series_has_N_entries C "intersection_objectives" "report.txt"
           [Py.PBool true] 2 7 s0 _ ltac:(lia) Hrun).
Defined.

(** *** Unsupported kinds *)

Definition unsupported (benchmark_type : string) : Prop :=
  benchmark_type <> "random" /\ benchmark_type <> "intersection_vertices"
  /\ benchmark_type <> "intersection_objectives".

Lemma generate_unsupported (C : Collaborators) benchmark_type parameters i j (s : St C) :
  unsupported benchmark_type ->
  generate C benchmark_type parameters i j s = Raised BenchmarkNotSupportedError s.
Proof.
  intros (H1 & H2 & H3). unfold generate.
  apply String.eqb_neq in H1, H2, H3. now rewrite H1, H2, H3.
Qed.

(** C4, as the code has it.  The kind is looked at when the first
    instance is about to be generated.  With an unsupported kind, a
    non-empty range and [N >= 1], [run_benchmark] raises
    [BenchmarkNotSupportedError] and the machine is untouched: no
    instance requested, no file opened or written, nothing printed.  With
    an empty range it returns normally, the machine untouched as well. *)
Theorem unsupported_kind_fails_at_first_trial (C : Collaborators)
    (benchmark_type save_file : string) (parameters : list Py.pyval)
    (N range_start range_end range_step : Z) (s : St C) :
  unsupported benchmark_type ->
  (1 <= N)%Z ->
  let run := run_benchmark C benchmark_type save_file parameters N
               range_start range_end range_step in
  let untouched s' :=
    world s' = world s /\ files s' = files s /\ stdout s' = stdout s /\ trace s' = trace s in
  (forall v vs, Py.range range_start range_end range_step = Some (v :: vs) ->
     exists s', run s = Raised BenchmarkNotSupportedError s' /\ untouched s')
  /\ (Py.range range_start range_end range_step = Some [] ->
      exists s', run s = Ok tt s' /\ untouched s').
Proof.
  intros Hun HN run untouched. split.
  - intros v vs Hr. exists (with_locals (Frame empty_lists None) s). split.
    + apply post_raises. unfold run, run_benchmark.
      apply post_bind, post_set_locals, post_bind. rewrite Hr. apply post_must.
      cbn [for_each]. apply post_bind. unfold sweep_value. apply post_bind.
      unfold run_trials. apply post_bind, post_set_locals, post_bind.
      destruct (range_trials N) as (js & -> & _ & Hcons).
      destruct (Hcons HN) as (js' & ->). apply post_must.
      cbn [for_each]. apply post_bind. unfold trial. apply post_bind.
      unfold prepare. apply post_bind.
      unfold post at 1. rewrite (generate_unsupported C _ _ _ _ _ Hun).
      split; [reflexivity | now destruct s].
    + now destruct s.
  - intros Hr. exists (with_locals (Frame empty_lists None) s). split; [|now destruct s].
    unfold run, run_benchmark.
    erewrite bind_Ok by reflexivity. rewrite Hr. reflexivity.
Qed.

Lemma unsupported_kind_fails_at_first_trial_witness :
  exists s',
    run_benchmark (Example.toy true true) "sizes" "report.txt" [Py.PBool true] 1 3 1 (-1)
      (Example.start Example.fresh_frame) = Raised BenchmarkNotSupportedError s'
    /\ files s' = ∅ /\ trace s' = [].
Proof.
  destruct (unsupported_kind_fails_at_first_trial (Example.toy true true) "sizes" "report.txt"
              [Py.PBool true] 1 3 1 (-1) (Example.start Example.fresh_frame))
    as (Hfail & _).
  - repeat split; discriminate.
  - lia.
  - destruct (Hfail 3%Z [2%Z] eq_refl) as (s' & Hrun & _ & Hf & _ & Ht).
    exists s'. split; [exact Hrun|]. split; assumption.
Defined.

(** C4, as stated, fails on an empty range: the unsupported kind is never
    looked at and [run_benchmark] returns without any error. *)
Lemma unsupported_kind_empty_range_returns :
  exists s',
    run_benchmark (Example.toy true true) "sizes" "report.txt" [Py.PBool true] 1 0 0 1
      (Example.start Example.fresh_frame) = Ok tt s'
    /\ files s' = ∅ /\ trace s' = [].
Proof. eexists. split; [|split]; vm_compute; reflexivity. Qed.

End ClaimsDriver.

(** ** The text of the report *)

Module ReportFacts.
Import Py PyFacts Driver DriverFacts.

(** *** The report is made of lines *)

Definition one_line (s : string) : Prop := all_chars (not_char nl_char) s = true.

Lemma num_char_not_nl c : is_num_char c = true -> not_char nl_char c = true.
Proof. by_ascii_cases c. Qed.

Lemma one_line_app a b : one_line a -> one_line b -> one_line (a ++ b).
Proof. unfold one_line. intros Ha Hb. now rewrite all_chars_app, Ha, Hb. Qed.

Lemma one_line_num s n : num_text s n -> one_line s.
Proof. intros (H & _). revert H. apply all_chars_weaken, num_char_not_nl. Qed.

Lemma one_line_str_int z : one_line (str_int z).
Proof. apply (one_line_num _ _ (num_text_int z)). Qed.

Lemma one_line_fmt3 tie q : one_line (fmt3 tie q).
Proof. apply (one_line_num _ _ (num_text_fmt3 _)). Qed.

Lemma one_line_join sep l :
  one_line sep -> Forall one_line l -> one_line (join sep l).
Proof.
  intros Hsep. induction 1 as [|x l Hx Hl IH]; [reflexivity|].
  destruct l as [|y l']; [exact Hx|].
  change (join sep (x :: y :: l')) with (x ++ sep ++ join sep (y :: l'))%string.
  auto using one_line_app.
Qed.

Lemma one_line_str_list {A} (repr : A -> string) l :
  (forall a, one_line (repr a)) -> one_line (str_list repr l).
Proof.
  intros H. unfold str_list. apply one_line_app; [reflexivity|].
  apply one_line_app; [|reflexivity].
  apply one_line_join; [reflexivity|]. apply Forall_map, Forall_forall. auto.
Qed.

Lemma one_line_repr_num n : one_line (repr_num n).
Proof. apply (one_line_num _ _ (num_text_repr n)). Qed.

Lemma one_line_repr_val v : one_line (repr_val v).
Proof. destruct v as [n|[]]; [apply one_line_repr_num | reflexivity | reflexivity]. Qed.

Lemma readlines_unlines ls rest :
  Forall one_line ls ->
  readlines (unlines ls ++ rest) = map (fun l => l ++ nl)%string ls ++ readlines rest.
Proof.
  induction 1 as [|l ls Hl _ IH]; [reflexivity|].
  change (unlines (l :: ls)) with (l ++ nl ++ unlines ls)%string.
  rewrite !append_assoc.
  change (l ++ nl ++ unlines ls ++ rest)%string
    with (l ++ String nl_char (unlines ls ++ rest))%string.
  rewrite (readlines_line _ _ Hl), IH. reflexivity.
Qed.

Section Lines.
Variable tie : Q -> bool.

Lemma one_line_mean_text l : one_line (mean_text tie l).
Proof. apply one_line_fmt3. Qed.

Lemma block_lines_one_line parameters i n L :
  Forall one_line (block_lines tie parameters i n L).
Proof.
  unfold block_lines, list_labels, mean_labels, means3_line. cbn [map app fst snd].
  repeat (apply List.Forall_cons); try apply List.Forall_nil.
  all: repeat lazymatch goal with
              | |- one_line (String.append _ _) => apply one_line_app
              | |- one_line (str_int _) => apply one_line_str_int
              | |- one_line (mean_text _ _) => apply one_line_mean_text
              | |- one_line (str_list repr_num _) =>
                  apply one_line_str_list, one_line_repr_num
              | |- one_line (str_list repr_val _) =>
                  apply one_line_str_list, one_line_repr_val
              | |- one_line _ => reflexivity
              end.
Qed.

Lemma readlines_block parameters i n L rest :
  readlines (block_text tie parameters i n L ++ rest)
  = map (fun l => l ++ nl)%string (block_lines tie parameters i n L) ++ readlines rest.
Proof. apply readlines_unlines, block_lines_one_line. Qed.
End Lines.

(** *** Blank lines *)

(** How many of the first lines of [ls] are empty lines. *)
Fixpoint leading_blank (ls : list string) : nat :=
  match ls with
  | l :: t => if String.eqb l nl then S (leading_blank t) else 0
  | [] => 0
  end.

(** The number of blank lines a text ends with. *)
Definition blank_lines_at_end (text : string) : nat :=
  leading_blank (rev (readlines text)).

Lemma leading_blank_three content :
  Forall (fun l => l <> nl) content ->
  leading_blank (rev (content ++ [nl; nl; nl])) = 3%nat.
Proof.
  intros H. rewrite rev_app_distr. cbn [rev app leading_blank String.eqb Ascii.eqb Bool.eqb nl nl_char ascii_of_nat ascii_of_pos].
  change (String.eqb nl nl) with true. cbn iota.
  destruct (rev content) as [|l t] eqn:E; [reflexivity|].
  assert (In l content) as Hin by (apply in_rev; rewrite E; now left).
  rewrite List.Forall_forall in H. specialize (H l Hin).
  apply String.eqb_neq in H. cbn [leading_blank]. now rewrite H.
Qed.

Section Shape.
Variable tie : Q -> bool.

(** The lines of a block that carry a label: all but the last three. *)
Definition content_lines (parameters : list pyval) (i n : Z) (L : var -> list num)
  : list string :=
  removelast (removelast (removelast (block_lines tie parameters i n L))).

Lemma block_lines_content parameters i n L :
  block_lines tie parameters i n L
  = content_lines parameters i n L ++ [EmptyString; EmptyString; EmptyString].
Proof. reflexivity. Qed.

Lemma content_lines_not_blank parameters i n L :
  Forall (fun l => l <> nl)
    (map (fun l => l ++ nl)%string (content_lines parameters i n L)).
Proof.
  unfold content_lines, block_lines, list_labels, mean_labels, means3_line.
  cbn [map app fst snd removelast].
  repeat (apply List.Forall_cons); try apply List.Forall_nil.
  all: intros H; apply (f_equal String.length) in H; rewrite !length_append in H;
    unfold nl in H; cbn [String.length] in H; lia.
Qed.

Lemma readlines_block_text parameters i n L :
  readlines (block_text tie parameters i n L)
  = map (fun l => l ++ nl)%string (content_lines parameters i n L) ++ [nl; nl; nl].
Proof.
  rewrite <- (append_nil_r (block_text tie parameters i n L)), readlines_block.
  rewrite block_lines_content, map_app. cbn [readlines]. now rewrite app_nil_r.
Qed.
End Shape.

(** *** Rounding to three decimals *)

(** [d] is a number of thousandths nearest to [q]. *)
Definition rounds_to (q : Q) (d : dec3) : Prop :=
  (Qabs (Q_of_dec3 d - q) <= 1 # 2000)%Q.

Lemma Q_of_dec3_eq neg m :
  (Q_of_dec3 (Dec3 neg m) == (if neg then -1 else 1) * (inject_Z (Z.of_N m) * (1 # 1000)))%Q.
Proof.
  unfold Q_of_dec3. cbn [d_neg d_mag].
  assert (Z.of_N m # 1000 == inject_Z (Z.of_N m) * (1 # 1000))%Q as E.
  { unfold Qeq, Qmult, inject_Z. simpl. lia. }
  destruct neg; rewrite E; ring.
Qed.

Lemma round3_nearest tie q : rounds_to q (round3 tie q).
Proof.
  unfold rounds_to, round3.
  set (a := (Qabs q * 1000)%Q). set (f := Qfloor a).
  assert (0 <= a)%Q as Ha by (unfold a; pose proof (Qabs_nonneg q); nra).
  assert (inject_Z f <= a)%Q as Hf1 by apply Qfloor_le.
  assert (a < inject_Z (f + 1))%Q as Hf2 by apply Qlt_floor.
  assert (0 <= f)%Z as Hf0.
  { apply Z.lt_succ_r. rewrite Zlt_Qlt. unfold Z.succ.
    apply Qle_lt_trans with a; [exact Ha | exact Hf2]. }
  rewrite inject_Z_plus in Hf2. change (inject_Z 1) with 1%Q in Hf2.
  set (up := match (a - inject_Z f ?= 1 # 2)%Q with
             | Lt => false | Gt => true | Eq => tie q end).
  assert (Qabs (inject_Z (if up then f + 1 else f)%Z - a) <= 1 # 2)%Q as Hnear.
  { unfold up. destruct (Qcompare_spec (a - inject_Z f) (1 # 2)) as [E|E|E].
    - destruct (tie q); [rewrite inject_Z_plus; change (inject_Z 1) with 1%Q|];
        apply Qabs_Qle_condition; split; lra.
    - apply Qabs_Qle_condition; split; lra.
    - rewrite inject_Z_plus; change (inject_Z 1) with 1%Q.
      apply Qabs_Qle_condition; split; lra. }
  set (m := (if up then f + 1 else f)%Z) in *.
  assert (0 <= m)%Z as Hm by (unfold m; destruct up; lia).
  rewrite Q_of_dec3_eq, Z2N.id by exact Hm.
  apply Qabs_Qle_condition in Hnear as [Hn1 Hn2].
  unfold a in Hn1, Hn2.
  destruct (Qle_bool 0 q) eqn:Hq; cbn [negb].
  - apply Qle_bool_iff in Hq. rewrite (Qabs_pos q Hq) in Hn1, Hn2.
    apply Qabs_Qle_condition; split; lra.
  - assert (q < 0)%Q as Hq'.
    { apply Qnot_le_lt. intros Hle. apply Qle_bool_iff in Hle. congruence. }
    rewrite (Qabs_neg q) in Hn1, Hn2 by lra.
    apply Qabs_Qle_condition; split; lra.
Qed.

End ReportFacts.

Module ClaimsWriter.
Import Py PyFacts Driver DriverFacts ReportFacts.

(** C3, as the code has it.  The writer ends every block with three
    newline writes after its last labelled line: the block it appends is
    a run of non-blank lines followed by exactly three blank lines, so
    consecutive blocks are three blank lines apart. *)
Theorem block_ends_with_three_blank_lines (C : Collaborators)
    (save_file : string) (parameters : list pyval) (i : Z) (s s' : St C) :
  write_block C save_file parameters i s = Ok tt s' ->
  exists text content,
    s' = appended save_file text s
    /\ readlines text = content ++ [nl; nl; nl]
    /\ Forall (fun l => l <> nl) content
    /\ blank_lines_at_end text = 3%nat.
Proof.
  intros Hw.
  pose proof (post_Ok _ _ _ _ _ _ Hw (write_block_post C save_file parameters i s))
    as (n & _ & _ & ->).
  eexists _, _. split; [reflexivity|].
  pose proof (readlines_block_text (tie_up C) parameters i n (lists (locals s))) as Hr.
  pose proof (content_lines_not_blank (tie_up C) parameters i n (lists (locals s))) as Hc.
  split; [exact Hr|]. split; [exact Hc|].
  unfold blank_lines_at_end. rewrite Hr. now apply leading_blank_three.
Qed.

Lemma block_ends_with_three_blank_lines_witness :
  let C := Example.toy true true in
  let s := final (run_trials C "intersection_vertices" [PBool true] 1 3
                    (Example.start Example.fresh_frame)) in
  exists text content,
    final (write_block C "report.txt" [PBool true] 3 s) = appended "report.txt" text s
    /\ readlines text = content ++ [nl; nl; nl]
    /\ Forall (fun l => l <> nl) content
    /\ blank_lines_at_end text = 3%nat.
Proof.
  intros C s.
  assert (write_block C "report.txt" [PBool true] 3 s
          = Ok tt (final (write_block C "report.txt" [PBool true] 3 s))) as Hw
      by (vm_compute; reflexivity).
  exact (block_ends_with_three_blank_lines C "report.txt" [PBool true] 3 s _ Hw).
Defined.

(** C3, as stated, fails: the block of a one-trial sweep value ends with
    three blank lines, not two. *)
Lemma block_does_not_end_with_two_blank_lines :
  exists text,
    files (final (run_benchmark (Example.toy true true) "intersection_vertices"
                    "report.txt" [PBool true] 1 3 2 (-1)
                    (Example.start Example.fresh_frame))) !! "report.txt" = Some text
    /\ blank_lines_at_end text <> 2%nat.
Proof. eexists. split; [vm_compute; reflexivity|]. vm_compute. discriminate. Qed.

(** *** The means *)

Lemma In_block_mean tie parameters i n L label v :
  In (label, v) mean_labels ->
  In (label ++ mean_text tie (L v) ++ nl)%string
     (readlines (block_text tie parameters i n L)).
Proof.
  intros Hin. rewrite <- (append_nil_r (block_text _ _ _ _ _)), readlines_block.
  cbn [readlines]. rewrite app_nil_r. rewrite <- append_assoc.
  apply (in_map (fun l => l ++ nl)%string). unfold block_lines.
  apply in_or_app; right. apply in_or_app; right. apply in_or_app; right.
  apply in_or_app; left.
  apply (in_map (fun e => (fst e ++ mean_text tie (L (snd e)))%string) _ _ Hin).
Qed.

Lemma In_block_means3 tie parameters i n L :
  let line label v1 v2 v3 :=
    (label ++ mean_text tie (L v1) ++ ", " ++ mean_text tie (L v2) ++ ", "
     ++ mean_text tie (L v3) ++ nl)%string in
  In (line "Mean running time CE " counterexample_times_process
        counterexample_times_perf_counter counterexample_times)
     (readlines (block_text tie parameters i n L))
  /\ In (line "Mean running time AO " antichain_optimization_times_process
           antichain_optimization_times_perf_counter antichain_optimization_times)
        (readlines (block_text tie parameters i n L)).
Proof.
  intros line. rewrite <- (append_nil_r (block_text _ _ _ _ _)), readlines_block.
  cbn [readlines]. rewrite app_nil_r.
  split.
  - apply in_map_iff. eexists. split.
    2: { unfold block_lines. apply in_or_app; right. apply in_or_app; right.
         apply in_or_app; left. left. reflexivity. }
    unfold means3_line, line. now rewrite !append_assoc.
  - apply in_map_iff. eexists. split.
    2: { unfold block_lines. apply in_or_app; right. apply in_or_app; right.
         apply in_or_app; left. right. left. reflexivity. }
    unfold means3_line, line. now rewrite !append_assoc.
Qed.

(** The text of the mean of a series: ["%.3f"] of a number of thousandths
    nearest to the arithmetic mean of its entries. *)
Definition mean_written (l : list num) (t : string) : Prop :=
  l <> [] /\ exists d, rounds_to (average (map Q_of_num l)) d /\ t = fmt3_dec d.

Lemma mean_text_written tie l : l <> [] -> mean_written l (mean_text tie l).
Proof.
  intros Hl. split; [exact Hl|]. eexists. split; [apply round3_nearest | reflexivity].
Qed.

(** C7.  Every mean in the block the writer appends is the arithmetic
    mean of the entries of the corresponding list, rounded to a nearest
    thousandth and printed with three decimals: the fifteen labelled
    means, and the three means on each of the two "Mean running time"
    lines.  The list [1.0, 2.0, 3.0] gives the text [2.000]. *)
Theorem written_means_are_rounded_means (C : Collaborators)
    (save_file : string) (parameters : list pyval) (i : Z) (s s' : St C) :
  write_block C save_file parameters i s = Ok tt s' ->
  let L := lists (locals s) in
  exists text,
    s' = appended save_file text s
    /\ (forall label v, In (label, v) mean_labels ->
          exists t, mean_written (L v) t /\ In (label ++ t ++ nl)%string (readlines text))
    /\ (exists t1 t2 t3,
          mean_written (L counterexample_times_process) t1
          /\ mean_written (L counterexample_times_perf_counter) t2
          /\ mean_written (L counterexample_times) t3
          /\ In ("Mean running time CE " ++ t1 ++ ", " ++ t2 ++ ", " ++ t3 ++ nl)%string
                (readlines text))
    /\ (exists t1 t2 t3,
          mean_written (L antichain_optimization_times_process) t1
          /\ mean_written (L antichain_optimization_times_perf_counter) t2
          /\ mean_written (L antichain_optimization_times) t3
          /\ In ("Mean running time AO " ++ t1 ++ ", " ++ t2 ++ ", " ++ t3 ++ nl)%string
                (readlines text))
    /\ forall tie,
         mean_text tie [NFloat (Dec3 false 1000); NFloat (Dec3 false 2000);
                        NFloat (Dec3 false 3000)] = "2.000".
Proof.
  intros Hw L.
  pose proof (post_Ok _ _ _ _ _ _ Hw (write_block_post C save_file parameters i s))
    as (n & _ & Hne & ->).
  eexists. split; [reflexivity|]. fold L.
  pose proof (In_block_means3 (tie_up C) parameters i n L) as (Hce & Hao).
  split; [|split; [|split]].
  - intros label v Hin. exists (mean_text (tie_up C) (L v)).
    split; [apply mean_text_written, Hne | now apply In_block_mean].
  - eexists _, _, _. repeat split; try exact Hce; try apply Hne.
    all: eexists; split; [apply round3_nearest | reflexivity].
  - eexists _, _, _. repeat split; try exact Hao; try apply Hne.
    all: eexists; split; [apply round3_nearest | reflexivity].
  - intros tie. reflexivity.
Qed.

Lemma written_means_are_rounded_means_witness :
  let C := Example.toy true true in
  let s := final (run_trials C "intersection_vertices" [PBool true] 3 5
                    (Example.start Example.fresh_frame)) in
  exists text t,
    final (write_block C "report.txt" [PBool true] 5 s) = appended "report.txt" text s
    /\ mean_written (lists (locals s) temp_counterexample_mean_time_calls_exists) t
    /\ In ("CE mean exists time " ++ t ++ nl)%string (readlines text).
Proof.
  intros C s.
  assert (write_block C "report.txt" [PBool true] 5 s
          = Ok tt (final (write_block C "report.txt" [PBool true] 5 s))) as Hw
      by (vm_compute; reflexivity).
  destruct (written_means_are_rounded_means C "report.txt" [PBool true] 5 s _ Hw)
    as (text & Ht & Hmeans & _).
  destruct (Hmeans "CE mean exists time " temp_counterexample_mean_time_calls_exists)
    as (t & Hm & Hin); [do 5 right; left; reflexivity|].
  exists text, t. split; [exact Ht|]. split; [exact Hm | exact Hin].
Defined.

(** *** Reading a written list back *)

Lemma tokens_of_labelled (w1 w2 w3 v : string) :
  all_chars (not_char " ") w1 = true -> all_chars (not_char " ") w2 = true ->
  all_chars (not_char " ") w3 = true ->
  split " " (w1 ++ " " ++ w2 ++ " " ++ w3 ++ " " ++ v) = w1 :: w2 :: w3 :: split " " v.
Proof.
  intros H1 H2 H3.
  change (w1 ++ " " ++ w2 ++ " " ++ w3 ++ " " ++ v)%string
    with (w1 ++ String " " (w2 ++ String " " (w3 ++ String " " v)))%string.
  now rewrite !split_app_sep.
Qed.

Lemma str_list_last {A} (repr : A -> string) l :
  last_is (fun c => negb (is_ws c)) (str_list repr l) = true.
Proof. unfold str_list. apply last_is_app, last_is_app. reflexivity. Qed.

Lemma reread_list (w1 w2 w3 : string) l :
  all_chars (not_char " ") w1 = true -> all_chars (not_char " ") w2 = true ->
  all_chars (not_char " ") w3 = true ->
  literal_eval
    (join " " (skipn 3 (split " "
       (rstrip ((w1 ++ " " ++ w2 ++ " " ++ w3 ++ " ") ++ str_list repr_num l ++ nl)))))
  = Some (LList l).
Proof.
  intros H1 H2 H3. rewrite <- append_assoc.
  rewrite rstrip_app_ws; [| apply last_is_app, str_list_last | reflexivity].
  rewrite !append_assoc. rewrite (tokens_of_labelled _ _ _ _ H1 H2 H3).
  unfold skipn. rewrite join_split. apply literal_eval_str_list.
Qed.

(** C8.  A list of three-decimal floats written on a label line reads
    back as the same list: the tokens after the label, joined again and
    given to [ast.literal_eval], are the values that were written. *)
Theorem written_times_read_back (ds : list dec3) :
  let l := map NFloat ds in
  let reread (line : string) :=
    literal_eval (join " " (skipn 3 (split " " (rstrip line)))) in
  reread ("CE times process " ++ str_list repr_num l ++ nl)%string = Some (LList l)
  /\ reread ("AO times process " ++ str_list repr_num l ++ nl)%string = Some (LList l).
Proof.
  intros l reread. split.
  - apply (reread_list "CE" "times" "process" l); reflexivity.
  - apply (reread_list "AO" "times" "process" l); reflexivity.
Qed.

End ClaimsWriter.

(** ** The report parser *)

Module ParserFacts.
Import Py PyFacts Parser.

(** *** Label tests *)

(** [line[0] == w0 and line[1] == w1 and ...] as a function: [None] when
  the tokens run out before a difference is found. *)
Fixpoint matches (line ws : list string) {struct ws} : option bool :=
match ws with
| [] => Some true
| w :: ws' =>
    match line with
    | [] => None
    | t :: line' => if String.eqb t w then matches line' ws' else Some false
    end
end.

(** The frame with the numbers [xs] appended to the list [v]. *)
Definition extend (v : var) (xs : list num) (fr : frame) : frame :=
fold_left (fun fr x => append_to v x fr) xs fr.

Lemma extend_at v xs fr v' :
extend v xs fr v' = fr v' ++ (if var_eq_dec v v' then xs else []).
Proof.
unfold extend. revert fr. induction xs as [|x xs IH]; intros fr; cbn [fold_left].
- destruct (var_eq_dec v v'); now rewrite app_nil_r.
- rewrite IH. unfold append_to at 1.
  destruct (var_eq_dec v v'); now rewrite <- app_assoc.
Qed.

Lemma extend_app v xs ys fr : extend v (xs ++ ys) fr = extend v ys (extend v xs fr).
Proof. unfold extend. apply fold_left_app. Qed.

Section Lines.
Variable W : Type.
Implicit Types s : St W.

Lemma nth_error_skipn {A} (l : list A) k :
  nth_error l k = match skipn k l with [] => None | a :: _ => Some a end.
Proof.
  revert l. induction k as [|k IH]; intros [|a l]; cbn [nth_error skipn]; auto.
Qed.

Lemma skipn_S_tail {A} (l : list A) k a t : skipn k l = a :: t -> skipn (S k) l = t.
Proof.
  revert l. induction k as [|k IH]; intros [|b l] H; cbn [skipn] in *; try discriminate.
  - now injection H as _ ->.
  - now apply IH.
Qed.

Lemma tokens_are_eq line k ws s :
  tokens_are W line k ws s
  = match matches (skipn k line) ws with
    | Some b => Ok b s
    | None => Raised IndexError s
    end.
Proof.
  revert k. induction ws as [|w ws IH]; intros k; cbn [tokens_are matches]; [reflexivity|].
  unfold bind, must. rewrite nth_error_skipn.
  destruct (skipn k line) as [|t rest] eqn:E; [reflexivity|].
  cbn [ret]. destruct (String.eqb t w); [|reflexivity].
  now rewrite IH, (skipn_S_tail _ _ _ _ E).
Qed.

Lemma bind_tokens_are {B} line ws (k : bool -> M (St W) B) s b :
  matches line ws = Some b -> bind (tokens_are W line 0 ws) k s = k b s.
Proof. intros H. unfold bind. rewrite tokens_are_eq. unfold skipn. now rewrite H. Qed.

(** *** Loops that append *)

Lemma for_each_app {A} (l1 l2 : list A) (body : A -> M (St W) unit) s :
  for_each (l1 ++ l2) body s
  = match for_each l1 body s with
    | Ok _ s' => for_each l2 body s'
    | Raised e s' => Raised e s'
    end.
Proof.
  revert s. induction l1 as [|a l1 IH]; intros s; [reflexivity|].
  cbn [for_each app]. unfold bind. destruct (body a s); [apply IH | reflexivity].
Qed.

Lemma with_locals_twice (fr fr' : frame) s :
  with_locals fr' (with_locals fr s) = with_locals fr' s.
Proof. reflexivity. Qed.

Lemma with_locals_same s : with_locals (locals s) s = s.
Proof. now destruct s. Qed.

(** The same number appended [N] times (lines 306-312, 328-329,
    333-334). *)
Lemma repeat_append {A} (l : list A) v a s :
  for_each l (fun _ => append W v a) s
  = Ok tt (with_locals (extend v (repeat a (List.length l)) (locals s)) s).
Proof.
  revert s. induction l as [|x l IH]; intros s.
  - cbn [for_each List.length repeat]. unfold extend. cbn [fold_left].
    now rewrite with_locals_same.
  - cbn [for_each List.length repeat]. unfold bind, append at 1, set_locals.
    rewrite IH. reflexivity.
Qed.

Lemma for_each_ext {A} (l : list A) (body body' : A -> M (St W) unit) s :
  (forall a s, body a s = body' a s) -> for_each l body s = for_each l body' s.
Proof.
  intros H. revert s. induction l as [|a l IH]; intros s; [reflexivity|].
  cbn [for_each]. unfold bind. rewrite H. destruct (body' a s); auto.
Qed.

Lemma length_range0 n : List.length (range0 n) = Z.to_nat n.
Proof. unfold range0. now rewrite length_map, length_seq. Qed.

Lemma index_nat {A} (l : list A) k a s :
  nth_error l k = Some a -> index l (Z.of_nat k) s = Ok a s.
Proof.
  intros H. assert (Hk : (k < List.length l)%nat) by (apply nth_error_Some; congruence).
  unfold index.
  replace ((0 <=? Z.of_nat k) && (Z.of_nat k <? Z.of_nat (List.length l)))%Z with true
    by (symmetry; apply andb_true_iff; split; [apply Z.leb_le | apply Z.ltb_lt]; lia).
  rewrite Nat2Z.id, H. reflexivity.
Qed.

Lemma index_beyond {A} (l : list A) k s :
  (List.length l <= k)%nat -> index l (Z.of_nat k) s = Raised IndexError s.
Proof.
  intros H. unfold index.
  replace (Z.of_nat k <? Z.of_nat (List.length l))%Z with false
    by (symmetry; apply Z.ltb_ge; lia).
  replace (Z.of_nat k <? 0)%Z with false by (symmetry; apply Z.ltb_ge; lia).
  now rewrite !andb_false_r.
Qed.

(** [for i in range(a, a + n): v.append(l[i])] when [l] is long
    enough. *)
Lemma copy_loop (l : list num) v a n s :
  (a + n <= List.length l)%nat ->
  for_each (map Z.of_nat (seq a n)) (fun i => bind (index l i) (fun e => append W v e)) s
  = Ok tt (with_locals (extend v (firstn n (skipn a l)) (locals s)) s).
Proof.
  revert a s. induction n as [|n IH]; intros a s Hlen.
  - change (firstn 0 (skipn a l)) with (@nil num).
    cbn [seq map for_each]. unfold extend. cbn [fold_left].
    now rewrite with_locals_same.
  - destruct (nth_error l a) as [e|] eqn:He;
      [|apply nth_error_None in He; lia].
    cbn [seq map for_each]. unfold bind at 1. unfold bind at 1.
    rewrite (index_nat _ _ _ _ He). unfold append at 1, set_locals.
    rewrite IH by lia. cbn [locals with_locals world files stdout trace].
    rewrite nth_error_skipn in He.
    destruct (skipn a l) as [|e' rest] eqn:Hs; [discriminate|].
    injection He as ->. rewrite (skipn_S_tail _ _ _ _ Hs).
    reflexivity.
Qed.

(** The same loop when [l] runs out: the entries there are are
    appended, then [l[i]] is an [IndexError]. *)
Lemma copy_loop_short (l : list num) v a n s :
  (a <= List.length l < a + n)%nat ->
  for_each (map Z.of_nat (seq a n)) (fun i => bind (index l i) (fun e => append W v e)) s
  = Raised IndexError (with_locals (extend v (skipn a l) (locals s)) s).
Proof.
  revert a s. induction n as [|n IH]; intros a s Hlen; [lia|].
  cbn [seq map for_each]. unfold bind at 1. unfold bind at 1.
  destruct (nth_error l a) as [e|] eqn:He.
  - assert (a < List.length l)%nat by (apply nth_error_Some; congruence).
    rewrite (index_nat _ _ _ _ He). unfold append at 1, set_locals.
    rewrite IH by lia. cbn [locals with_locals world files stdout trace].
    rewrite nth_error_skipn in He.
    destruct (skipn a l) as [|e' rest] eqn:Hs; [discriminate|].
    injection He as ->. rewrite (skipn_S_tail _ _ _ _ Hs).
    reflexivity.
  - apply nth_error_None in He. rewrite index_beyond by lia.
    rewrite skipn_all2 by lia. unfold extend. cbn [fold_left].
    now rewrite with_locals_same.
Qed.

(** *** One line *)

Definition P_x := ["Variable"; "value"; "used"].
Definition P_ce := ["CE"; "times"; "process"].
Definition P_ao := ["AO"; "times"; "process"].
Definition P_mce := ["Mean"; "running"; "time"; "CE"].
Definition P_mao := ["Mean"; "running"; "time"; "AO"].

(** A line that carries none of the labels read for the kind. *)
Definition unlabelled (benchmark_type : string) (line : list string) : Prop :=
  matches line P_x = Some false /\ matches line P_ce = Some false /\
  matches line P_ao = Some false /\
  (benchmark_type = "random" ->
   matches line P_mce = Some false /\ matches line P_mao = Some false).

Lemma parse_line_unlabelled bt N raw s :
  unlabelled bt (split " " (rstrip raw)) -> parse_line W bt N raw s = Ok tt s.
Proof.
  intros (Hx & Hce & Hao & Hm). unfold parse_line.
  rewrite (bind_tokens_are _ _ _ _ _ Hx). cbn [when]. unfold bind at 1. cbn [ret].
  rewrite (bind_tokens_are _ _ _ _ _ Hce). cbn [when]. unfold bind at 1. cbn [ret].
  rewrite (bind_tokens_are _ _ _ _ _ Hao). cbn [when]. unfold bind at 1. cbn [ret].
  destruct (String.eqb_spec bt "random") as [Hr|Hr]; [|reflexivity].
  destruct (Hm Hr) as [Hmce Hmao]. cbn [when].
  rewrite (bind_tokens_are _ _ _ _ _ Hmce). cbn [when]. unfold bind at 1. cbn [ret].
  rewrite (bind_tokens_are _ _ _ _ _ Hmao). reflexivity.
Qed.

Lemma bind_ret {A B} (a : A) (k : A -> M (St W) B) s : bind (ret a) k s = k a s.
Proof. reflexivity. Qed.

Lemma matches_true line ws :
  matches line ws = Some true -> exists rest, line = ws ++ rest.
Proof.
  revert line. induction ws as [|w ws IH]; intros line H; [now exists line|].
  destruct line as [|t line]; [discriminate|]. cbn [matches] in H.
  destruct (String.eqb_spec t w) as [->|]; [|discriminate].
  destruct (IH _ H) as [rest ->]. now exists rest.
Qed.

Lemma x_line_only line :
  matches line P_x = Some true ->
  matches line P_ce = Some false /\ matches line P_ao = Some false /\
  matches line P_mce = Some false /\ matches line P_mao = Some false.
Proof.
  intros H. destruct (matches_true _ _ H) as [rest ->]. repeat split; reflexivity.
Qed.

(** The value line 304-312 appends for a kind. *)
Definition x_entries (benchmark_type : string) (v : Z) : list num :=
  (if String.eqb benchmark_type "intersection_vertices" then [NInt v] else [])
  ++ (if String.eqb benchmark_type "intersection_objectives" then [NInt (2 + v * 2)] else [])
  ++ (if String.eqb benchmark_type "random" then [NInt v] else []).

Lemma x_loop {A} bt v (l : list A) s :
  for_each l (fun _ =>
    when W (String.eqb bt "intersection_vertices") (append W x (NInt v)) ;;
    when W (String.eqb bt "intersection_objectives") (append W x (NInt (2 + v * 2))) ;;
    when W (String.eqb bt "random") (append W x (NInt v))) s
  = Ok tt (with_locals
             (extend x (concat (repeat (x_entries bt v) (List.length l))) (locals s)) s).
Proof.
  revert s. induction l as [|a l IH]; intros s.
  - cbn [for_each List.length repeat concat]. unfold extend. cbn [fold_left].
    now rewrite with_locals_same.
  - cbn [for_each List.length repeat concat]. rewrite extend_app.
    unfold bind at 1.
    match goal with |- match ?m s with _ => _ end = _ =>
      assert (Hb : m s = Ok tt (with_locals (extend x (x_entries bt v) (locals s)) s))
    end.
    { unfold x_entries.
      destruct (String.eqb bt "intersection_vertices"),
               (String.eqb bt "intersection_objectives"),
               (String.eqb bt "random"); destruct s; reflexivity. }
    rewrite Hb, IH. reflexivity.
Qed.

(** Lines 304-312 *)
Lemma parse_line_x bt N raw t v s :
  matches (split " " (rstrip raw)) P_x = Some true ->
  nth_error (split " " (rstrip raw)) 3 = Some t ->
  int_of_str t = Some v ->
  parse_line W bt N raw s
  = Ok tt (with_locals
             (extend x (concat (repeat (x_entries bt v) (Z.to_nat N))) (locals s)) s).
Proof.
  intros Hx Ht Hv. destruct (x_line_only _ Hx) as (Hce & Hao & Hmce & Hmao).
  unfold parse_line.
  rewrite (bind_tokens_are _ _ _ _ _ Hx). cbn [when]. rewrite Ht. cbn [must].
  unfold bind at 1. unfold bind at 1. cbn [ret]. rewrite Hv. cbn [must].
  unfold bind at 1. cbn [ret].
  rewrite x_loop, length_range0.
  rewrite (bind_tokens_are _ _ _ _ _ Hce). cbn [when]. unfold bind at 1. cbn [ret].
  rewrite (bind_tokens_are _ _ _ _ _ Hao). cbn [when]. unfold bind at 1. cbn [ret].
  destruct (String.eqb bt "random"); [|reflexivity]. cbn [when].
  rewrite (bind_tokens_are _ _ _ _ _ Hmce). cbn [when]. unfold bind at 1. cbn [ret].
  rewrite (bind_tokens_are _ _ _ _ _ Hmao). reflexivity.
Qed.

(** The entries of a literal that can be subscripted. *)
Definition items (lit : literal) : option (list num) :=
  match lit with LList l | LTuple l => Some l | LNum _ => None end.

Lemma subscript_loop lit l v N s :
  items lit = Some l -> (Z.to_nat N <= List.length l)%nat ->
  for_each (range0 N) (fun i => bind (subscript W lit i) (fun e => append W v e)) s
  = Ok tt (with_locals (extend v (firstn (Z.to_nat N) l) (locals s)) s).
Proof.
  intros Hl Hlen. unfold range0.
  destruct lit as [n|l'|l']; try discriminate; injection Hl as ->;
    cbn [subscript]; apply (copy_loop l v 0); lia.
Qed.

Lemma subscript_loop_short lit l v N s :
  items lit = Some l -> (List.length l < Z.to_nat N)%nat ->
  for_each (range0 N) (fun i => bind (subscript W lit i) (fun e => append W v e)) s
  = Raised IndexError (with_locals (extend v l (locals s)) s).
Proof.
  intros Hl Hlen. unfold range0.
  destruct lit as [n|l'|l']; try discriminate; injection Hl as ->;
    cbn [subscript]; apply (copy_loop_short l v 0); lia.
Qed.

Lemma first_loop {A} lit e l v (r : list A) s :
  items lit = Some (e :: l) ->
  for_each r (fun _ => bind (subscript W lit 0)
                         (fun a => append W v (NFloat (float_of_num a)))) s
  = Ok tt (with_locals
             (extend v (repeat (NFloat (float_of_num e)) (List.length r)) (locals s)) s).
Proof.
  intros Hl. rewrite <- repeat_append. apply for_each_ext. intros _ s'.
  destruct lit as [n|l'|l']; try discriminate; injection Hl as ->; reflexivity.
Qed.

Lemma ce_line_only line :
  matches line P_ce = Some true ->
  matches line P_x = Some false /\ matches line P_ao = Some false /\
  matches line P_mce = Some false /\ matches line P_mao = Some false.
Proof.
  intros H. destruct (matches_true _ _ H) as [rest ->]. repeat split; reflexivity.
Qed.

Lemma ao_line_only line :
  matches line P_ao = Some true ->
  matches line P_x = Some false /\ matches line P_ce = Some false /\
  matches line P_mce = Some false /\ matches line P_mao = Some false.
Proof.
  intros H. destruct (matches_true _ _ H) as [rest ->]. repeat split; reflexivity.
Qed.

Lemma mce_line_only line :
  matches line P_mce = Some true ->
  matches line P_x = Some false /\ matches line P_ce = Some false /\
  matches line P_ao = Some false /\ matches line P_mao = Some false.
Proof.
  intros H. destruct (matches_true _ _ H) as [rest ->]. repeat split; reflexivity.
Qed.

Lemma mao_line_only line :
  matches line P_mao = Some true ->
  matches line P_x = Some false /\ matches line P_ce = Some false /\
  matches line P_ao = Some false /\ matches line P_mce = Some false.
Proof.
  intros H. destruct (matches_true _ _ H) as [rest ->]. repeat split; reflexivity.
Qed.

(** Lines 314-317 *)
Lemma parse_line_ce bt N raw lit l s :
  matches (split " " (rstrip raw)) P_ce = Some true ->
  literal_eval (join " " (skipn 3 (split " " (rstrip raw)))) = Some lit ->
  items lit = Some l -> (Z.to_nat N <= List.length l)%nat ->
  parse_line W bt N raw s
  = Ok tt (with_locals (extend y_ce (firstn (Z.to_nat N) l) (locals s)) s).
Proof.
  intros Hce He Hl Hlen. destruct (ce_line_only _ Hce) as (Hx & Hao & Hmce & Hmao).
  unfold parse_line.
  rewrite (bind_tokens_are _ _ _ _ _ Hx). cbn [when]. unfold bind at 1. cbn [ret].
  rewrite (bind_tokens_are _ _ _ _ _ Hce). cbn [when]. unfold eval_from. rewrite He.
  cbn [must]. unfold bind at 1. unfold bind at 1. cbn [ret].
  rewrite (subscript_loop _ _ _ _ _ Hl Hlen).
  rewrite (bind_tokens_are _ _ _ _ _ Hao). cbn [when]. unfold bind at 1. cbn [ret].
  destruct (String.eqb bt "random"); [|reflexivity]. cbn [when].
  rewrite (bind_tokens_are _ _ _ _ _ Hmce). cbn [when]. unfold bind at 1. cbn [ret].
  rewrite (bind_tokens_are _ _ _ _ _ Hmao). reflexivity.
Qed.

(** Lines 319-322 *)
Lemma parse_line_ao bt N raw lit l s :
  matches (split " " (rstrip raw)) P_ao = Some true ->
  literal_eval (join " " (skipn 3 (split " " (rstrip raw)))) = Some lit ->
  items lit = Some l -> (Z.to_nat N <= List.length l)%nat ->
  parse_line W bt N raw s
  = Ok tt (with_locals (extend y_ao (firstn (Z.to_nat N) l) (locals s)) s).
Proof.
  intros Hao He Hl Hlen. destruct (ao_line_only _ Hao) as (Hx & Hce & Hmce & Hmao).
  unfold parse_line.
  rewrite (bind_tokens_are _ _ _ _ _ Hx). cbn [when]. unfold bind at 1. cbn [ret].
  rewrite (bind_tokens_are _ _ _ _ _ Hce). cbn [when]. unfold bind at 1. cbn [ret].
  rewrite (bind_tokens_are _ _ _ _ _ Hao). cbn [when]. unfold eval_from. rewrite He.
  cbn [must]. unfold bind at 1. unfold bind at 1. cbn [ret].
  rewrite (subscript_loop _ _ _ _ _ Hl Hlen).
  destruct (String.eqb bt "random"); [|reflexivity]. cbn [when].
  rewrite (bind_tokens_are _ _ _ _ _ Hmce). cbn [when]. unfold bind at 1. cbn [ret].
  rewrite (bind_tokens_are _ _ _ _ _ Hmao). reflexivity.
Qed.

(** Lines 325-329 *)
Lemma parse_line_mce N raw lit e l s :
  matches (split " " (rstrip raw)) P_mce = Some true ->
  literal_eval (join " " (skipn 4 (split " " (rstrip raw)))) = Some lit ->
  items lit = Some (e :: l) ->
  parse_line W "random" N raw s
  = Ok tt (with_locals
             (extend mean_y_ce (repeat (NFloat (float_of_num e)) (Z.to_nat N)) (locals s))
             s).
Proof.
  intros Hmce He Hl. destruct (mce_line_only _ Hmce) as (Hx & Hce & Hao & Hmao).
  unfold parse_line.
  rewrite (bind_tokens_are _ _ _ _ _ Hx). cbn [when]. unfold bind at 1. cbn [ret].
  rewrite (bind_tokens_are _ _ _ _ _ Hce). cbn [when]. unfold bind at 1. cbn [ret].
  rewrite (bind_tokens_are _ _ _ _ _ Hao). cbn [when]. unfold bind at 1. cbn [ret].
  change (String.eqb "random" "random") with true. cbn [when].
  rewrite (bind_tokens_are _ _ _ _ _ Hmce). cbn [when]. unfold eval_from. rewrite He.
  cbn [must]. unfold bind at 1. unfold bind at 1. cbn [ret].
  rewrite (first_loop _ _ _ _ _ _ Hl), length_range0.
  rewrite (bind_tokens_are _ _ _ _ _ Hmao). reflexivity.
Qed.

(** Lines 330-334 *)
Lemma parse_line_mao N raw lit e l s :
  matches (split " " (rstrip raw)) P_mao = Some true ->
  literal_eval (join " " (skipn 4 (split " " (rstrip raw)))) = Some lit ->
  items lit = Some (e :: l) ->
  parse_line W "random" N raw s
  = Ok tt (with_locals
             (extend mean_y_ao (repeat (NFloat (float_of_num e)) (Z.to_nat N)) (locals s))
             s).
Proof.
  intros Hmao He Hl. destruct (mao_line_only _ Hmao) as (Hx & Hce & Hao & Hmce).
  unfold parse_line.
  rewrite (bind_tokens_are _ _ _ _ _ Hx). cbn [when]. unfold bind at 1. cbn [ret].
  rewrite (bind_tokens_are _ _ _ _ _ Hce). cbn [when]. unfold bind at 1. cbn [ret].
  rewrite (bind_tokens_are _ _ _ _ _ Hao). cbn [when]. unfold bind at 1. cbn [ret].
  change (String.eqb "random" "random") with true. cbn [when].
  rewrite (bind_tokens_are _ _ _ _ _ Hmce). cbn [when]. unfold bind at 1. cbn [ret].
  rewrite (bind_tokens_are _ _ _ _ _ Hmao). cbn [when]. unfold eval_from. rewrite He.
  cbn [must]. unfold bind at 1. cbn [ret].
  rewrite (first_loop _ _ _ _ _ _ Hl), length_range0. reflexivity.
Qed.

Lemma concat_repeat_one {A} (a : A) n : concat (repeat [a] n) = repeat a n.
Proof. induction n as [|n IH]; [reflexivity|]. cbn [repeat concat app]. now rewrite IH. Qed.

Lemma x_entries_kinds v :
  x_entries "intersection_vertices" v = [NInt v]
  /\ x_entries "intersection_objectives" v = [NInt (2 + v * 2)]
  /\ x_entries "random" v = [NInt v].
Proof. repeat split; reflexivity. Qed.

(** *** The dataset *)

Lemma open_append_eq {L} f (s : machine W L) : open_append f s = Ok tt (appended f "" s).
Proof.
  unfold open_append, appended. destruct s as [w fs out tr l].
  cbn [world files stdout trace locals].
  destruct (fs !! f) eqn:Hf; cbn [from_option id]; [|reflexivity].
  now rewrite append_nil_r, insert_id.
Qed.

(** [str(v[i])], when there is an entry [i]. *)
Definition nth_cell (fr : frame) (v : var) (i : nat) : option string :=
  option_map repr_num (nth_error (fr v) i).

Lemma cell_eq v i s :
  cell W v (Z.of_nat i) s
  = match nth_cell (locals s) v i with
    | Some c => Ok c s
    | None => Raised IndexError s
    end.
Proof.
  unfold cell, get_list, nth_cell, bind, get_locals, ret.
  destruct (nth_error (locals s v) i) as [n|] eqn:E.
  - now rewrite (index_nat _ _ _ _ E).
  - apply nth_error_None in E. now rewrite index_beyond.
Qed.

(** The text of row [i]: three columns, or five. *)
Definition row3 (fr : frame) (i : nat) : option string :=
  match nth_cell fr x i, nth_cell fr y_ce i, nth_cell fr y_ao i with
  | Some cx, Some cce, Some cao => Some (cx ++ " " ++ cce ++ " " ++ cao ++ nl)%string
  | _, _, _ => None
  end.

Definition row5 (fr : frame) (i : nat) : option string :=
  match nth_cell fr x i, nth_cell fr y_ce i, nth_cell fr y_ao i,
        nth_cell fr mean_y_ce i, nth_cell fr mean_y_ao i with
  | Some cx, Some cce, Some cao, Some cmce, Some cmao =>
      Some (cx ++ " " ++ cce ++ " " ++ cao ++ " " ++ cmce ++ " " ++ cmao ++ nl)%string
  | _, _, _, _, _ => None
  end.

Lemma write_row3_eq f i s :
  write_row3 W f (Z.of_nat i) s
  = match row3 (locals s) i with
    | Some t => Ok tt (appended f t s)
    | None => Raised IndexError s
    end.
Proof.
  unfold write_row3, row3, bind. rewrite cell_eq.
  destruct (nth_cell (locals s) x i); [|reflexivity]. rewrite cell_eq.
  destruct (nth_cell (locals s) y_ce i); [|reflexivity]. rewrite cell_eq.
  destruct (nth_cell (locals s) y_ao i); reflexivity.
Qed.

Lemma write_row5_eq f i s :
  write_row5 W f (Z.of_nat i) s
  = match row5 (locals s) i with
    | Some t => Ok tt (appended f t s)
    | None => Raised IndexError s
    end.
Proof.
  unfold write_row5, row5, bind. rewrite cell_eq.
  destruct (nth_cell (locals s) x i); [|reflexivity]. rewrite cell_eq.
  destruct (nth_cell (locals s) y_ce i); [|reflexivity]. rewrite cell_eq.
  destruct (nth_cell (locals s) y_ao i); [|reflexivity]. rewrite cell_eq.
  destruct (nth_cell (locals s) mean_y_ce i); [|reflexivity]. rewrite cell_eq.
  destruct (nth_cell (locals s) mean_y_ao i); reflexivity.
Qed.

(** The rows written for the indices [is], and whether they were all
    there: the loop stops at the first row with a missing cell. *)
Fixpoint rows_text (row : nat -> option string) (idx : list nat) : string * bool :=
  match idx with
  | [] => (EmptyString, true)
  | i :: rest =>
      match row i with
      | None => (EmptyString, false)
      | Some t => let (u, ok) := rows_text row rest in ((t ++ u)%string, ok)
      end
  end.

Definition finish (ok : bool) (s : St W) : outcome (St W) unit :=
  if ok then Ok tt s else Raised IndexError s.

Lemma rows_loop (write_row : Z -> M (St W) unit) (row : frame -> nat -> option string) f :
  (forall i s, write_row (Z.of_nat i) s
               = match row (locals s) i with
                 | Some t => Ok tt (appended f t s)
                 | None => Raised IndexError s
                 end) ->
  forall idx h s,
    for_each (map Z.of_nat idx) write_row (appended f h s)
    = finish (snd (rows_text (row (locals s)) idx))
        (appended f (h ++ fst (rows_text (row (locals s)) idx)) s).
Proof.
  intros Hrow. induction idx as [|i rest IH]; intros h s.
  - cbn [map for_each rows_text fst snd finish]. now rewrite append_nil_r.
  - cbn [map for_each rows_text]. unfold bind. rewrite Hrow.
    change (locals (appended f h s)) with (locals s).
    destruct (row (locals s) i) as [t|].
    + rewrite appended_appended, IH.
      destruct (rows_text (row (locals s)) rest) as [u ok]. cbn [fst snd].
      now rewrite append_assoc.
    + cbn [fst snd finish]. now rewrite append_nil_r.
Qed.

Lemma range0_of_nat n : range0 (Z.of_nat n) = map Z.of_nat (seq 0 n).
Proof. unfold range0. now rewrite Nat2Z.id. Qed.

Lemma rows_eq write_row row f h s :
  (forall i s, write_row (Z.of_nat i) s
               = match row (locals s) i with
                 | Some t => Ok tt (appended f t s)
                 | None => Raised IndexError s
                 end) ->
  rows W write_row (appended f h s)
  = finish (snd (rows_text (row (locals s)) (seq 0 (List.length (locals s x)))))
      (appended f (h ++ fst (rows_text (row (locals s)) (seq 0 (List.length (locals s x))))) s).
Proof.
  intros Hrow. unfold rows, get_list, bind, get_locals, ret.
  change (locals (appended f h s)) with (locals s).
  rewrite range0_of_nat. now apply rows_loop.
Qed.

(** The first line of the dataset and the rows of a kind. *)
Definition header (benchmark_type : string) : string :=
  if String.eqb benchmark_type "intersection_vertices" then "nbr_vertices CE_time AO_time"
  else if String.eqb benchmark_type "intersection_objectives"
       then "nbr_objectives CE_time AO_time"
       else "nbr_objectives CE_time AO_time mean_CE_time mean_AO_time".

Definition row (benchmark_type : string) : frame -> nat -> option string :=
  if String.eqb benchmark_type "random" then row5 else row3.

Definition supported (benchmark_type : string) : Prop :=
  benchmark_type = "intersection_vertices" \/ benchmark_type = "intersection_objectives"
  \/ benchmark_type = "random".

(** What lines 336-353 write for [fr], and whether every row was there. *)
Definition dataset (benchmark_type : string) (fr : frame) : string * bool :=
  let r := rows_text (row benchmark_type fr) (seq 0 (List.length (fr x))) in
  ((header benchmark_type ++ nl ++ fst r)%string, snd r).

Lemma finish_bind ok (k : unit -> M (St W) unit) s :
  (forall s', k tt s' = Ok tt s') ->
  match finish ok s with Ok a s' => k a s' | Raised e s' => Raised e s' end = finish ok s.
Proof. intros Hk. destruct ok; cbn [finish]; [apply Hk | reflexivity]. Qed.

Lemma write_dataset_eq bt f s :
  supported bt ->
  write_dataset W bt f s
  = finish (snd (dataset bt (locals s))) (appended f (fst (dataset bt (locals s))) s).
Proof.
  intros Hbt. unfold write_dataset, dataset, header, row. unfold bind at 1.
  rewrite open_append_eq.
  destruct Hbt as [-> | [-> | ->]];
    match goal with |- context [String.eqb ?a ?b] =>
      repeat match goal with |- context [String.eqb ?a ?b] =>
        let v := eval vm_compute in (String.eqb a b) in
        change (String.eqb a b) with v
      end
    end; cbn [when fst snd]; cbv iota.
  - unfold bind at 1. unfold bind at 1. unfold write at 1.
    change (Machine _ _ _ _ _) with (appended f ("nbr_vertices CE_time AO_time" ++ nl) (appended f "" s)).
    rewrite appended_appended. cbn [String.append].
    rewrite (rows_eq _ row3 _ _ _ (write_row3_eq f)).
    rewrite finish_bind by reflexivity. reflexivity.
  - unfold bind at 1. cbn [ret]. unfold bind at 1. unfold bind at 1. unfold write at 1.
    change (Machine _ _ _ _ _) with (appended f ("nbr_objectives CE_time AO_time" ++ nl) (appended f "" s)).
    rewrite appended_appended. cbn [String.append].
    rewrite (rows_eq _ row3 _ _ _ (write_row3_eq f)).
    rewrite finish_bind by reflexivity. reflexivity.
  - unfold bind at 1. cbn [ret]. unfold bind at 1. cbn [ret]. unfold bind at 1. unfold write at 1.
    change (Machine _ _ _ _ _)
      with (appended f ("nbr_objectives CE_time AO_time mean_CE_time mean_AO_time" ++ nl)
              (appended f "" s)).
    rewrite appended_appended. cbn [String.append].
    rewrite (rows_eq _ row5 _ _ _ (write_row5_eq f)). reflexivity.
Qed.

Lemma rows_text_all row idx :
  Forall (fun i => row i <> None) idx -> snd (rows_text row idx) = true.
Proof.
  induction 1 as [|i idx Hi _ IH]; [reflexivity|]. cbn [rows_text].
  destruct (row i); [|congruence]. now destruct (rows_text row idx).
Qed.

Lemma rows_text_stops row idx :
  Exists (fun i => row i = None) idx -> snd (rows_text row idx) = false.
Proof.
  induction 1 as [i idx Hi|i idx _ IH]; cbn [rows_text].
  - now rewrite Hi.
  - destruct (row i); [|reflexivity]. now destruct (rows_text row idx).
Qed.

Lemma nth_cell_None fr v i : nth_cell fr v i = None <-> (List.length (fr v) <= i)%nat.
Proof.
  unfold nth_cell. rewrite <- nth_error_None.
  destruct (nth_error (fr v) i); cbn [option_map]; split; congruence.
Qed.

(** The lists a row reads besides [x]. *)
Definition columns (benchmark_type : string) : list var :=
  if String.eqb benchmark_type "random" then [y_ce; y_ao; mean_y_ce; mean_y_ao]
  else [y_ce; y_ao].

Lemma row_None bt fr i :
  (i < List.length (fr x))%nat ->
  row bt fr i = None <-> Exists (fun v => (List.length (fr v) <= i)%nat) (columns bt).
Proof.
  intros Hi. unfold row, columns.
  assert (Hx : nth_cell fr x i <> None) by (rewrite nth_cell_None; lia).
  destruct (String.eqb bt "random"); unfold row3, row5;
    rewrite ?Exists_cons, Exists_nil, <- !nth_cell_None;
    destruct (nth_cell fr x i); try congruence;
    destruct (nth_cell fr y_ce i), (nth_cell fr y_ao i);
    try destruct (nth_cell fr mean_y_ce i); try destruct (nth_cell fr mean_y_ao i);
    split; intros H; try discriminate; try tauto;
    repeat (destruct H as [H|H]; try discriminate); try contradiction.
Qed.

Lemma dataset_complete bt fr :
  Forall (fun v => (List.length (fr x) <= List.length (fr v))%nat) (columns bt) ->
  snd (dataset bt fr) = true.
Proof.
  intros H. unfold dataset. cbn [snd]. apply rows_text_all, List.Forall_forall.
  intros i Hi. apply in_seq in Hi. intros Hnone. apply row_None in Hnone; [|lia].
  apply List.Exists_exists in Hnone as (v & Hv & Hlen).
  rewrite List.Forall_forall in H. specialize (H v Hv). lia.
Qed.

Lemma dataset_short bt fr :
  Exists (fun v => (List.length (fr v) < List.length (fr x))%nat) (columns bt) ->
  snd (dataset bt fr) = false.
Proof.
  intros H. unfold dataset. cbn [snd]. apply rows_text_stops.
  apply List.Exists_exists in H as (v & Hv & Hlen).
  apply List.Exists_exists. exists (List.length (fr v)). split; [apply in_seq; lia|].
  apply row_None; [exact Hlen|]. apply List.Exists_exists. exists v. split; [exact Hv | lia].
Qed.

Lemma parse_results_eq f bt N d s s1 :
  supported bt ->
  scan W f bt N (with_locals empty_frame s) = Ok tt s1 ->
  parse_results W f bt N d s
  = finish (snd (dataset bt (locals s1))) (appended d (fst (dataset bt (locals s1))) s1).
Proof.
  intros Hbt Hscan. unfold parse_results. unfold bind at 1. unfold set_locals at 1.
  change (Machine (world s) (files s) (stdout s) (trace s) empty_frame)
    with (with_locals empty_frame s).
  unfold bind at 1. rewrite Hscan. now apply write_dataset_eq.
Qed.

Lemma parse_results_scan_raises f bt N d s e s1 :
  scan W f bt N (with_locals empty_frame s) = Raised e s1 ->
  parse_results W f bt N d s = Raised e s1.
Proof.
  intros Hscan. unfold parse_results. unfold bind at 1. unfold set_locals at 1.
  change (Machine (world s) (files s) (stdout s) (trace s) empty_frame)
    with (with_locals empty_frame s).
  unfold bind at 1. now rewrite Hscan.
Qed.

End Lines.
End ParserFacts.

(** ** The parser: the x column and the missing labels *)

Module ClaimsParser.
Import Py PyFacts Parser ParserFacts.

(** A machine with no file, for a parser that has read nothing yet. *)
Definition idle : St unit := Machine tt ∅ EmptyString [] empty_frame.

(** C6.  On a line whose tokens are Variable, value, used and the text
    of an integer [v] (negative ones included), the parser appends to
    [x], once for each of the [N] trials, [2 + 2 * v] when the kind is
    intersection_objectives and [v] itself when it is
    intersection_vertices or random; the other lists and the files are
    left as they are. *)
Theorem value_line_appends_transformed_x
    (W : Type) (benchmark_type raw t : string) (rest : list string) (N v : Z) (s : St W) :
  split " " (rstrip raw) = "Variable" :: "value" :: "used" :: t :: rest ->
  int_of_str t = Some v ->
  benchmark_type = "intersection_objectives" \/ benchmark_type = "intersection_vertices"
  \/ benchmark_type = "random" ->
  let x_out :=
    if String.eqb benchmark_type "intersection_objectives" then (2 + 2 * v)%Z else v in
  exists s', parse_line W benchmark_type N raw s = Ok tt s'
    /\ locals s' x = locals s x ++ repeat (NInt x_out) (Z.to_nat N)
    /\ (forall v', v' <> x -> locals s' v' = locals s v')
    /\ files s' = files s.
Proof.
  intros Hline Ht Hkind x_out.
  assert (Hx : matches (split " " (rstrip raw)) P_x = Some true)
    by (rewrite Hline; reflexivity).
  assert (Ht3 : nth_error (split " " (rstrip raw)) 3 = Some t)
    by (rewrite Hline; reflexivity).
  eexists. split; [apply (parse_line_x W _ _ _ _ _ _ Hx Ht3 Ht)|].
  cbn [locals with_locals files]. split; [|split; [|reflexivity]].
  - rewrite extend_at. destruct (var_eq_dec x x) as [_|]; [|congruence]. f_equal.
    destruct (x_entries_kinds v) as (Hv & Ho & Hr). unfold x_out.
    destruct Hkind as [-> | [-> | ->]].
    + rewrite Ho, concat_repeat_one. change (String.eqb _ _) with true. cbv iota.
      do 2 f_equal. lia.
    + rewrite Hv. apply concat_repeat_one.
    + rewrite Hr. apply concat_repeat_one.
  - intros v' Hv'. rewrite extend_at. destruct (var_eq_dec x v') as [<-|_]; [congruence|].
    apply app_nil_r.
Qed.

Lemma value_line_appends_transformed_x_witness :
  exists s', parse_line unit "intersection_objectives" 2 ("Variable value used -2" ++ nl) idle
             = Ok tt s'
    /\ locals s' x = [NInt (-2); NInt (-2)].
Proof.
  destruct (value_line_appends_transformed_x unit "intersection_objectives"
              ("Variable value used -2" ++ nl) "-2" [] 2 (-2) idle
              eq_refl eq_refl (or_introl eq_refl)) as (s' & Hs' & Hx & _).
  exists s'. split; [exact Hs' | exact Hx].
Defined.

(** C5, as the code has it.  The parser pads nothing and checks nothing:
    once the scan of the report has returned, [parse_results] completes
    exactly when none of the series a row reads is shorter than [x], and
    then the dataset gets its header and one row for each entry of [x].
    When one of them is shorter, which is what a label missing from a
    block leaves behind, the row loop raises [IndexError] at the first
    row that lacks a cell, after the header and the rows before it have
    been written. *)
Theorem parse_results_needs_full_series
    (W : Type) (file_name benchmark_type save_file : string) (N : Z) (s s1 : St W) :
  supported benchmark_type ->
  scan W file_name benchmark_type N (with_locals empty_frame s) = Ok tt s1 ->
  let fr := locals s1 in
  let written := appended save_file (fst (dataset benchmark_type fr)) s1 in
  (Forall (fun v => (List.length (fr x) <= List.length (fr v))%nat) (columns benchmark_type) ->
   parse_results W file_name benchmark_type N save_file s = Ok tt written
   /\ snd (dataset benchmark_type fr) = true)
  /\ (Exists (fun v => (List.length (fr v) < List.length (fr x))%nat)
        (columns benchmark_type) ->
      parse_results W file_name benchmark_type N save_file s = Raised IndexError written
      /\ snd (dataset benchmark_type fr) = false).
Proof.
  intros Hbt Hscan fr written. split; intros H.
  - rewrite (parse_results_eq W _ _ _ _ _ _ Hbt Hscan).
    fold fr. rewrite (dataset_complete _ _ H). split; reflexivity.
  - rewrite (parse_results_eq W _ _ _ _ _ _ Hbt Hscan).
    fold fr. rewrite (dataset_short _ _ H). split; reflexivity.
Qed.

(** A report of one complete value, and the machine that holds it. *)
Definition small_report : string :=
  ("Variable value used 3" ++ nl ++ "CE times process [1.5]" ++ nl
   ++ "AO times process [0.25]" ++ nl)%string.

Definition holding (report : string) : St unit :=
  Machine tt {["r" := report]} EmptyString [] empty_frame.

Lemma parse_results_needs_full_series_witness :
  let s := holding small_report in
  let s1 := final (scan unit "r" "intersection_vertices" 1 (with_locals empty_frame s)) in
  parse_results unit "r" "intersection_vertices" 1 "d" s
  = Ok tt (appended "d" (fst (dataset "intersection_vertices" (locals s1))) s1)
  /\ files (appended "d" (fst (dataset "intersection_vertices" (locals s1))) s1) !! "d"
     = Some ("nbr_vertices CE_time AO_time" ++ nl ++ "3 1.5 0.25" ++ nl)%string.
Proof.
  intros s s1.
  assert (Hscan : scan unit "r" "intersection_vertices" 1 (with_locals empty_frame s)
                  = Ok tt s1) by (vm_compute; reflexivity).
  destruct (parse_results_needs_full_series unit "r" "intersection_vertices" "d" 1 s s1
              (or_introl eq_refl) Hscan) as [Hfull _].
  split.
  - apply Hfull. repeat constructor.
  - vm_compute. reflexivity.
Defined.

(** C5 as stated does not hold: a report with a value line and no
    running times makes [parse_results] raise [IndexError] once the
    header is written. *)
Lemma report_without_times_raises :
  exists s', parse_results unit "r" "intersection_vertices" 1 "d"
               (holding ("Variable value used 3" ++ nl))
             = Raised IndexError s'
    /\ files s' !! "d" = Some ("nbr_vertices CE_time AO_time" ++ nl)%string.
Proof. eexists. split; vm_compute; reflexivity. Qed.

End ClaimsParser.

(** ** Reading back what the driver wrote *)

Module ScanFacts.
Import Py PyFacts Parser ParserFacts.

(** [split] of a text that goes on after [label], given the fields [k]
    of what follows. *)
Fixpoint split_onto (sep : ascii) (label : string) (k : list string) : list string :=
  match label with
  | EmptyString => k
  | String c t =>
      if Ascii.eqb c sep then EmptyString :: split_onto sep t k
      else match split_onto sep t k with
           | w :: ws => String c w :: ws
           | [] => [String c EmptyString]
           end
  end.

Lemma split_app_onto sep label v :
  split sep (label ++ v) = split_onto sep label (split sep v).
Proof.
  induction label as [|c t IH]; [reflexivity|].
  cbn [String.append split split_onto]. now rewrite IH.
Qed.

Definition not_ws (c : ascii) : bool := negb (is_ws c).

Lemma digit_last_not_ws s : last_is is_digit s = true -> last_is not_ws s = true.
Proof. apply last_is_weaken. intros c Hc. unfold not_ws. now rewrite (digit_not_ws _ Hc). Qed.

Lemma str_list_ends {A} (repr : A -> string) l : last_is not_ws (str_list repr l) = true.
Proof. unfold str_list. apply last_is_app, last_is_app. reflexivity. Qed.

Lemma str_int_ends z : last_is not_ws (str_int z) = true.
Proof. apply digit_last_not_ws, str_int_last. Qed.

Lemma fmt3_ends tie q : last_is not_ws (fmt3 tie q) = true.
Proof. apply digit_last_not_ws, fmt3_dec_last. Qed.

(** The tokens of a written line: those of the label, then those of the
    value. *)
Lemma tokens_of_line label v :
  last_is not_ws v = true ->
  split " " (rstrip ((label ++ v) ++ nl)) = split_onto " " label (split " " v).
Proof.
  intros Hv. rewrite rstrip_app_ws; [apply split_app_onto | now apply last_is_app | reflexivity].
Qed.

Lemma split_bracket {A} (repr : A -> string) l :
  exists w ws, split " " (str_list repr l) = String "[" w :: ws.
Proof.
  unfold str_list.
  change ("[" ++ join ", " (map repr l) ++ "]")%string
    with (String "[" (join ", " (map repr l) ++ "]")).
  cbn [split]. change (Ascii.eqb "[" " ") with false. cbv iota.
  destruct (split " " (join ", " (map repr l) ++ "]")) as [|w ws]; eauto.
Qed.

Lemma num_char_not_space c : is_num_char c = true -> not_char " " c = true.
Proof. by_ascii_cases c. Qed.

Lemma split_num s n : num_text s n -> split " " s = [s].
Proof.
  intros (H & _). apply split_none. revert H. apply all_chars_weaken, num_char_not_space.
Qed.

Section Block.
Variable W : Type.
Variable tie : Q -> bool.

Ltac by_label :=
  intros; cbv [unlabelled split_onto matches P_x P_ce P_ao P_mce P_mao
               String.eqb Ascii.eqb Bool.eqb];
  repeat split; try reflexivity; try discriminate.

Lemma unlabelled_line bt label v :
  last_is not_ws v = true ->
  (forall k, unlabelled bt (split_onto " " label k)) ->
  unlabelled bt (split " " (rstrip ((label ++ v) ++ nl))).
Proof. intros Hv H. rewrite (tokens_of_line _ _ Hv). apply H. Qed.

Lemma unlabelled_bracket {A} bt label (repr : A -> string) l :
  (forall w ws, unlabelled bt (split_onto " " label (String "[" w :: ws))) ->
  unlabelled bt (split " " (rstrip ((label ++ str_list repr l) ++ nl))).
Proof.
  intros H. rewrite (tokens_of_line _ _ (str_list_ends _ _)).
  destruct (split_bracket repr l) as (w & ws & ->). apply H.
Qed.

Lemma unlabelled_blank bt : unlabelled bt (split " " (rstrip ("" ++ nl))).
Proof. by_label. Qed.

Lemma step_unlabelled bt N raw rest s :
  unlabelled bt (split " " (rstrip raw)) ->
  for_each (raw :: rest) (parse_line W bt N) s = for_each rest (parse_line W bt N) s.
Proof. intros H. cbn [for_each]. unfold bind. now rewrite parse_line_unlabelled. Qed.

Lemma step_labelled bt N raw rest s fr :
  parse_line W bt N raw s = Ok tt (with_locals fr s) ->
  for_each (raw :: rest) (parse_line W bt N) s
  = for_each rest (parse_line W bt N) (with_locals fr s).
Proof. intros H. cbn [for_each]. unfold bind. now rewrite H. Qed.

(** The value line of a block (line 198 writes it, lines 304-312 read
    it). *)
Lemma value_line bt N i s :
  parse_line W bt N (("Variable value used " ++ str_int i) ++ nl) s
  = Ok tt (with_locals
             (extend x (concat (repeat (x_entries bt i) (Z.to_nat N))) (locals s)) s).
Proof.
  assert (Ht : split " " (rstrip (("Variable value used " ++ str_int i) ++ nl))
               = ["Variable"; "value"; "used"; str_int i]).
  { rewrite (tokens_of_line _ _ (str_int_ends i)), (split_num _ _ (num_text_int i)).
    reflexivity. }
  apply (parse_line_x W bt N _ (str_int i) i).
  - rewrite Ht. reflexivity.
  - rewrite Ht. reflexivity.
  - apply int_of_str_int.
Qed.

Lemma times_tokens (w : string) l :
  all_chars (not_char " ") w = true ->
  split " " (rstrip (((w ++ " times process ") ++ str_list repr_num l) ++ nl))
  = w :: "times" :: "process" :: split " " (str_list repr_num l).
Proof.
  intros Hw. rewrite (tokens_of_line _ _ (str_list_ends _ _)), <- split_app_onto.
  rewrite append_assoc.
  change (w ++ " times process " ++ str_list repr_num l)%string
    with (w ++ String " " ("times" ++ String " " ("process" ++ String " " (str_list repr_num l))))%string.
  now rewrite !split_app_sep.
Qed.

(** The line of the CE process times (line 213 writes it, lines 314-317
    read it). *)
Lemma ce_times_line bt N l s :
  (Z.to_nat N <= List.length l)%nat ->
  parse_line W bt N (("CE times process " ++ str_list repr_num l) ++ nl) s
  = Ok tt (with_locals (extend y_ce (firstn (Z.to_nat N) l) (locals s)) s).
Proof.
  intros Hlen.
  pose proof (times_tokens "CE" l eq_refl) as Ht.
  change ("CE" ++ " times process ")%string with "CE times process " in Ht.
  apply (parse_line_ce W bt N _ (LList l) l).
  - rewrite Ht. reflexivity.
  - rewrite Ht. unfold skipn. rewrite join_split. apply literal_eval_str_list.
  - reflexivity.
  - exact Hlen.
Qed.

Lemma ao_times_line bt N l s :
  (Z.to_nat N <= List.length l)%nat ->
  parse_line W bt N (("AO times process " ++ str_list repr_num l) ++ nl) s
  = Ok tt (with_locals (extend y_ao (firstn (Z.to_nat N) l) (locals s)) s).
Proof.
  intros Hlen.
  pose proof (times_tokens "AO" l eq_refl) as Ht.
  change ("AO" ++ " times process ")%string with "AO times process " in Ht.
  apply (parse_line_ao W bt N _ (LList l) l).
  - rewrite Ht. reflexivity.
  - rewrite Ht. unfold skipn. rewrite join_split. apply literal_eval_str_list.
  - reflexivity.
  - exact Hlen.
Qed.


(** The mean of a series as the writer prints it: to three decimals. *)
Definition mean3 (l : list num) : dec3 := round3 tie (average (map Q_of_num l)).

Lemma means_tokens (w : string) l1 l2 l3 :
  all_chars (not_char " ") w = true ->
  let v := (DriverFacts.mean_text tie l1 ++ ", " ++ DriverFacts.mean_text tie l2 ++ ", "
            ++ DriverFacts.mean_text tie l3)%string in
  split " " (rstrip ((("Mean running time " ++ w ++ " ") ++ v) ++ nl))
  = "Mean" :: "running" :: "time" :: w :: split " " v.
Proof.
  intros Hw v.
  assert (Hv : last_is not_ws v = true) by (apply last_is_app, last_is_app, last_is_app,
                                             last_is_app, fmt3_ends).
  rewrite (tokens_of_line _ _ Hv), <- split_app_onto.
  change (("Mean running time " ++ w ++ " ") ++ v)%string
    with ("Mean" ++ String " " ("running" ++ String " " ("time" ++ String " " ((w ++ " ") ++ v))))%string.
  rewrite !split_app_sep by reflexivity. rewrite append_assoc.
  change (w ++ " " ++ v)%string with (w ++ String " " v)%string.
  now rewrite split_app_sep.
Qed.

Lemma means_value l1 l2 l3 :
  literal_eval (DriverFacts.mean_text tie l1 ++ ", " ++ DriverFacts.mean_text tie l2 ++ ", "
                ++ DriverFacts.mean_text tie l3)
  = Some (LTuple [NFloat (mean3 l1); NFloat (mean3 l2); NFloat (mean3 l3)]).
Proof.
  apply (literal_eval_tuple (DriverFacts.mean_text tie l1) (DriverFacts.mean_text tie l2)
           [DriverFacts.mean_text tie l3]).
  repeat constructor; apply num_text_fmt3.
Qed.

(** The lines of the three means of the running times (lines 228-234
    write them, lines 324-334 read the first of each). *)
Lemma ce_means_line N l1 l2 l3 s :
  parse_line W "random" N (DriverFacts.means3_line tie "Mean running time CE " l1 l2 l3 ++ nl) s
  = Ok tt (with_locals
             (extend mean_y_ce (repeat (NFloat (mean3 l1)) (Z.to_nat N)) (locals s)) s).
Proof.
  pose proof (means_tokens "CE" l1 l2 l3 eq_refl) as Ht. cbv zeta in Ht.
  change ("Mean running time " ++ "CE" ++ " ")%string with "Mean running time CE " in Ht.
  unfold DriverFacts.means3_line.
  apply (parse_line_mce W N _ (LTuple [NFloat (mean3 l1); NFloat (mean3 l2); NFloat (mean3 l3)])
           (NFloat (mean3 l1)) [NFloat (mean3 l2); NFloat (mean3 l3)]).
  - rewrite Ht. reflexivity.
  - rewrite Ht. unfold skipn. rewrite join_split. apply means_value.
  - reflexivity.
Qed.

Lemma ao_means_line N l1 l2 l3 s :
  parse_line W "random" N (DriverFacts.means3_line tie "Mean running time AO " l1 l2 l3 ++ nl) s
  = Ok tt (with_locals
             (extend mean_y_ao (repeat (NFloat (mean3 l1)) (Z.to_nat N)) (locals s)) s).
Proof.
  pose proof (means_tokens "AO" l1 l2 l3 eq_refl) as Ht. cbv zeta in Ht.
  change ("Mean running time " ++ "AO" ++ " ")%string with "Mean running time AO " in Ht.
  unfold DriverFacts.means3_line.
  apply (parse_line_mao W N _ (LTuple [NFloat (mean3 l1); NFloat (mean3 l2); NFloat (mean3 l3)])
           (NFloat (mean3 l1)) [NFloat (mean3 l2); NFloat (mean3 l3)]).
  - rewrite Ht. reflexivity.
  - rewrite Ht. unfold skipn. rewrite join_split. apply means_value.
  - reflexivity.
Qed.

Lemma means_unlabelled bt label l1 l2 l3 :
  (forall k, unlabelled bt (split_onto " " label k)) ->
  unlabelled bt (split " " (rstrip (DriverFacts.means3_line tie label l1 l2 l3 ++ nl))).
Proof.
  intros H. unfold DriverFacts.means3_line. apply unlabelled_line; [|exact H].
  apply last_is_app, last_is_app, last_is_app, last_is_app, fmt3_ends.
Qed.

(** What the lines of one block add to the lists of the parser. *)
Definition block_frame (bt : string) (N i : Z) (L : Driver.var -> list num) (fr : frame)
  : frame :=
  let n := Z.to_nat N in
  let times :=
    extend y_ao (firstn n (L Driver.antichain_optimization_times_process))
      (extend y_ce (firstn n (L Driver.counterexample_times_process))
         (extend x (concat (repeat (x_entries bt i) n)) fr)) in
  if String.eqb bt "random" then
    extend mean_y_ao
      (repeat (NFloat (mean3 (L Driver.antichain_optimization_times_process))) n)
      (extend mean_y_ce
         (repeat (NFloat (mean3 (L Driver.counterexample_times_process))) n) times)
  else times.

Ltac line_ends :=
  first [ apply str_list_ends | apply str_int_ends | apply fmt3_ends ].

Ltac skip_line :=
  rewrite step_unlabelled by
    first [ apply unlabelled_blank
          | apply unlabelled_bracket; by_label
          | apply means_unlabelled; by_label; congruence
          | apply unlabelled_line; [line_ends | by_label] ].

(** Scanning the lines of a block the driver wrote: the value line and
    the two lines of process times are read, the means as well for the
    kind random, and every other line is passed over. *)
Lemma scan_block bt N parameters i n L rest s :
  (Z.to_nat N <= List.length (L Driver.counterexample_times_process))%nat ->
  (Z.to_nat N <= List.length (L Driver.antichain_optimization_times_process))%nat ->
  for_each (map (fun l => l ++ nl)%string (DriverFacts.block_lines tie parameters i n L) ++ rest)
    (parse_line W bt N) s
  = for_each rest (parse_line W bt N) (with_locals (block_frame bt N i L (locals s)) s).
Proof.
  intros Hce Hao.
  unfold DriverFacts.block_lines, DriverFacts.list_labels, DriverFacts.mean_labels, block_frame.
  cbn [map app fst snd].
  rewrite (step_labelled _ _ _ _ _ _ (value_line bt N i s)).
  do 11 skip_line.
  rewrite (step_labelled _ _ _ _ _ _ (ce_times_line bt N _ _ Hce)).
  do 8 skip_line.
  rewrite (step_labelled _ _ _ _ _ _ (ao_times_line bt N _ _ Hao)).
  do 2 skip_line.
  cbn [locals with_locals world files stdout trace].
  destruct (String.eqb_spec bt "random") as [->|Hbt].
  - rewrite (step_labelled _ _ _ _ _ _ (ce_means_line N _ _ _ _)).
    rewrite (step_labelled _ _ _ _ _ _ (ao_means_line N _ _ _ _)).
    do 18 skip_line. reflexivity.
  - do 20 skip_line. reflexivity.
Qed.


(** The entries a block adds to each list. *)
Definition block_column (bt : string) (N i : Z) (L : Driver.var -> list num) (v : var)
  : list num :=
  let n := Z.to_nat N in
  match v with
  | x => concat (repeat (x_entries bt i) n)
  | y_ce => firstn n (L Driver.counterexample_times_process)
  | y_ao => firstn n (L Driver.antichain_optimization_times_process)
  | mean_y_ce =>
      if String.eqb bt "random"
      then repeat (NFloat (mean3 (L Driver.counterexample_times_process))) n else []
  | mean_y_ao =>
      if String.eqb bt "random"
      then repeat (NFloat (mean3 (L Driver.antichain_optimization_times_process))) n else []
  end.

Lemma block_frame_at bt N i L fr v :
  block_frame bt N i L fr v = fr v ++ block_column bt N i L v.
Proof.
  unfold block_frame, block_column.
  destruct (String.eqb bt "random"); rewrite !extend_at; destruct v;
    repeat match goal with
           | |- context [var_eq_dec ?a ?b] =>
               let r := eval vm_compute in (var_eq_dec a b) in
               change (var_eq_dec a b) with r; cbv iota
           end;
    rewrite ?app_nil_r; reflexivity.
Qed.

(** The lists after the blocks [bs] have been scanned. *)
Definition report_frame (bt : string) (N : Z) (bs : list SweepFacts.block) (fr : frame)
  : frame :=
  fold_left (fun fr b => block_frame bt N (SweepFacts.b_value b) (SweepFacts.b_lists b) fr)
    bs fr.

Lemma report_frame_at bt N bs fr v :
  report_frame bt N bs fr v
  = fr v ++ flat_map (fun b => block_column bt N (SweepFacts.b_value b)
                                 (SweepFacts.b_lists b) v) bs.
Proof.
  unfold report_frame. revert fr. induction bs as [|b bs IH]; intros fr.
  - cbn [fold_left flat_map]. now rewrite app_nil_r.
  - cbn [fold_left flat_map]. rewrite IH, block_frame_at. now rewrite app_assoc.
Qed.

(** The lines of a report. *)
Definition report_lines (parameters : list pyval) (bs : list SweepFacts.block) : list string :=
  flat_map (fun b => map (fun l => l ++ nl)%string
                       (DriverFacts.block_lines tie parameters (SweepFacts.b_value b)
                          (SweepFacts.b_nbr b) (SweepFacts.b_lists b))) bs.

Lemma readlines_report parameters bs :
  readlines (SweepFacts.report_text tie parameters bs) = report_lines parameters bs.
Proof.
  induction bs as [|b bs IH]; [reflexivity|].
  change (SweepFacts.report_text tie parameters (b :: bs))
    with (DriverFacts.block_text tie parameters (SweepFacts.b_value b) (SweepFacts.b_nbr b)
            (SweepFacts.b_lists b) ++ SweepFacts.report_text tie parameters bs)%string.
  rewrite ReportFacts.readlines_block, IH. reflexivity.
Qed.

Lemma scan_report bt N parameters bs s :
  Forall (SweepFacts.full N) bs ->
  for_each (report_lines parameters bs) (parse_line W bt N) s
  = Ok tt (with_locals (report_frame bt N bs (locals s)) s).
Proof.
  intros H. revert s. induction H as [|b bs Hb _ IH]; intros s.
  - cbn [report_lines flat_map for_each report_frame fold_left]. now rewrite with_locals_same.
  - unfold report_lines. cbn [flat_map]. fold (report_lines parameters bs).
    rewrite scan_block by (rewrite Hb; lia). rewrite IH. reflexivity.
Qed.


Lemma scan_written f bt N parameters bs s :
  files s !! f = Some (SweepFacts.report_text tie parameters bs) ->
  Forall (SweepFacts.full N) bs ->
  scan W f bt N s = Ok tt (with_locals (report_frame bt N bs (locals s)) s).
Proof.
  intros Hf Hfull. unfold scan, bind, open_read. rewrite Hf, readlines_report.
  now apply scan_report.
Qed.

(** *** The rows of three columns *)

Fixpoint rows3 (xs ces aos : list num) : string :=
  match xs, ces, aos with
  | vx :: xs', ce :: ces', ao :: aos' =>
      (repr_num vx ++ " " ++ repr_num ce ++ " " ++ repr_num ao ++ nl
       ++ rows3 xs' ces' aos')%string
  | _, _, _ => EmptyString
  end.

Lemma skipn_nth {A} (l : list A) a e :
  nth_error l a = Some e -> skipn a l = e :: skipn (S a) l.
Proof.
  revert l. induction a as [|a IH]; intros [|h l] H; cbn [nth_error] in H; try discriminate.
  - now injection H as ->.
  - cbn [skipn]. now apply IH.
Qed.

Lemma rows_text_row3 fr a n :
  (a + n = List.length (fr x))%nat ->
  (List.length (fr x) <= List.length (fr y_ce))%nat ->
  (List.length (fr x) <= List.length (fr y_ao))%nat ->
  rows_text (row3 fr) (seq a n)
  = (rows3 (skipn a (fr x)) (skipn a (fr y_ce)) (skipn a (fr y_ao)), true).
Proof.
  revert a. induction n as [|n IH]; intros a Ha Hce Hao.
  - cbn [seq rows_text]. rewrite (skipn_all2 (fr x)) by lia. reflexivity.
  - cbn [seq rows_text]. unfold row3 at 1, nth_cell.
    destruct (nth_error (fr x) a) as [vx|] eqn:Ex; [|apply nth_error_None in Ex; lia].
    destruct (nth_error (fr y_ce) a) as [ce|] eqn:Ece; [|apply nth_error_None in Ece; lia].
    destruct (nth_error (fr y_ao) a) as [ao|] eqn:Eao; [|apply nth_error_None in Eao; lia].
    cbn [option_map]. rewrite IH by lia.
    rewrite (skipn_nth _ _ _ Ex), (skipn_nth _ _ _ Ece), (skipn_nth _ _ _ Eao).
    cbn [rows3]. rewrite !append_assoc. reflexivity.
Qed.

End Block.
End ScanFacts.

(** ** The script: a sweep, then the parse of its report *)

Module Script.

(** Lines 420-484: each [run_benchmark(...)] is followed by the
    [parse_results(...)] of the report it wrote. *)
Definition sweep_then_parse (C : Driver.Collaborators)
    (benchmark_type file_name : string) (parameters : list Py.pyval) (nbr_points : Z)
    (range_start range_end range_step : Z) (save_file : string)
  : M (machine (Driver.World C) unit) unit :=
  call_fn (Driver.Frame Driver.empty_lists None)
    (Driver.run_benchmark C benchmark_type file_name parameters nbr_points
       range_start range_end range_step) ;;
  call_fn Parser.empty_frame
    (Parser.parse_results (Driver.World C) file_name benchmark_type nbr_points save_file).

End Script.

Module ClaimsScript.
Import Py PyFacts Parser ParserFacts ScanFacts SweepFacts Script.

Lemma toy_well_behaved b : TrialFacts.well_behaved (Example.toy b b) b.
Proof.
  constructor; intros; try reflexivity.
  unfold TrialFacts.stats_ok. cbn. repeat split; discriminate.
Qed.

Lemma full_one b v : full 1 b -> exists e, b_lists b v = [e].
Proof.
  intros H. specialize (H v). change (Z.to_nat 1) with 1%nat in H.
  destruct (b_lists b v) as [|e [|e' l]]; try discriminate. now exists e.
Qed.


(** A row of three columns, without its newline. *)
Definition row_text (vx ce ao : num) : string :=
  (repr_num vx ++ " " ++ repr_num ce ++ " " ++ repr_num ao)%string.

Lemma one_line_row vx ce ao : ReportFacts.one_line (row_text vx ce ao).
Proof.
  unfold row_text.
  repeat (apply ReportFacts.one_line_app;
          [first [apply ReportFacts.one_line_repr_num | reflexivity]|]).
  apply ReportFacts.one_line_repr_num.
Qed.

Lemma repr_num_no_space n : all_chars (not_char " ") (repr_num n) = true.
Proof.
  destruct (num_text_repr n) as (H & _). revert H.
  apply all_chars_weaken, num_char_not_space.
Qed.

Lemma row_tokens vx ce ao :
  split " " (rstrip (row_text vx ce ao ++ nl)) = [repr_num vx; repr_num ce; repr_num ao].
Proof.
  unfold row_text. rewrite rstrip_app_ws; [| |reflexivity].
  - change (repr_num vx ++ " " ++ repr_num ce ++ " " ++ repr_num ao)%string
      with (repr_num vx ++ String " " (repr_num ce ++ String " " (repr_num ao)))%string.
    rewrite !split_app_sep by apply repr_num_no_space.
    now rewrite (split_num _ _ (num_text_repr ao)).
  - apply last_is_app, last_is_app, last_is_app, last_is_app, digit_last_not_ws.
    apply (num_text_repr ao).
Qed.

(** C9.  The descending range (3, 1, -1) is the values 3 then 2.  With
    collaborators that agree on the answer, a report file and a dataset
    file that do not exist yet, the sweep of kind intersection_vertices
    over that range with one trial, followed by the parse of its report,
    leaves a dataset of three lines: the header, then one row for 3 and
    one row for 2, in that order. *)
Theorem descending_sweep_end_to_end
    (C : Driver.Collaborators) (b : bool) (file_name save_file : string)
    (s : machine (Driver.World C) unit) :
  TrialFacts.well_behaved C b ->
  file_name <> save_file ->
  files s !! file_name = None ->
  files s !! save_file = None ->
  range 3 1 (-1) = Some [3; 2]%Z
  /\ exists s' text ce3 ao3 ce2 ao2,
      sweep_then_parse C "intersection_vertices" file_name [PBool b] 1 3 1 (-1) save_file s
      = Ok tt s'
      /\ files s' !! save_file = Some text
      /\ map (fun l => split " " (rstrip l)) (readlines text)
         = [["nbr_vertices"; "CE_time"; "AO_time"];
            ["3"; repr_num ce3; repr_num ao3];
            ["2"; repr_num ce2; repr_num ao2]].
Proof.
  intros Hwb Hne Hf Hd. split; [reflexivity|].
  pose (s0 := @with_locals _ _ Driver.frame (Driver.Frame Driver.empty_lists None) s).
  destruct (post_returns _ _ _
              (run_benchmark_returns C b file_name 1 3 1 (-1) [3; 2]%Z s0 Hwb
                 ltac:(lia) eq_refl))
    as ([] & s1 & Hrun & bs & Hvals & Hfull & [Hother Hgrown] & Hsome).
  destruct bs as [|b3 [|b2 [|? ?]]]; try discriminate Hvals.
  injection Hvals as Hv3 Hv2.
  apply List.Forall_cons_iff in Hfull as [Hfull3 Hfull].
  apply List.Forall_cons_iff in Hfull as [Hfull2 _].
  assert (Hreport : files s1 !! file_name
                    = Some (report_text (Driver.tie_up C) [PBool b] [b3; b2])).
  { destruct (Hsome ltac:(discriminate)) as [c Hc]. rewrite Hc in Hgrown |- *.
    change (files s0 !! file_name) with (files s !! file_name) in Hgrown.
    rewrite Hf in Hgrown. cbn [from_option id String.append] in Hgrown. now rewrite Hgrown. }
  pose (s2 := @with_locals _ _ frame empty_frame s1).
  pose (fr := report_frame (Driver.tie_up C) "intersection_vertices" 1 [b3; b2] empty_frame).
  assert (Hscan : scan (Driver.World C) file_name "intersection_vertices" 1 s2
                  = Ok tt (with_locals fr s2)).
  { apply (scan_written _ (Driver.tie_up C) file_name "intersection_vertices" 1 [PBool b]
             [b3; b2] s2 Hreport).
    repeat constructor; assumption. }
  destruct (full_one b3 Driver.counterexample_times_process Hfull3) as [ce3 Hce3].
  destruct (full_one b3 Driver.antichain_optimization_times_process Hfull3) as [ao3 Hao3].
  destruct (full_one b2 Driver.counterexample_times_process Hfull2) as [ce2 Hce2].
  destruct (full_one b2 Driver.antichain_optimization_times_process Hfull2) as [ao2 Hao2].
  assert (Hx : fr x = [NInt 3; NInt 2]).
  { unfold fr. rewrite report_frame_at. cbn [flat_map block_column]. now rewrite Hv3, Hv2. }
  assert (Hyce : fr y_ce = [ce3; ce2]).
  { unfold fr. rewrite report_frame_at. cbn [flat_map block_column]. now rewrite Hce3, Hce2. }
  assert (Hyao : fr y_ao = [ao3; ao2]).
  { unfold fr. rewrite report_frame_at. cbn [flat_map block_column]. now rewrite Hao3, Hao2. }
  assert (Hdata : dataset "intersection_vertices" fr
                  = (("nbr_vertices CE_time AO_time" ++ nl
                      ++ rows3 [NInt 3; NInt 2] [ce3; ce2] [ao3; ao2])%string, true)).
  { unfold dataset. change (row "intersection_vertices") with row3.
    rewrite (rows_text_row3 fr 0 (List.length (fr x)))
      by (rewrite ?Hx, ?Hyce, ?Hyao; cbn [List.length]; lia).
    unfold skipn. now rewrite Hx, Hyce, Hyao. }
  pose proof (parse_results_eq (Driver.World C) file_name "intersection_vertices" 1 save_file
                s2 (with_locals fr s2) (or_introl eq_refl) Hscan) as Hparse.
  change (locals (with_locals fr s2)) with fr in Hparse. rewrite Hdata in Hparse.
  cbn [fst snd finish] in Hparse.
  exists (Machine (world s2) (files (appended save_file
            ("nbr_vertices CE_time AO_time" ++ nl
             ++ rows3 [NInt 3; NInt 2] [ce3; ce2] [ao3; ao2]) s2))
            (stdout s2) (trace s2) (locals s)),
    (DriverFacts.unlines ["nbr_vertices CE_time AO_time"; row_text (NInt 3) ce3 ao3;
                          row_text (NInt 2) ce2 ao2]),
    ce3, ao3, ce2, ao2.
  split; [|split].
  - unfold sweep_then_parse, bind, call_fn.
    change (Machine (world s) (files s) (stdout s) (trace s)
              (Driver.Frame Driver.empty_lists None)) with s0.
    rewrite Hrun. cbn [world files stdout trace locals].
    change (Machine (world s1) (files s1) (stdout s1) (trace s1) empty_frame) with s2.
    rewrite Hparse. reflexivity.
  - cbn [files appended with_locals world stdout trace locals].
    rewrite lookup_insert_eq. change (files s2 !! save_file) with (files s1 !! save_file).
    rewrite (Hother save_file) by congruence.
    change (files s0 !! save_file) with (files s !! save_file). rewrite Hd.
    cbn [from_option id rows3 DriverFacts.unlines fold_right]. unfold row_text.
    rewrite !append_assoc. reflexivity.
  - rewrite <- (append_nil_r (DriverFacts.unlines _)).
    rewrite ReportFacts.readlines_unlines
      by (repeat apply List.Forall_cons; try apply List.Forall_nil;
          [reflexivity | apply one_line_row | apply one_line_row]).
    cbn [map app readlines]. rewrite !row_tokens. reflexivity.
Qed.

Lemma descending_sweep_end_to_end_witness :
  exists s' text ce3 ao3 ce2 ao2,
    sweep_then_parse (Example.toy true true) "intersection_vertices" "report.txt"
      [PBool true] 1 3 1 (-1) "data.dat" (Example.start tt)
    = Ok tt s'
    /\ files s' !! "data.dat" = Some text
    /\ map (fun l => split " " (rstrip l)) (readlines text)
       = [["nbr_vertices"; "CE_time"; "AO_time"];
          ["3"; repr_num ce3; repr_num ao3];
          ["2"; repr_num ce2; repr_num ao2]].
Proof.
  exact (proj2 (descending_sweep_end_to_end (Example.toy true true) true
                  "report.txt" "data.dat" (Example.start tt)
                  (toy_well_behaved true) ltac:(discriminate) eq_refl eq_refl)).
Defined.

End ClaimsScript.

(** ** The table generator *)

Module TablesFacts.
Import Py PyFacts Tables.

(** What a line gives to the series of [pattern]: the text after the
    pattern when the pattern cuts the line in two. *)
Definition field (pattern raw : string) : list string :=
  match split_pat pattern (rstrip raw) with
  | [_; v] => [v]
  | _ => []
  end.

(** The series of [pattern] in a report, as line 395 leaves it: last
    block first. *)
Definition series (pattern : string) (report_lines : list string) : list string :=
  rev (flat_map (field pattern) report_lines).

Lemma printed_printed {W L} t1 t2 (s : machine W L) :
  printed t2 (printed t1 s) = printed (t1 ++ t2) s.
Proof. unfold printed. cbn [world files stdout trace locals]. now rewrite append_assoc. Qed.

Lemma printed_nil {W L} (s : machine W L) : printed "" s = s.
Proof.
  destruct s as [w fs out tr l]. unfold printed. cbn [world files stdout trace locals].
  now rewrite append_nil_r.
Qed.

(** The dictionary is a finite map; its laws, at its type. *)
Lemma frame_insert_insert (d : frame) k a b : <[k := a]> (<[k := b]> d) = <[k := a]> d.
Proof. apply (insert_insert_eq (M := gmap string)). Qed.

Lemma frame_lookup_insert (d : frame) k a : <[k := a]> d !! k = Some a.
Proof. apply (lookup_insert_eq (M := gmap string)). Qed.

Lemma frame_lookup_insert_ne (d : frame) k k' a : k <> k' -> <[k := a]> d !! k' = d !! k'.
Proof. apply (lookup_insert_ne (M := gmap string)). Qed.

Lemma frame_insert_id (d : frame) k a : d !! k = Some a -> <[k := a]> d = d.
Proof. apply (insert_id (M := gmap string)). Qed.

Section Extract.
Variable W : Type.
Variable tie_up : Q -> bool.
Implicit Types s : St W.

Lemma lookup_eq key s :
  lookup W key s
  = match locals s !! key with Some l => Ok l s | None => Raised KeyError s end.
Proof. unfold lookup, bind, get_locals. now destruct (locals s !! key). Qed.

Lemma same_locals s : with_locals (locals s) s = s.
Proof. now destruct s. Qed.

Lemma collect_eq pattern raw l s :
  locals s !! pattern = Some l ->
  collect W pattern raw s
  = Ok tt (with_locals (<[pattern := l ++ field pattern raw]> (locals s)) s).
Proof.
  intros Hl. unfold collect, field.
  destruct (split_pat pattern (rstrip raw)) as [|a [|v [|? ?]]]; cbn [List.length Nat.eqb].
  1, 2, 4: rewrite app_nil_r, (frame_insert_id _ _ _ Hl), same_locals; reflexivity.
  unfold bind. rewrite lookup_eq, Hl. reflexivity.
Qed.

Lemma collect_loop pattern lines l s :
  locals s !! pattern = Some l ->
  for_each lines (collect W pattern) s
  = Ok tt (with_locals (<[pattern := l ++ flat_map (field pattern) lines]> (locals s)) s).
Proof.
  revert l s. induction lines as [|raw lines IH]; intros l s Hl.
  - cbn [for_each flat_map]. now rewrite app_nil_r, (frame_insert_id _ _ _ Hl), same_locals.
  - cbn [for_each flat_map]. unfold bind. rewrite (collect_eq _ _ _ _ Hl).
    rewrite (IH (l ++ field pattern raw)) by apply frame_lookup_insert.
    cbn [locals with_locals world files stdout trace].
    now rewrite frame_insert_insert, app_assoc.
Qed.

(** Lines 384-395 for one pattern. *)
Lemma extract_eq file_name pattern content l s :
  files s !! file_name = Some content ->
  locals s !! pattern = Some l ->
  extract W file_name pattern s
  = Ok tt (with_locals
             (<[pattern := rev (l ++ flat_map (field pattern) (readlines content))]> (locals s))
             s).
Proof.
  intros Hf Hl. unfold extract. unfold bind at 1. unfold open_read. rewrite Hf.
  unfold bind at 1. rewrite (collect_loop _ _ _ _ Hl).
  unfold bind. rewrite lookup_eq. cbn [locals with_locals world files stdout trace].
  rewrite frame_lookup_insert. unfold store, set_locals.
  cbn [locals with_locals world files stdout trace].
  now rewrite frame_insert_insert.
Qed.

(** The dictionary once the five patterns have been extracted. *)
Definition extracted (report_lines : list string) : frame :=
  fold_left (fun d p => <[p := series p report_lines]> d) patterns initial_frame.

Lemma extract_all file_name content s :
  files s !! file_name = Some content ->
  for_each patterns (extract W file_name) (with_locals initial_frame s)
  = Ok tt (with_locals (extracted (readlines content)) s).
Proof.
  intros Hf. unfold patterns, extracted. cbn [for_each fold_left patterns].
  repeat (unfold bind at 1;
          erewrite extract_eq;
          [ cbn [locals with_locals world files stdout trace app]
          | exact Hf
          | cbn [locals with_locals]; rewrite ?frame_lookup_insert_ne by discriminate;
            reflexivity ]).
  reflexivity.
Qed.

Lemma extracted_lookup report_lines p :
  In p patterns -> extracted report_lines !! p = Some (series p report_lines).
Proof.
  unfold extracted, patterns. cbn [fold_left In].
  intros [<- | [<- | [<- | [<- | [<- | []]]]]];
    rewrite ?frame_lookup_insert_ne by discriminate; apply frame_lookup_insert.
Qed.


(** *** What is printed *)

(** [l[k]] as a function. *)
Definition nth_z {A} (l : list A) (k : Z) : option A :=
  let n := Z.of_nat (List.length l) in
  if ((0 <=? k) && (k <? n))%Z then nth_error l (Z.to_nat k)
  else if ((- n <=? k) && (k <? 0))%Z then nth_error l (Z.to_nat (n + k))
  else None.

Lemma index_eq {A} (l : list A) k s :
  index l k s = match nth_z l k with Some a => Ok a s | None => Raised IndexError s end.
Proof.
  unfold index, nth_z.
  destruct ((0 <=? k) && (k <? Z.of_nat (List.length l)))%Z;
    [|destruct ((- Z.of_nat (List.length l) <=? k) && (k <? 0))%Z];
    try reflexivity; now destruct (nth_error l _).
Qed.

(** A printed text and the exception that ended the printing, if any. *)
Definition output : Type := string * option exn.

Definition finish (o : output) s : outcome (St W) unit :=
  match snd o with
  | None => Ok tt (printed (fst o) s)
  | Some e => Raised e (printed (fst o) s)
  end.

(** The output of [a] followed by that of [b], which is not run when
    [a] raised. *)
Definition and_then (a b : output) : output :=
  match snd a with
  | Some e => a
  | None => ((fst a ++ fst b)%string, snd b)
  end.

(** The cells [print(t, end=" ")] prints for the indices [idx], up to the
    first one that cannot be computed. *)
Fixpoint cells (get : Z -> exn + string) (idx : list Z) : output :=
  match idx with
  | [] => (EmptyString, None)
  | i :: rest =>
      match get i with
      | inl e => (EmptyString, Some e)
      | inr t => and_then ((t ++ " ")%string, None) (cells get rest)
      end
  end.

Lemma bind_finish (m : M (St W) unit) (k : unit -> M (St W) unit) a b s :
  m s = finish a s ->
  (forall s', locals s' = locals s -> k tt s' = finish b s') ->
  bind m k s = finish (and_then a b) s.
Proof.
  intros Hm Hk. unfold bind. rewrite Hm. unfold finish, and_then.
  destruct a as [u [e|]]; cbn [fst snd]; [reflexivity|].
  rewrite Hk by reflexivity. unfold finish. destruct b as [v [e|]]; cbn [fst snd];
    now rewrite printed_printed.
Qed.

Lemma bind_lookup {B} key l (k : list string -> M (St W) B) s :
  locals s !! key = Some l -> bind (lookup W key) k s = k l s.
Proof. intros Hl. unfold bind. now rewrite lookup_eq, Hl. Qed.

Lemma cells_loop (body : Z -> M (St W) unit) (get : Z -> exn + string) idx s :
  (forall i s', locals s' = locals s ->
     body i s' = match get i with
                 | inr t => Ok tt (printed (t ++ " ") s')
                 | inl e => Raised e s'
                 end) ->
  for_each idx body s = finish (cells get idx) s.
Proof.
  intros Hbody. revert s Hbody. induction idx as [|i rest IH]; intros s Hbody.
  - unfold finish. cbn [for_each cells fst snd]. now rewrite printed_nil.
  - cbn [for_each cells]. destruct (get i) as [e|t] eqn:Hi.
    + unfold bind. rewrite Hbody, Hi by reflexivity.
      unfold finish. cbn [fst snd]. now rewrite printed_nil.
    + apply bind_finish.
      * now rewrite Hbody, Hi.
      * intros s' Hs'. apply IH. intros j s'' Hs''. apply Hbody. congruence.
Qed.

(** Lines 397-401. *)
Definition header_out (n : Z) : output :=
  and_then ((("t " ++ " & ") ++ " ")%string, None)
    (and_then (cells (fun i => inr (str_int (i + 1) ++ " & ")%string) (range0 (n - 1)))
       (((str_int n ++ " \\") ++ nl)%string, None)).

(** Lines 404-409, for one series. *)
Definition series_out (name : string) (current_list : list string) : output :=
  let n := Z.of_nat (List.length current_list) in
  and_then (((name ++ " & ") ++ " ")%string, None)
    (and_then
       (cells (fun i => match nth_z current_list i with
                        | Some c => inr (strip c ++ " & ")%string
                        | None => inl IndexError
                        end) (range0 (n - 1)))
       match nth_z current_list (n - 1) with
       | Some c => (((strip c ++ " \\") ++ nl)%string, None)
       | None => (EmptyString, Some IndexError)
       end).

(** The ratio of column [i], formatted. *)
Definition ratio (losing realizable : list string) (i : Z) : exn + string :=
  match nth_z losing i with
  | None => inl IndexError
  | Some a =>
      match float_of_str a with
      | None => inl ValueError
      | Some fa =>
          match nth_z realizable i with
          | None => inl IndexError
          | Some b =>
              match float_of_str b with
              | None => inl ValueError
              | Some fb =>
                  if (d_mag fb =? 0)%N then inl ZeroDivisionError
                  else inr (fmt3 tie_up (Q_of_dec3 fa / Q_of_dec3 fb))
              end
          end
      end
  end.

(** Lines 411-417. *)
Definition ratios_out (losing realizable : list string) : output :=
  let n := Z.of_nat (List.length realizable) in
  and_then ((("Ratio of lost payoffs" ++ " & ") ++ " ")%string, None)
    (and_then
       (cells (fun i => match ratio losing realizable i with
                        | inr r => inr (r ++ " & ")%string
                        | inl e => inl e
                        end) (range0 (n - 1)))
       match ratio losing realizable (n - 1) with
       | inr r => (((r ++ " \\") ++ nl)%string, None)
       | inl e => (EmptyString, Some e)
       end).

Lemma print_header_eq l s :
  locals s !! "Mean number realizable payoffs" = Some l ->
  print_header W s = finish (header_out (Z.of_nat (List.length l))) s.
Proof.
  intros Hl. unfold print_header, header_out. rewrite (bind_lookup _ _ _ _ Hl).
  apply bind_finish; [reflexivity|]. intros s1 Hs1.
  apply bind_finish; [|reflexivity].
  now apply cells_loop.
Qed.

Lemma print_series_eq entry l s :
  locals s !! fst entry = Some l ->
  print_series W entry s = finish (series_out (snd entry) l) s.
Proof.
  intros Hl. unfold print_series, series_out.
  apply bind_finish; [reflexivity|]. intros s1 Hs1.
  rewrite (bind_lookup _ l) by congruence.
  apply bind_finish.
  - apply cells_loop. intros i s2 Hs2. unfold bind. rewrite index_eq.
    now destruct (nth_z l i).
  - intros s2 Hs2. unfold bind. rewrite index_eq.
    destruct (nth_z l (Z.of_nat (List.length l) - 1)) as [c|]; [reflexivity|].
    unfold finish. cbn [fst snd]. now rewrite printed_nil.
Qed.

Lemma ratio_at_eq losing realizable i s :
  locals s !! "Mean number losing payoffs" = Some losing ->
  locals s !! "Mean number realizable payoffs" = Some realizable ->
  ratio_at W tie_up i s
  = match ratio losing realizable i with inr r => Ok r s | inl e => Raised e s end.
Proof.
  intros Hlo Hre. unfold ratio_at, ratio, bind, to_float.
  rewrite lookup_eq, Hlo, index_eq. destruct (nth_z losing i) as [a|]; [|reflexivity].
  destruct (float_of_str a) as [fa|]; [|reflexivity]. cbn [must ret raise].
  rewrite lookup_eq, Hre, index_eq. destruct (nth_z realizable i) as [b|]; [|reflexivity].
  destruct (float_of_str b) as [fb|]; [|reflexivity]. cbn [must ret raise].
  now destruct (d_mag fb =? 0)%N.
Qed.

Lemma print_ratios_eq losing realizable s :
  locals s !! "Mean number losing payoffs" = Some losing ->
  locals s !! "Mean number realizable payoffs" = Some realizable ->
  print_ratios W tie_up s = finish (ratios_out losing realizable) s.
Proof.
  intros Hlo Hre. unfold print_ratios, ratios_out.
  apply bind_finish; [reflexivity|]. intros s1 Hs1.
  rewrite (bind_lookup _ realizable) by congruence.
  apply bind_finish.
  - apply cells_loop. intros i s2 Hs2. unfold bind.
    rewrite (ratio_at_eq losing realizable) by congruence.
    now destruct (ratio losing realizable i).
  - intros s2 Hs2. unfold bind.
    rewrite (ratio_at_eq losing realizable) by congruence.
    destruct (ratio losing realizable (Z.of_nat (List.length realizable) - 1)) as [e|r];
      [|reflexivity].
    unfold finish. cbn [fst snd]. now rewrite printed_nil.
Qed.

(** The rows of the three series, then the whole table. *)
Definition rows_out (report_lines : list string) : output :=
  fold_right (fun e acc => and_then (series_out (snd e) (series (fst e) report_lines)) acc)
    (EmptyString, None) dict_pattern_names.

Definition table (report_lines : list string) : output :=
  and_then
    (header_out
       (Z.of_nat (List.length (series "Mean number realizable payoffs" report_lines))))
    (and_then (rows_out report_lines)
       (ratios_out (series "Mean number losing payoffs" report_lines)
          (series "Mean number realizable payoffs" report_lines))).

Lemma print_rows_eq report_lines s :
  locals s = extracted report_lines ->
  for_each dict_pattern_names (print_series W) s = finish (rows_out report_lines) s.
Proof.
  intros Hs. unfold rows_out.
  assert (Hin : forall e, In e dict_pattern_names -> In (fst e) patterns).
  { unfold dict_pattern_names, patterns. cbn [In fst].
    intros e [<- | [<- | [<- | []]]]; cbn [fst]; tauto. }
  revert s Hs. induction dict_pattern_names as [|e names IH]; intros s Hs.
  - unfold finish. cbn [for_each fold_right fst snd]. now rewrite printed_nil.
  - cbn [for_each fold_right]. apply bind_finish.
    + apply print_series_eq. rewrite Hs. apply extracted_lookup, Hin. now left.
    + intros s1 Hs1. apply IH; [|congruence]. intros e' He'. apply Hin. now right.
Qed.

(** [generate_tables] prints what [table] says, and raises what it
    says. *)
Lemma generate_tables_eq file_name content s :
  files s !! file_name = Some content ->
  generate_tables W tie_up file_name s
  = finish (table (readlines content)) (with_locals (extracted (readlines content)) s).
Proof.
  intros Hf. unfold generate_tables, table. unfold bind at 1. unfold set_locals at 1.
  change (Machine (world s) (files s) (stdout s) (trace s) initial_frame)
    with (with_locals initial_frame s).
  unfold bind at 1. rewrite (extract_all _ _ _ Hf).
  set (s1 := with_locals (extracted (readlines content)) s).
  assert (Hs1 : locals s1 = extracted (readlines content)) by reflexivity.
  apply bind_finish.
  - apply print_header_eq. rewrite Hs1. apply extracted_lookup. unfold patterns. cbn [In]. tauto.
  - intros s2 Hs2. apply bind_finish.
    + apply print_rows_eq. congruence.
    + intros s3 Hs3. apply print_ratios_eq; rewrite Hs3, Hs2, Hs1;
        apply extracted_lookup; unfold patterns; cbn [In]; tauto.
Qed.

Lemma generate_tables_no_file file_name s :
  files s !! file_name = None ->
  generate_tables W tie_up file_name s
  = Raised FileNotFoundError (with_locals initial_frame s).
Proof.
  intros Hf. unfold generate_tables. unfold bind at 1. unfold set_locals at 1.
  unfold bind at 1. unfold patterns. cbn [for_each]. unfold bind at 1.
  unfold extract at 1. unfold bind at 1. unfold open_read at 1.
  cbn [files]. rewrite Hf. reflexivity.
Qed.

(** *** When the table is cut short *)

Lemma snd_and_then a b :
  snd (and_then a b) = match snd a with Some e => Some e | None => snd b end.
Proof. unfold and_then. now destruct a as [u [e|]]. Qed.

Lemma fst_and_then a b : snd a = None -> fst (and_then a b) = (fst a ++ fst b)%string.
Proof. unfold and_then. now intros ->. Qed.

Lemma cells_all get idx :
  (forall j, In j idx -> exists t, get j = inr t) -> snd (cells get idx) = None.
Proof.
  induction idx as [|i rest IH]; intros H; [reflexivity|]. cbn [cells].
  destruct (H i (or_introl eq_refl)) as [t ->]. rewrite snd_and_then. cbn [snd].
  apply IH. intros j Hj. apply H. now right.
Qed.

Lemma cells_stop get idx i rest e :
  (forall j, In j idx -> exists t, get j = inr t) -> get i = inl e ->
  snd (cells get (idx ++ i :: rest)) = Some e.
Proof.
  induction idx as [|j idx IH]; intros H Hi; cbn [app cells].
  - now rewrite Hi.
  - destruct (H j (or_introl eq_refl)) as [t ->]. rewrite snd_and_then. cbn [snd].
    apply IH; [|exact Hi]. intros j' Hj'. apply H. now right.
Qed.

Lemma nth_z_nat {A} (l : list A) i :
  (i < List.length l)%nat -> nth_z l (Z.of_nat i) = nth_error l i.
Proof.
  intros Hi. unfold nth_z.
  replace ((0 <=? Z.of_nat i) && (Z.of_nat i <? Z.of_nat (List.length l)))%Z with true
    by (symmetry; apply andb_true_iff; split; [apply Z.leb_le | apply Z.ltb_lt]; lia).
  now rewrite Nat2Z.id.
Qed.

Lemma in_range0 j m : In j (range0 m) <-> (0 <= j < m)%Z.
Proof.
  unfold range0. rewrite in_map_iff. split.
  - intros (i & <- & Hi). apply in_seq in Hi. lia.
  - intros Hj. exists (Z.to_nat j). split; [lia|]. apply in_seq. lia.
Qed.

Lemma range0_split m k :
  (0 <= k < m)%Z -> exists rest, range0 m = range0 k ++ k :: rest.
Proof.
  intros Hk. unfold range0.
  replace (Z.to_nat m) with (Z.to_nat k + S (Z.to_nat m - S (Z.to_nat k)))%nat by lia.
  rewrite seq_app, map_app. cbn [seq map Nat.add]. rewrite Z2Nat.id by lia. eauto.
Qed.

Lemma header_ok n : snd (header_out n) = None.
Proof.
  unfold header_out. rewrite !snd_and_then. cbn [snd].
  rewrite cells_all; [reflexivity|]. intros j _. eauto.
Qed.

Lemma series_ok name l : l <> [] -> snd (series_out name l) = None.
Proof.
  intros Hl. assert (0 < List.length l)%nat by (destruct l; [congruence | cbn; lia]).
  unfold series_out. rewrite !snd_and_then. cbn [snd]. rewrite cells_all.
  - replace (Z.of_nat (List.length l) - 1)%Z with (Z.of_nat (List.length l - 1)) by lia.
    rewrite nth_z_nat by lia.
    destruct (nth_error l (List.length l - 1)) eqn:E; [reflexivity|].
    apply nth_error_None in E. lia.
  - intros j Hj. apply in_range0 in Hj.
    replace j with (Z.of_nat (Z.to_nat j)) by lia. rewrite nth_z_nat by lia.
    destruct (nth_error l (Z.to_nat j)) eqn:E; [eauto|].
    apply nth_error_None in E. lia.
Qed.

Lemma series_empty name :
  series_out name [] = (((name ++ " & ") ++ " ")%string ++ "", Some IndexError)%string.
Proof. reflexivity. Qed.

(** Column [k] is the first one whose realizable value is zero: the
    columns before it have a ratio, and at [k] both texts are numbers,
    the second one zero. *)
Definition first_zero (losing realizable : list string) (k : nat) : Prop :=
  (k < List.length realizable)%nat
  /\ (forall i, (i < k)%nat -> exists a b fa fb,
        nth_error losing i = Some a /\ nth_error realizable i = Some b
        /\ float_of_str a = Some fa /\ float_of_str b = Some fb /\ d_mag fb <> 0%N)
  /\ exists a b fa fb,
       nth_error losing k = Some a /\ nth_error realizable k = Some b
       /\ float_of_str a = Some fa /\ float_of_str b = Some fb /\ d_mag fb = 0%N.

Lemma ratio_before losing realizable k i :
  first_zero losing realizable k -> (i < k)%nat ->
  exists r, ratio losing realizable (Z.of_nat i) = inr r.
Proof.
  intros (Hk & Hbefore & _) Hi.
  destruct (Hbefore i Hi) as (a & b & fa & fb & Ha & Hb & Hfa & Hfb & Hnz).
  unfold ratio.
  rewrite nth_z_nat by (apply nth_error_Some; congruence). rewrite Ha, Hfa.
  rewrite nth_z_nat by lia. rewrite Hb, Hfb.
  apply N.eqb_neq in Hnz. rewrite Hnz. eauto.
Qed.

Lemma ratio_at_zero losing realizable k :
  first_zero losing realizable k ->
  ratio losing realizable (Z.of_nat k) = inl ZeroDivisionError.
Proof.
  intros (Hk & _ & a & b & fa & fb & Ha & Hb & Hfa & Hfb & Hz).
  unfold ratio.
  rewrite nth_z_nat by (apply nth_error_Some; congruence). rewrite Ha, Hfa.
  rewrite nth_z_nat by lia. rewrite Hb, Hfb.
  apply N.eqb_eq in Hz. now rewrite Hz.
Qed.

Lemma ratios_zero losing realizable k :
  first_zero losing realizable k ->
  snd (ratios_out losing realizable) = Some ZeroDivisionError.
Proof.
  intros Hz. pose proof Hz as (Hk & _).
  unfold ratios_out. rewrite !snd_and_then. cbn [snd].
  set (get := fun i => match ratio losing realizable i with
                       | inl e => inl e
                       | inr r => inr (r ++ " & ")%string
                       end).
  assert (Hget : forall j, In j (range0 (Z.of_nat k)) -> exists t, get j = inr t).
  { intros j Hj. apply in_range0 in Hj. unfold get.
    destruct (ratio_before _ _ _ (Z.to_nat j) Hz ltac:(lia)) as [r Hr].
    rewrite Z2Nat.id in Hr by lia. rewrite Hr. eauto. }
  destruct (Z.eq_dec (Z.of_nat k) (Z.of_nat (List.length realizable) - 1)%Z) as [E|E].
  - rewrite <- E, (cells_all get _ Hget). now rewrite (ratio_at_zero _ _ _ Hz).
  - destruct (range0_split (Z.of_nat (List.length realizable) - 1)%Z (Z.of_nat k)
                ltac:(lia)) as [rest ->].
    rewrite (cells_stop get _ _ _ ZeroDivisionError Hget); [reflexivity|].
    unfold get. now rewrite (ratio_at_zero _ _ _ Hz).
Qed.

End Extract.
End TablesFacts.

Module ClaimsTables.
Import Py PyFacts Tables TablesFacts.

(** A machine whose only file is the report. *)
Definition reading (report : string) : St unit :=
  Machine tt {["report.txt" := report]} EmptyString [] initial_frame.

(** The five mean lines of a block whose realizable mean is zero. *)
Definition zero_report : string :=
  ("Mean antichain size 1.000" ++ nl ++ "Mean number losing payoffs 2.000" ++ nl
   ++ "Mean number realizable payoffs 0.000" ++ nl ++ "CE mean antichain size 1.000" ++ nl
   ++ "AO mean antichain size 1.000" ++ nl)%string.

(** C10, as the code has it.  The ratio row divides without a guard:
    when the three printed series are not empty and column [k] is the
    first one whose realizable value is zero, [generate_tables] raises
    [ZeroDivisionError] at that column.  The table is cut short there,
    not left unprinted: the header, the three series rows and the start
    of the ratio row are on the standard output by then. *)
Theorem zero_realizable_value_raises
    (W : Type) (tie_up : Q -> bool) (file_name content : string) (k : nat) (s : St W) :
  files s !! file_name = Some content ->
  let antichain := series "Mean antichain size" (readlines content) in
  let ce_antichain := series "CE mean antichain size" (readlines content) in
  let ao_antichain := series "AO mean antichain size" (readlines content) in
  let losing := series "Mean number losing payoffs" (readlines content) in
  let realizable := series "Mean number realizable payoffs" (readlines content) in
  antichain <> [] -> ce_antichain <> [] -> ao_antichain <> [] ->
  first_zero losing realizable k ->
  exists s' rest,
    generate_tables W tie_up file_name s = Raised ZeroDivisionError s'
    /\ files s' = files s
    /\ stdout s'
       = (stdout s
          ++ fst (header_out (Z.of_nat (List.length realizable)))
          ++ fst (series_out "$|\paretoSet{G}|$" antichain)
          ++ fst (series_out "$|A|$ in Algorithm \ref{algo:fpt}" ce_antichain)
          ++ fst (series_out "$|A|$ in Algorithm \ref{algo:fpt-CE}" ao_antichain)
          ++ (("Ratio of lost payoffs" ++ " & ") ++ " ") ++ rest)%string.
Proof.
  intros Hf antichain ce_antichain ao_antichain losing realizable Ha Hce Hao Hz.
  pose proof (generate_tables_eq W tie_up _ _ _ Hf) as Hrun.
  pose proof (header_ok (Z.of_nat (List.length realizable))) as Hh.
  pose proof (series_ok "$|\paretoSet{G}|$" _ Ha) as H1.
  pose proof (series_ok "$|A|$ in Algorithm \ref{algo:fpt}" _ Hce) as H2.
  pose proof (series_ok "$|A|$ in Algorithm \ref{algo:fpt-CE}" _ Hao) as H3.
  pose proof (ratios_zero tie_up _ _ _ Hz) as Hr.
  assert (Hrows : snd (rows_out (readlines content)) = None
                  /\ fst (rows_out (readlines content))
                     = (fst (series_out "$|\paretoSet{G}|$" antichain)
                        ++ fst (series_out "$|A|$ in Algorithm \ref{algo:fpt}" ce_antichain)
                        ++ fst (series_out "$|A|$ in Algorithm \ref{algo:fpt-CE}"
                                  ao_antichain))%string).
  { unfold rows_out, dict_pattern_names. cbn [fold_right fst snd].
    fold antichain ce_antichain ao_antichain. split.
    - rewrite !snd_and_then, H1, H2, H3. reflexivity.
    - rewrite fst_and_then by exact H1. rewrite fst_and_then by exact H2.
      rewrite fst_and_then by exact H3. cbn [fst]. now rewrite append_nil_r. }
  destruct Hrows as [Hrs Hrf].
  assert (Hsnd : snd (table tie_up (readlines content)) = Some ZeroDivisionError).
  { unfold table. fold losing realizable. now rewrite !snd_and_then, Hh, Hrs, Hr. }
  assert (Hfst : exists rest,
             fst (table tie_up (readlines content))
             = (fst (header_out (Z.of_nat (List.length realizable)))
                ++ fst (rows_out (readlines content))
                ++ (("Ratio of lost payoffs" ++ " & ") ++ " ") ++ rest)%string).
  { unfold table. fold losing realizable. rewrite fst_and_then by exact Hh.
    rewrite fst_and_then by exact Hrs. unfold ratios_out at 1.
    rewrite fst_and_then by reflexivity. cbn [fst]. eauto. }
  destruct Hfst as [rest Hfst].
  unfold finish in Hrun. rewrite Hsnd in Hrun. eexists _, rest. split; [exact Hrun|].
  split; [reflexivity|].
  cbn [stdout printed with_locals]. rewrite Hfst, Hrf, !append_assoc. reflexivity.
Qed.

Lemma zero_realizable_value_raises_witness :
  exists s' rest,
    generate_tables unit (fun _ => true) "report.txt" (reading zero_report)
    = Raised ZeroDivisionError s'
    /\ stdout s'
       = ("t  &  1 \\" ++ nl ++ "$|\paretoSet{G}|$ &  1.000 \\" ++ nl
          ++ "$|A|$ in Algorithm \ref{algo:fpt} &  1.000 \\" ++ nl
          ++ "$|A|$ in Algorithm \ref{algo:fpt-CE} &  1.000 \\" ++ nl
          ++ "Ratio of lost payoffs &  " ++ rest)%string.
Proof.
  destruct (zero_realizable_value_raises unit (fun _ => true) "report.txt" zero_report 0
              (reading zero_report) eq_refl
              ltac:(discriminate) ltac:(discriminate) ltac:(discriminate))
    as (s' & rest & Hrun & _ & Hout).
  - split; [vm_compute; lia|]. split; [intros i Hi; lia|].
    exists " 2.000", " 0.000", (Dec3 false 2000), (Dec3 false 0).
    repeat split; reflexivity.
  - exists s', rest. split; [exact Hrun|]. rewrite Hout. reflexivity.
Defined.

(** C10 as stated does not hold for every report with a zero value: on
    the report made of the line of the claim alone, the first series
    row is what fails, with an [IndexError], before any ratio is
    computed. *)
Lemma zero_line_alone_raises_index_error :
  exists s',
    generate_tables unit (fun _ => true) "report.txt"
      (reading ("Mean number realizable payoffs 0.000" ++ nl))
    = Raised IndexError s'
    /\ stdout s' = ("t  &  1 \\" ++ nl ++ "$|\paretoSet{G}|$ &  ")%string.
Proof. eexists. split; vm_compute; reflexivity. Qed.

End ClaimsTables.

(** ** Sample machines *)

Module Samples.

(** No file, nothing printed, nothing read yet. *)
Definition nothing_read : Parser.St unit := Machine tt ∅ EmptyString [] Parser.empty_frame.

(** The machine whose only file is [path], holding [text]. *)
Definition holding {L} (path text : string) (l : L) : machine unit L :=
  Machine tt {[path := text]} EmptyString [] l.

End Samples.

(** ** More on the sweep driver *)

Module SweepEdges.
Import Driver DriverFacts TrialFacts SweepFacts.

Definition fresh : frame := Frame empty_lists None.

(** X1.  A zero step is the [ValueError] of [range]: [run_benchmark]
    raises it before any list is created for a value, with the files,
    the standard output and the collaborators untouched. *)
Theorem zero_step_is_a_value_error (C : Collaborators)
    (benchmark_type save_file : string) (parameters : list Py.pyval)
    (nbr_points range_start range_end : Z) (s : St C) :
  run_benchmark C benchmark_type save_file parameters nbr_points range_start range_end 0 s
  = Raised ValueError (with_locals fresh s).
Proof. reflexivity. Qed.

Lemma empty_range_returns (C : Collaborators) benchmark_type save_file parameters
    nbr_points range_start range_end range_step (s : St C) :
  Py.range range_start range_end range_step = Some [] ->
  run_benchmark C benchmark_type save_file parameters nbr_points
    range_start range_end range_step s
  = Ok tt (with_locals fresh s).
Proof. intros H. unfold run_benchmark, bind, set_locals. rewrite H. reflexivity. Qed.

(** X2.  When the range is empty, [run_benchmark] returns at once,
    whatever the kind, the parameters and the number of trials: no file
    is opened, nothing is printed and no collaborator is called. *)
Theorem empty_range_does_nothing (C : Collaborators)
    (benchmark_type save_file : string) (parameters : list Py.pyval)
    (nbr_points range_start range_end range_step : Z) (s : St C) :
  Py.range range_start range_end range_step = Some [] ->
  run_benchmark C benchmark_type save_file parameters nbr_points
    range_start range_end range_step s
  = Ok tt (with_locals fresh s).
Proof. exact (empty_range_returns C _ _ _ _ _ _ _ s). Qed.

Lemma empty_range_does_nothing_witness :
  run_benchmark (Example.toy true true) "random" "report.txt" [] 5 3 7 (-1)
    (Example.start Example.fresh_frame)
  = Ok tt (Example.start fresh).
Proof.
  exact (empty_range_does_nothing (Example.toy true true) "random" "report.txt" [] 5 3 7 (-1)
           (Example.start Example.fresh_frame) eq_refl).
Defined.

Lemma no_trials N : (N <= 0)%Z -> Py.range 1 (N + 1) 1 = Some [].
Proof.
  intros HN. unfold Py.range. cbn [Z.eqb Z.ltb Z.compare].
  replace ((N + 1 - 1 + 1 - 1) / 1)%Z with N by (rewrite Z.div_1_r; lia).
  now replace (Z.to_nat N) with 0%nat by lia.
Qed.

(** X3.  With no trial to run ([nbr_points <= 0]) and a value to sweep,
    the writer is reached with [nbr] never bound: [run_benchmark] raises
    [UnboundLocalError] at line 200, for any kind, once the first two
    lines of the first value are in the report.  No collaborator has
    been called. *)
Theorem no_trial_is_an_unbound_local (C : Collaborators)
    (benchmark_type save_file : string) (parameters : list Py.pyval)
    (nbr_points range_start range_end range_step i : Z) (rest : list Z) (s : St C) :
  (nbr_points <= 0)%Z ->
  Py.range range_start range_end range_step = Some (i :: rest) ->
  run_benchmark C benchmark_type save_file parameters nbr_points
    range_start range_end range_step s
  = Raised UnboundLocalError
      (appended save_file
         (("Variable value used " ++ Py.str_int i ++ Py.nl)
          ++ "Parameters " ++ Py.str_list Py.repr_val parameters ++ Py.nl)
         (with_locals fresh s)).
Proof.
  intros HN Hr. unfold run_benchmark. unfold bind at 1. unfold set_locals at 1.
  rewrite Hr. unfold bind at 1. cbn [must ret for_each]. unfold bind at 1.
  unfold sweep_value. unfold bind at 1. unfold run_trials. unfold bind at 1.
  unfold set_locals at 1. rewrite (no_trials _ HN). unfold bind at 1.
  cbn [must ret for_each locals nbr]. unfold write_block.
  unfold bind at 1. rewrite ParserFacts.open_append_eq.
  unfold bind at 1. unfold write at 1. unfold bind at 1. unfold write at 1.
  unfold bind at 1. unfold get_locals at 1. cbn [locals nbr appended with_locals].
  unfold bind at 1. cbn [must raise].
  f_equal. unfold appended, with_locals, fresh.
  cbn [world files stdout trace locals nbr lists].
  f_equal. rewrite !(lookup_insert_eq (M := gmap string)), !(insert_insert_eq (M := gmap string)).
  cbn [from_option id]. now rewrite PyFacts.append_nil_r, !PyFacts.append_assoc.
Qed.

Lemma no_trial_is_an_unbound_local_witness :
  exists s',
    run_benchmark (Example.toy true true) "intersection_vertices" "report.txt"
      [Py.PBool true] 0 3 1 (-1) (Example.start Example.fresh_frame)
    = Raised UnboundLocalError s'
    /\ files s' !! "report.txt"
       = Some ("Variable value used 3" ++ Py.nl ++ "Parameters [True]" ++ Py.nl)%string
    /\ trace s' = [].
Proof.
  eexists. split; [|split].
  - exact (no_trial_is_an_unbound_local (Example.toy true true) "intersection_vertices"
             "report.txt" [Py.PBool true] 0 3 1 (-1) 3 [2%Z]
             (Example.start Example.fresh_frame) ltac:(lia) eq_refl).
  - reflexivity.
  - reflexivity.
Defined.

Lemma post_raised {S A} (m : M S A) s (E : exn -> S -> Prop) :
  post m s (fun _ _ => False) E -> exists e s', m s = Raised e s' /\ E e s'.
Proof. unfold post. destruct (m s) as [a s'|e s']; [contradiction | eauto]. Qed.

(** X4.  A generator that reports no call of the first kind makes the
    trial fail in [statistics.mean], at line 124: [StatisticsError] is
    raised once the instance has been requested and before either
    algorithm is called; [nbr] is bound by then and no file has been
    touched. *)
Theorem no_call_times_is_a_statistics_error (C : Collaborators)
    (p0 : Py.pyval) (ps : list Py.pyval) (i j : Z) (s : St C)
    (st : stats) (aut : Automaton C) (n : Z) (colors : Colors C) (w : World C) :
  intersection_example C i (negb (Py.truthy p0)) (world s) = ((st, aut, n, colors), w) ->
  call_times (stats_4 st) = [] ->
  exists s',
    trial C "intersection_vertices" (p0 :: ps) i j s = Raised StatisticsError s'
    /\ trace s' = trace s ++ [InstanceRequested "intersection_vertices" i j]
    /\ files s' = files s
    /\ nbr (locals s') = Some n
    /\ lists (locals s') temp_counterexample_mean_time_calls_exists
       = lists (locals s) temp_counterexample_mean_time_calls_exists.
Proof.
  intros Hgen Hempty.
  assert (H : post (trial C "intersection_vertices" (p0 :: ps) i j) s (fun _ _ => False)
                (fun e s' => e = StatisticsError
                   /\ trace s' = trace s ++ [InstanceRequested "intersection_vertices" i j]
                   /\ files s' = files s /\ nbr (locals s') = Some n
                   /\ lists (locals s') temp_counterexample_mean_time_calls_exists
                      = lists (locals s) temp_counterexample_mean_time_calls_exists)).
  { destruct s as [w0 fs out tr [L n0]]. cbn [world] in Hgen.
    unfold trial, prepare, generate, record_stats, mean_time.
    cbn [String.eqb Ascii.eqb Bool.eqb].
    do 4 tstep. cbn [nth_error]. do 3 tstep.
    match goal with H : intersection_example _ _ _ _ = (_, _) |- _ =>
      cbn [world] in H; rewrite Hgen in H; injection H as <- <- <- <- <- end.
    repeat (tstep;
            try match goal with
                | H : Py.mean (call_times (stats_4 _)) = Some _ |- _ =>
                    rewrite Hempty in H; discriminate H
                end).
    repeat split. cbn [lists append_to].
    repeat match goal with
           | |- context [var_eq_dec ?a ?b] =>
               let r := eval vm_compute in (var_eq_dec a b) in
               change (var_eq_dec a b) with r; cbv iota
           end.
    now rewrite !app_nil_r. }
  destruct (post_raised _ _ _ H) as (e & s' & Hrun & -> & Hrest). eauto.
Qed.

Lemma no_call_times_is_a_statistics_error_witness :
  let silent := Stats 4 0 2 3 (CallStats 0 []) (CallStats 1 [1 # 10]%Q) 2
                  (CallStats 2 [1 # 3]%Q) (CallStats 3 [2 # 3]%Q) in
  let C := {|
    World := Z; Automaton := unit; Colors := unit;
    random_automaton := fun _ _ i _ _ _ _ w => ((silent, tt, i, tt), w);
    intersection_example := fun _ _ w => ((silent, tt, 1%Z, tt), w);
    intersection_example_objective_increase := fun i _ w => ((silent, tt, i, tt), w);
    counterexample_based_algorithm := fun _ _ _ w => (true, w);
    antichain_optimization_algorithm := fun _ _ _ w => (true, w);
    process_time := fun w => ((w # 1000)%Q, w);
    perf_counter := fun w => ((w # 1000)%Q, w);
    time_time := fun w => ((w # 1000)%Q, w);
    tie_up := fun _ => true |} in
  exists s',
    trial C "intersection_vertices" [Py.PBool true] 3 1 (Example.start Example.fresh_frame)
    = Raised StatisticsError s'
    /\ trace s' = [InstanceRequested "intersection_vertices" 3 1].
Proof.
  intros silent C.
  destruct (no_call_times_is_a_statistics_error C (Py.PBool true) [] 3 1
              (Example.start Example.fresh_frame) silent tt 1 tt 0%Z eq_refl eq_refl)
    as (s' & Hrun & Htr & _).
  exists s'. split; [exact Hrun | exact Htr].
Defined.


(** What a trial asks of the collaborators, in order. *)
Definition trial_calls (benchmark_type : string) (i j : Z) : list event :=
  [InstanceRequested benchmark_type i j; CounterexampleCalled; AntichainOptimizationCalled].

Lemma trial_effects (C : Collaborators) benchmark_type parameters i j (s : St C) :
  post (trial C benchmark_type parameters i j) s
    (fun _ s' => files s' = files s
                 /\ trace s' = trace s ++ trial_calls benchmark_type i j)
    (fun _ s' => files s' = files s
                 /\ exists k, trace s' = trace s ++ firstn k (trial_calls benchmark_type i j)).
Proof.
  destruct s as [w fs out tr [L n0]].
  unfold trial, prepare, generate, record_stats, timed_run, measure, print_progress.
  repeat tstep.
  all: cbn [files trace]; rewrite ?app_nil_r, <- ?app_assoc; cbn [app];
    (split; [reflexivity|]).
  all: first [ reflexivity
             | exists 0%nat; cbn [firstn]; now rewrite app_nil_r
             | exists 1%nat; reflexivity
             | exists 2%nat; reflexivity
             | exists 3%nat; reflexivity ].
Qed.

(** X5.  A trial that returns has asked for one instance, of the kind,
    the value and the trial number it was given, and has then called the
    counterexample-based algorithm and the antichain optimization
    algorithm once each, in that order; it has touched no file. *)
Theorem returning_trial_calls_each_algorithm_once (C : Collaborators)
    (benchmark_type : string) (parameters : list Py.pyval) (i j : Z) (s s' : St C) :
  trial C benchmark_type parameters i j s = Ok tt s' ->
  trace s' = trace s ++ [InstanceRequested benchmark_type i j; CounterexampleCalled;
                         AntichainOptimizationCalled]
  /\ files s' = files s.
Proof.
  intros H.
  destruct (post_Ok _ _ _ _ _ _ H (trial_effects C benchmark_type parameters i j s))
    as [Hf Ht].
  split; [exact Ht | exact Hf].
Qed.

Lemma returning_trial_calls_each_algorithm_once_witness :
  let s := Example.start Example.fresh_frame in
  let s' := final (trial (Example.toy true true) "intersection_objectives" [Py.PBool true]
                     4 2 s) in
  trace s' = [InstanceRequested "intersection_objectives" 4 2; CounterexampleCalled;
              AntichainOptimizationCalled]
  /\ files s' = ∅.
Proof.
  intros s s'.
  assert (H : trial (Example.toy true true) "intersection_objectives" [Py.PBool true] 4 2 s
              = Ok tt s') by (vm_compute; reflexivity).
  exact (returning_trial_calls_each_algorithm_once (Example.toy true true)
           "intersection_objectives" [Py.PBool true] 4 2 s s' H).
Defined.

Lemma run_trials_files (C : Collaborators) benchmark_type parameters N i (s : St C) :
  post (run_trials C benchmark_type parameters N i) s
    (fun _ s' => files s' = files s) (fun _ s' => files s' = files s).
Proof.
  unfold run_trials. apply post_bind, post_set_locals, post_bind.
  destruct (range_trials N) as (js & -> & _). apply post_must.
  apply (post_for_each (fun _ s' => files s' = files s)); [reflexivity|].
  intros j rest s1 Hs1.
  apply (post_weaken _ _ _ _ _ _ (trial_effects C benchmark_type parameters i j s1)).
  - intros _ s2 [Hf _]. congruence.
  - intros _ s2 [Hf _]. congruence.
Qed.

(** X6.  The block of a value is written only once its trials have all
    returned: when the trials raise, whatever the exception, the sweep of
    that value raises it in the same state and the files are as they
    were before the value was started. *)
Theorem failed_trials_write_nothing (C : Collaborators)
    (benchmark_type save_file : string) (parameters : list Py.pyval) (N i : Z)
    (s s' : St C) (e : exn) :
  run_trials C benchmark_type parameters N i s = Raised e s' ->
  sweep_value C benchmark_type save_file parameters N i s = Raised e s'
  /\ files s' = files s.
Proof.
  intros H. split.
  - unfold sweep_value, bind. now rewrite H.
  - exact (post_Raised _ _ _ _ _ _ H (run_trials_files C benchmark_type parameters N i s)).
Qed.

Lemma failed_trials_write_nothing_witness :
  let s := Example.start Example.fresh_frame in
  let s' := final (run_trials (Example.toy true false) "intersection_vertices"
                     [Py.PBool true] 2 3 s) in
  sweep_value (Example.toy true false) "intersection_vertices" "report.txt"
    [Py.PBool true] 2 3 s = Raised AssertionError s'
  /\ files s' = ∅.
Proof.
  intros s s'.
  assert (H : run_trials (Example.toy true false) "intersection_vertices"
                [Py.PBool true] 2 3 s = Raised AssertionError s')
    by (vm_compute; reflexivity).
  exact (failed_trials_write_nothing (Example.toy true false) "intersection_vertices"
           "report.txt" [Py.PBool true] 2 3 s s' AssertionError H).
Defined.

(** X7.  With an intersection generator that reports at least one call of
    each kind and algorithms that both give the expected answer, a sweep
    of at least one trial per value returns, and the report has grown by
    one block for each value of the range, in the order of the range,
    each block with [N] entries in each of its lists; no other file has
    changed. *)
Theorem sweep_writes_one_block_per_value (C : Collaborators) (b : bool)
    (save_file : string) (N range_start range_end range_step : Z) (values : list Z)
    (s : St C) :
  well_behaved C b -> (1 <= N)%Z ->
  Py.range range_start range_end range_step = Some values ->
  exists s' blocks,
    run_benchmark C "intersection_vertices" save_file [Py.PBool b] N
      range_start range_end range_step s = Ok tt s'
    /\ map b_value blocks = values
    /\ Forall (full N) blocks
    /\ default EmptyString (files s' !! save_file)
       = (default EmptyString (files s !! save_file)
          ++ report_text (tie_up C) [Py.PBool b] blocks)%string
    /\ forall p, p <> save_file -> files s' !! p = files s !! p.
Proof.
  intros Hwb HN Hr.
  destruct (post_returns _ _ _
              (run_benchmark_returns C b save_file N range_start range_end range_step
                 values s Hwb HN Hr))
    as ([] & s' & Hrun & bs & Hv & Hfull & [Hother Hgrown] & _).
  exists s', bs. repeat split; assumption.
Qed.

Lemma sweep_writes_one_block_per_value_witness :
  exists s' blocks,
    run_benchmark (Example.toy false false) "intersection_vertices" "report.txt"
      [Py.PBool false] 2 5 11 3 (Example.start Example.fresh_frame) = Ok tt s'
    /\ map b_value blocks = [5; 8]%Z
    /\ Forall (full 2) blocks.
Proof.
  assert (Hwb : well_behaved (Example.toy false false) false).
  { constructor; intros; try reflexivity.
    unfold stats_ok. cbn. repeat split; discriminate. }
  destruct (sweep_writes_one_block_per_value (Example.toy false false) false "report.txt"
              2 5 11 3 [5; 8]%Z (Example.start Example.fresh_frame) Hwb ltac:(lia) eq_refl)
    as (s' & blocks & Hrun & Hv & Hfull & _).
  exists s', blocks. repeat split; assumption.
Defined.

End SweepEdges.

(** ** More on the parser *)

Module ParserEdges.
Import Py PyFacts Parser ParserFacts ScanFacts.

(** X8.  A line whose first token is none of Variable, CE, AO and Mean
    is passed over: the lists, the files and the output are left as they
    are, for every kind and every number of trials. *)
Theorem other_line_is_passed_over
    (W : Type) (benchmark_type raw t : string) (rest : list string) (N : Z) (s : St W) :
  split " " (rstrip raw) = t :: rest ->
  t <> "Variable" -> t <> "CE" -> t <> "AO" -> t <> "Mean" ->
  parse_line W benchmark_type N raw s = Ok tt s.
Proof.
  intros Hline Hx Hce Hao Hm. apply parse_line_unlabelled. rewrite Hline.
  apply String.eqb_neq in Hx, Hce, Hao, Hm.
  unfold unlabelled, P_x, P_ce, P_ao, P_mce, P_mao. cbn [matches].
  rewrite Hx, Hce, Hao, Hm. repeat split.
Qed.

Lemma other_line_is_passed_over_witness :
  parse_line unit "random" 50 ("CE_total time 12" ++ nl) Samples.nothing_read = Ok tt Samples.nothing_read.
Proof.
  apply (other_line_is_passed_over unit "random" ("CE_total time 12" ++ nl) "CE_total"
           ["time"; "12"] 50 Samples.nothing_read eq_refl); discriminate.
Defined.

(** X9.  A line cut short inside a label raises [IndexError] in the test
    of that label (lines 304, 314, 319), the lists untouched: the
    tokens are compared one by one and the missing one is subscripted. *)
Theorem truncated_label_is_an_index_error
    (W : Type) (benchmark_type raw : string) (label : list string) (k : nat) (N : Z)
    (s : St W) :
  In label [P_x; P_ce; P_ao] -> (0 < k < 3)%nat ->
  split " " (rstrip raw) = firstn k label ->
  parse_line W benchmark_type N raw s = Raised IndexError s.
Proof.
  intros Hlabel Hk Hline. unfold parse_line. rewrite Hline.
  assert (k = 1 \/ k = 2)%nat as [-> | ->] by lia;
    cbn [In] in Hlabel; destruct Hlabel as [<- | [<- | [<- | []]]]; reflexivity.
Qed.

Lemma truncated_label_is_an_index_error_witness :
  parse_line unit "intersection_vertices" 1 ("AO times" ++ nl) Samples.nothing_read
  = Raised IndexError Samples.nothing_read.
Proof.
  apply (truncated_label_is_an_index_error unit "intersection_vertices" ("AO times" ++ nl)
           P_ao 2 1 Samples.nothing_read).
  - cbn [In]. tauto.
  - lia.
  - reflexivity.
Defined.

(** X10.  A value line with no value raises [IndexError] at line 305,
    the lists untouched. *)
Theorem value_line_without_value_is_an_index_error
    (W : Type) (benchmark_type raw : string) (N : Z) (s : St W) :
  split " " (rstrip raw) = ["Variable"; "value"; "used"] ->
  parse_line W benchmark_type N raw s = Raised IndexError s.
Proof. intros Hline. unfold parse_line. rewrite Hline. reflexivity. Qed.

Lemma value_line_without_value_is_an_index_error_witness :
  parse_line unit "random" 3 ("Variable value used  " ++ nl) Samples.nothing_read
  = Raised IndexError Samples.nothing_read.
Proof.
  exact (value_line_without_value_is_an_index_error unit "random"
           ("Variable value used  " ++ nl) 3 Samples.nothing_read eq_refl).
Defined.

(** X11.  A line of CE process times whose list has fewer entries than
    there are trials raises [IndexError] at line 317, and not before the
    entries it has were appended to [y_ce]: they stay there. *)
Theorem short_times_list_is_an_index_error
    (W : Type) (benchmark_type raw : string) (rest : list string) (lit : literal)
    (l : list num) (N : Z) (s : St W) :
  split " " (rstrip raw) = "CE" :: "times" :: "process" :: rest ->
  literal_eval (join " " rest) = Some lit ->
  items lit = Some l ->
  (List.length l < Z.to_nat N)%nat ->
  exists s', parse_line W benchmark_type N raw s = Raised IndexError s'
    /\ locals s' y_ce = locals s y_ce ++ l
    /\ (forall v, v <> y_ce -> locals s' v = locals s v)
    /\ files s' = files s.
Proof.
  intros Hline He Hl Hlen.
  assert (Hce : matches (split " " (rstrip raw)) P_ce = Some true)
    by (rewrite Hline; reflexivity).
  destruct (ce_line_only _ Hce) as (Hx & _).
  exists (with_locals (extend y_ce l (locals s)) s). split; [|split; [|split]].
  - unfold parse_line.
    rewrite (bind_tokens_are W _ _ _ _ _ Hx). cbn [when]. unfold bind at 1. cbn [ret].
    rewrite (bind_tokens_are W _ _ _ _ _ Hce). cbn [when]. unfold eval_from.
    rewrite Hline. unfold skipn. rewrite He. cbn [must].
    unfold bind at 1. unfold bind at 1. cbn [ret].
    now rewrite (subscript_loop_short W _ _ _ _ _ Hl Hlen).
  - cbn [locals with_locals]. rewrite extend_at.
    now destruct (var_eq_dec y_ce y_ce).
  - intros v Hv. cbn [locals with_locals]. rewrite extend_at.
    destruct (var_eq_dec y_ce v); [congruence | apply app_nil_r].
  - reflexivity.
Qed.

Lemma short_times_list_is_an_index_error_witness :
  exists s',
    parse_line unit "intersection_vertices" 3 ("CE times process [0.5, 1.25]" ++ nl)
      Samples.nothing_read = Raised IndexError s'
    /\ locals s' y_ce = [NFloat (Dec3 false 500); NFloat (Dec3 false 1250)].
Proof.
  destruct (short_times_list_is_an_index_error unit "intersection_vertices"
              ("CE times process [0.5, 1.25]" ++ nl) ["[0.5,"; "1.25]"]
              (LList [NFloat (Dec3 false 500); NFloat (Dec3 false 1250)])
              [NFloat (Dec3 false 500); NFloat (Dec3 false 1250)] 3 Samples.nothing_read
              eq_refl eq_refl eq_refl ltac:(cbn; lia))
    as (s' & Hrun & Hy & _).
  exists s'. split; [exact Hrun | exact Hy].
Defined.

Lemma missing_report_raises (W : Type) file_name benchmark_type save_file N (s : St W) :
  files s !! file_name = None ->
  parse_results W file_name benchmark_type N save_file s
  = Raised FileNotFoundError (with_locals empty_frame s).
Proof.
  intros Hf. unfold parse_results, scan. unfold bind at 1. unfold set_locals at 1.
  unfold bind at 1. unfold bind at 1. unfold open_read. cbn [files]. now rewrite Hf.
Qed.

(** X12.  When the report does not exist, [parse_results] raises
    [FileNotFoundError] at line 299: the dataset file is opened only
    after the scan, so it is not created. *)
Theorem missing_report_is_not_found
    (W : Type) (file_name benchmark_type save_file : string) (N : Z) (s : St W) :
  files s !! file_name = None ->
  parse_results W file_name benchmark_type N save_file s
  = Raised FileNotFoundError (with_locals empty_frame s).
Proof. exact (missing_report_raises W _ _ _ _ s). Qed.

Lemma missing_report_is_not_found_witness :
  exists s',
    parse_results unit "report.txt" "random" 50 "data.dat" Samples.nothing_read
    = Raised FileNotFoundError s'
    /\ files s' !! "data.dat" = None.
Proof.
  eexists. split.
  - exact (missing_report_is_not_found unit "report.txt" "random" "data.dat" 50
             Samples.nothing_read eq_refl).
  - reflexivity.
Defined.

End ParserEdges.

(** ** From the report back to the lists *)

Module RoundTrip.
Import Py PyFacts Parser ParserFacts ScanFacts SweepFacts Script.

(** A block of one trial, with the same entry in every list. *)
Definition unit_block (i : Z) (e : num) : block := Block i 1 (fun _ => [e]).

Lemma length_concat_repeat {A} (l : list A) n :
  List.length (concat (repeat l n)) = (n * List.length l)%nat.
Proof.
  induction n as [|n IH]; [reflexivity|].
  cbn [repeat concat]. rewrite length_app, IH. lia.
Qed.

Lemma length_x_entries bt v : supported bt -> List.length (x_entries bt v) = 1%nat.
Proof. intros [-> | [-> | ->]]; reflexivity. Qed.

Lemma length_block_column tie bt N b v :
  supported bt -> full N b -> In v (x :: columns bt) ->
  List.length (block_column tie bt N (b_value b) (b_lists b) v) = Z.to_nat N.
Proof.
  intros Hbt Hfull Hv. unfold block_column, columns in *.
  destruct (String.eqb bt "random"); cbn [In] in Hv;
    repeat (destruct Hv as [<- | Hv]); try contradiction;
    rewrite ?length_concat_repeat, ?length_x_entries, ?repeat_length, ?firstn_all2
      by (rewrite ?Hfull; lia || assumption);
    rewrite ?Hfull; lia.
Qed.

Lemma length_flat_map_const {A B} (f : A -> list B) l n :
  Forall (fun a => List.length (f a) = n) l ->
  List.length (flat_map f l) = (n * List.length l)%nat.
Proof.
  induction 1 as [|a l Ha _ IH]; cbn [flat_map List.length]; [lia|].
  rewrite length_app, Ha, IH. lia.
Qed.

Lemma length_report_frame tie bt N bs v :
  supported bt -> Forall (full N) bs -> In v (x :: columns bt) ->
  List.length (report_frame tie bt N bs empty_frame v) = (Z.to_nat N * List.length bs)%nat.
Proof.
  intros Hbt Hfull Hv. rewrite report_frame_at. cbn [empty_frame app].
  apply length_flat_map_const. revert Hfull. apply List.Forall_impl.
  intros b Hb. now apply length_block_column.
Qed.

(** X13.  Scanning the lines of a block the driver wrote appends to [x]
    the value of the block, once per trial and transformed for the kind,
    to [y_ce] and [y_ao] the process times of the two algorithms, and
    for the kind random to the two mean lists the means of the process
    times as they are printed; the forty other lines of the block leave
    no trace, and the scan of the following lines goes on from there. *)
Theorem written_block_is_read_back
    (W : Type) (tie : Q -> bool) (benchmark_type : string) (N : Z)
    (parameters : list pyval) (b : block) (rest : list string) (s : St W) :
  full N b ->
  exists s',
    for_each (map (fun l => l ++ nl)%string
                (DriverFacts.block_lines tie parameters (b_value b) (b_nbr b) (b_lists b))
              ++ rest) (parse_line W benchmark_type N) s
    = for_each rest (parse_line W benchmark_type N) s'
    /\ files s' = files s /\ stdout s' = stdout s
    /\ forall v, locals s' v
                 = locals s v ++ block_column tie benchmark_type N (b_value b) (b_lists b) v.
Proof.
  intros Hfull.
  exists (with_locals (block_frame tie benchmark_type N (b_value b) (b_lists b) (locals s)) s).
  split; [|split; [reflexivity|split; [reflexivity|]]].
  - apply scan_block; rewrite Hfull; lia.
  - intros v. cbn [locals with_locals]. apply block_frame_at.
Qed.

Lemma written_block_is_read_back_witness :
  exists s',
    for_each (map (fun l => l ++ nl)%string
                (DriverFacts.block_lines (fun _ => true) [PBool true] 4 2
                   (fun _ => [NFloat (Dec3 false 1500)])))
      (parse_line unit "intersection_objectives" 1) Samples.nothing_read
    = Ok tt s'
    /\ locals s' x = [NInt 10]
    /\ locals s' y_ce = [NFloat (Dec3 false 1500)].
Proof.
  destruct (written_block_is_read_back unit (fun _ => true) "intersection_objectives" 1
              [PBool true] (Block 4 2 (fun _ => [NFloat (Dec3 false 1500)])) []
              Samples.nothing_read (fun _ => eq_refl))
    as (s' & Hrun & _ & _ & Hl).
  exists s'. rewrite app_nil_r in Hrun. split; [exact Hrun|]. split; apply Hl.
Defined.

(** X14.  For the kind random, the line of the three means of the CE
    running times gives [mean_y_ce] the first of them, the mean of the
    process times to three decimals, once per trial; the line of the AO
    means does the same for [mean_y_ao]. *)
Theorem mean_lines_give_the_process_time_mean
    (W : Type) (tie : Q -> bool) (N : Z) (process perf wall : list num) (s : St W) :
  parse_line W "random" N
    (DriverFacts.means3_line tie "Mean running time CE " process perf wall ++ nl) s
  = Ok tt (with_locals
             (extend mean_y_ce (repeat (NFloat (mean3 tie process)) (Z.to_nat N)) (locals s)) s)
  /\ parse_line W "random" N
       (DriverFacts.means3_line tie "Mean running time AO " process perf wall ++ nl) s
     = Ok tt (with_locals
                (extend mean_y_ao (repeat (NFloat (mean3 tie process)) (Z.to_nat N))
                   (locals s)) s).
Proof. split; [apply ce_means_line | apply ao_means_line]. Qed.

(** X15.  The parser accepts every report the driver can have written:
    when the report is made of blocks of [N] entries per list, written
    with any parameters, [parse_results] returns for each of the three
    kinds; every list a row reads has [N] entries for each block, and
    the header and the rows are appended to what the dataset file
    held. *)
Theorem written_report_is_accepted
    (W : Type) (tie : Q -> bool) (benchmark_type file_name save_file : string) (N : Z)
    (parameters : list pyval) (blocks : list block) (s : St W) :
  supported benchmark_type ->
  Forall (full N) blocks ->
  files s !! file_name = Some (report_text tie parameters blocks) ->
  exists s',
    parse_results W file_name benchmark_type N save_file s = Ok tt s'
    /\ (forall v, In v (x :: columns benchmark_type) ->
          List.length (locals s' v) = (Z.to_nat N * List.length blocks)%nat)
    /\ files s' !! save_file
       = Some (default EmptyString (files s !! save_file)
               ++ fst (dataset benchmark_type (locals s')))%string
    /\ snd (dataset benchmark_type (locals s')) = true.
Proof.
  intros Hbt Hfull Hf.
  set (fr := report_frame tie benchmark_type N blocks empty_frame).
  assert (Hscan : scan W file_name benchmark_type N (with_locals empty_frame s)
                  = Ok tt (with_locals fr s)).
  { apply (scan_written W tie file_name benchmark_type N parameters blocks
             (with_locals empty_frame s) Hf Hfull). }
  assert (Hlen : forall v, In v (x :: columns benchmark_type) ->
                   List.length (fr v) = (Z.to_nat N * List.length blocks)%nat).
  { intros v Hv. now apply length_report_frame. }
  assert (Hok : snd (dataset benchmark_type fr) = true).
  { apply dataset_complete, List.Forall_forall. intros v Hv.
    rewrite (Hlen x) by now left. rewrite (Hlen v) by now right. lia. }
  exists (appended save_file (fst (dataset benchmark_type fr)) (with_locals fr s)).
  split; [|split; [exact Hlen|split; [|exact Hok]]].
  - rewrite (parse_results_eq W _ _ _ _ _ _ Hbt Hscan).
    cbn [locals with_locals]. fold fr. now rewrite Hok.
  - cbn [files appended with_locals locals]. now rewrite lookup_insert_eq.
Qed.

Lemma written_report_is_accepted_witness :
  let report := report_text (fun _ => true) [PBool true]
                  [unit_block 7 (NFloat (Dec3 false 250)); unit_block 5 (NInt 2)] in
  exists s',
    parse_results unit "r" "random" 1 "d" (Samples.holding "r" report empty_frame) = Ok tt s'
    /\ List.length (locals s' mean_y_ao) = 2%nat.
Proof.
  intros report.
  destruct (written_report_is_accepted unit (fun _ => true) "random" "r" "d" 1
              [PBool true] [unit_block 7 (NFloat (Dec3 false 250)); unit_block 5 (NInt 2)]
              (Samples.holding "r" report empty_frame))
    as (s' & Hrun & Hlen & _).
  - right. right. reflexivity.
  - repeat constructor.
  - reflexivity.
  - exists s'. split; [exact Hrun|]. apply (Hlen mean_y_ao). cbn. tauto.
Defined.

Lemma flat_map_values {B} (g : Z -> list B) (bs : list block) :
  flat_map (fun b => g (b_value b)) bs = flat_map g (map b_value bs).
Proof. induction bs as [|b bs IH]; [reflexivity|]. cbn [flat_map map]. now rewrite IH. Qed.

Lemma call_fn_eq {W L L' A} (init : L') (body : M (machine W L') A) (s : machine W L) :
  call_fn init body s
  = match body (with_locals init s) with
    | Ok a s' => Ok a (with_locals (locals s) s')
    | Raised e s' => Raised e (with_locals (locals s) s')
    end.
Proof. reflexivity. Qed.

(** X16.  A sweep of kind intersection_vertices followed by the parse of
    its report, on a report file that does not exist yet: with
    collaborators under which the sweep completes, at least one trial
    and at least one value, the dataset file receives the header and
    then, for each value in the order of the range, one row per trial
    whose first column is the value. *)
Theorem sweep_then_parse_writes_a_row_per_trial
    (C : Driver.Collaborators) (b : bool) (file_name save_file : string)
    (N range_start range_end range_step : Z) (values : list Z)
    (s : machine (Driver.World C) unit) :
  TrialFacts.well_behaved C b -> (1 <= N)%Z ->
  range range_start range_end range_step = Some values -> values <> [] ->
  file_name <> save_file ->
  files s !! file_name = None ->
  exists s' ces aos,
    sweep_then_parse C "intersection_vertices" file_name [PBool b] N
      range_start range_end range_step save_file s = Ok tt s'
    /\ List.length ces = (Z.to_nat N * List.length values)%nat
    /\ List.length aos = (Z.to_nat N * List.length values)%nat
    /\ files s' !! save_file
       = Some (default EmptyString (files s !! save_file)
               ++ "nbr_vertices CE_time AO_time" ++ nl
               ++ rows3 (flat_map (fun v => repeat (NInt v) (Z.to_nat N)) values) ces aos)%string.
Proof.
  intros Hwb HN Hr Hne Hfd Hf.
  pose (s0 := @with_locals _ _ Driver.frame (Driver.Frame Driver.empty_lists None) s).
  destruct (post_returns _ _ _
              (run_benchmark_returns C b file_name N range_start range_end range_step
                 values s0 Hwb HN Hr))
    as ([] & s1 & Hrun & bs & Hvals & Hfull & [Hother Hgrown] & Hsome).
  assert (Hreport : files s1 !! file_name = Some (report_text (Driver.tie_up C) [PBool b] bs)).
  { destruct (Hsome Hne) as [c Hc]. rewrite Hc in Hgrown |- *.
    change (files s0 !! file_name) with (files s !! file_name) in Hgrown.
    rewrite Hf in Hgrown. cbn [from_option id String.append] in Hgrown. now rewrite Hgrown. }
  pose (s2 := @with_locals _ _ frame empty_frame s1).
  pose (fr := report_frame (Driver.tie_up C) "intersection_vertices" N bs empty_frame).
  assert (Hscan : scan (Driver.World C) file_name "intersection_vertices" N s2
                  = Ok tt (with_locals fr s2)).
  { exact (scan_written _ (Driver.tie_up C) file_name "intersection_vertices" N [PBool b]
             bs s2 Hreport Hfull). }
  assert (Hbt : supported "intersection_vertices") by (left; reflexivity).
  assert (Hlen : forall v, In v [x; y_ce; y_ao] ->
                   List.length (fr v) = (Z.to_nat N * List.length values)%nat).
  { intros v Hv. unfold fr. rewrite <- Hvals, length_map.
    now apply length_report_frame. }
  assert (Hx : fr x = flat_map (fun v => repeat (NInt v) (Z.to_nat N)) values).
  { unfold fr. rewrite report_frame_at. cbn [empty_frame app block_column].
    rewrite <- Hvals, <- flat_map_values. apply flat_map_ext. intros blk.
    destruct (x_entries_kinds (b_value blk)) as (-> & _). apply concat_repeat_one. }
  assert (Hdata : dataset "intersection_vertices" fr
                  = (("nbr_vertices CE_time AO_time" ++ nl
                      ++ rows3 (fr x) (fr y_ce) (fr y_ao))%string, true)).
  { unfold dataset. change (row "intersection_vertices") with row3.
    rewrite (rows_text_row3 fr 0 (List.length (fr x)))
      by (rewrite ?(Hlen x), ?(Hlen y_ce), ?(Hlen y_ao) by (cbn [In]; tauto); lia).
    reflexivity. }
  pose proof (parse_results_eq (Driver.World C) file_name "intersection_vertices" N save_file
                s2 (with_locals fr s2) Hbt Hscan) as Hparse.
  change (locals (with_locals fr s2)) with fr in Hparse. rewrite Hdata in Hparse.
  cbn [fst snd finish] in Hparse.
  eexists _, (fr y_ce), (fr y_ao). split; [|split; [|split]].
  - unfold sweep_then_parse, bind, call_fn.
    change (Machine (world s) (files s) (stdout s) (trace s)
              (Driver.Frame Driver.empty_lists None)) with s0.
    rewrite Hrun. cbn [world files stdout trace locals].
    change (Machine (world s1) (files s1) (stdout s1) (trace s1) empty_frame) with s2.
    rewrite Hparse. reflexivity.
  - apply Hlen. cbn [In]. tauto.
  - apply Hlen. cbn [In]. tauto.
  - cbn [files appended with_locals world stdout trace locals].
    rewrite lookup_insert_eq. change (files s2 !! save_file) with (files s1 !! save_file).
    rewrite (Hother save_file) by congruence.
    change (files s0 !! save_file) with (files s !! save_file). now rewrite Hx.
Qed.

Lemma sweep_then_parse_writes_a_row_per_trial_witness :
  exists s' ces aos,
    sweep_then_parse (Example.toy false false) "intersection_vertices" "report.txt"
      [PBool false] 2 1 3 1 "data.dat" (Example.start tt) = Ok tt s'
    /\ files s' !! "data.dat"
       = Some ("nbr_vertices CE_time AO_time" ++ nl
               ++ rows3 [NInt 1; NInt 1; NInt 2; NInt 2] ces aos)%string.
Proof.
  assert (Hwb : TrialFacts.well_behaved (Example.toy false false) false).
  { constructor; intros; try reflexivity.
    unfold TrialFacts.stats_ok. cbn. repeat split; discriminate. }
  destruct (sweep_then_parse_writes_a_row_per_trial (Example.toy false false) false
              "report.txt" "data.dat" 2 1 3 1 [1; 2]%Z (Example.start tt)
              Hwb ltac:(lia) eq_refl ltac:(discriminate) ltac:(discriminate) eq_refl)
    as (s' & ces & aos & Hrun & _ & _ & Hd).
  exists s', ces, aos. split; [exact Hrun | exact Hd].
Defined.

(** X17.  A sweep over an empty range followed by the parse of its
    report: the sweep writes nothing, so when the report file did not
    exist the parse raises [FileNotFoundError], and neither file is
    created. *)
Theorem empty_sweep_then_parse_is_not_found
    (C : Driver.Collaborators) (benchmark_type file_name save_file : string)
    (parameters : list pyval) (N range_start range_end range_step : Z)
    (s : machine (Driver.World C) unit) :
  range range_start range_end range_step = Some [] ->
  files s !! file_name = None ->
  sweep_then_parse C benchmark_type file_name parameters N
    range_start range_end range_step save_file s
  = Raised FileNotFoundError s.
Proof.
  intros Hr Hf. unfold sweep_then_parse. unfold bind. rewrite call_fn_eq.
  rewrite (SweepEdges.empty_range_returns C benchmark_type file_name parameters N
             range_start range_end range_step _ Hr).
  rewrite call_fn_eq. cbn [locals with_locals world files stdout trace].
  rewrite ParserEdges.missing_report_raises by exact Hf.
  destruct s as [w fs out tr []]. reflexivity.
Qed.

Lemma empty_sweep_then_parse_is_not_found_witness :
  sweep_then_parse (Example.toy true true) "random" "report.txt" [] 50 5 15 (-1) "data.dat"
    (Example.start tt)
  = Raised FileNotFoundError (Example.start tt).
Proof.
  exact (empty_sweep_then_parse_is_not_found (Example.toy true true) "random" "report.txt"
           "data.dat" [] 50 5 15 (-1) (Example.start tt) eq_refl eq_refl).
Defined.

End RoundTrip.

(** ** More on the table generator *)

Module TablesEdges.
Import Py PyFacts Tables TablesFacts.

(** The five mean lines of two blocks, the second one last. *)
Definition two_blocks : string :=
  ("Mean antichain size 1.000" ++ nl ++ "Mean number losing payoffs 1.000" ++ nl
   ++ "Mean number realizable payoffs 4.000" ++ nl ++ "CE mean antichain size 2.000" ++ nl
   ++ "AO mean antichain size 3.000" ++ nl
   ++ "Mean antichain size 5.000" ++ nl ++ "Mean number losing payoffs 3.000" ++ nl
   ++ "Mean number realizable payoffs 2.000" ++ nl ++ "CE mean antichain size 6.000" ++ nl
   ++ "AO mean antichain size 7.000" ++ nl)%string.

(** Every column has a ratio: both texts are numbers and the realizable
    one is not zero. *)
Definition all_ratios (losing realizable : list string) : Prop :=
  forall i, (i < List.length realizable)%nat -> exists a b fa fb,
    nth_error losing i = Some a /\ nth_error realizable i = Some b
    /\ float_of_str a = Some fa /\ float_of_str b = Some fb /\ d_mag fb <> 0%N.

Lemma ratio_some tie losing realizable i :
  all_ratios losing realizable -> (i < List.length realizable)%nat ->
  exists r, ratio tie losing realizable (Z.of_nat i) = inr r.
Proof.
  intros Hall Hi.
  destruct (Hall i Hi) as (a & b & fa & fb & Ha & Hb & Hfa & Hfb & Hnz).
  unfold ratio.
  rewrite nth_z_nat by (apply nth_error_Some; congruence). rewrite Ha, Hfa.
  rewrite nth_z_nat by lia. rewrite Hb, Hfb.
  apply N.eqb_neq in Hnz. rewrite Hnz. eauto.
Qed.

Lemma ratios_ok tie losing realizable :
  realizable <> [] -> all_ratios losing realizable ->
  snd (ratios_out tie losing realizable) = None.
Proof.
  intros Hne Hall.
  assert (0 < List.length realizable)%nat by (destruct realizable; [congruence | cbn; lia]).
  unfold ratios_out. rewrite !snd_and_then. cbn [snd]. rewrite cells_all.
  - replace (Z.of_nat (List.length realizable) - 1)%Z
      with (Z.of_nat (List.length realizable - 1)) by lia.
    destruct (ratio_some tie _ _ (List.length realizable - 1) Hall ltac:(lia)) as [r ->].
    reflexivity.
  - intros j Hj. apply in_range0 in Hj.
    destruct (ratio_some tie _ _ (Z.to_nat j) Hall ltac:(lia)) as [r Hr].
    rewrite Z2Nat.id in Hr by lia. rewrite Hr. eauto.
Qed.

Lemma rows_ok report_lines :
  series "Mean antichain size" report_lines <> [] ->
  series "CE mean antichain size" report_lines <> [] ->
  series "AO mean antichain size" report_lines <> [] ->
  snd (rows_out report_lines) = None
  /\ fst (rows_out report_lines)
     = (fst (series_out "$|\paretoSet{G}|$" (series "Mean antichain size" report_lines))
        ++ fst (series_out "$|A|$ in Algorithm \ref{algo:fpt}"
                  (series "CE mean antichain size" report_lines))
        ++ fst (series_out "$|A|$ in Algorithm \ref{algo:fpt-CE}"
                  (series "AO mean antichain size" report_lines)))%string.
Proof.
  intros Ha Hce Hao.
  pose proof (series_ok "$|\paretoSet{G}|$" _ Ha) as H1.
  pose proof (series_ok "$|A|$ in Algorithm \ref{algo:fpt}" _ Hce) as H2.
  pose proof (series_ok "$|A|$ in Algorithm \ref{algo:fpt-CE}" _ Hao) as H3.
  unfold rows_out, dict_pattern_names. cbn [fold_right fst snd]. split.
  - rewrite !snd_and_then, H1, H2, H3. reflexivity.
  - rewrite fst_and_then by exact H1. rewrite fst_and_then by exact H2.
    rewrite fst_and_then by exact H3. cbn [fst]. now rewrite append_nil_r.
Qed.

(** X18.  When the three printed series are not empty and every column
    has a ratio, [generate_tables] returns, having printed the header
    row, the three series rows and the ratio row, in that order, and
    nothing else; the files are left as they are. *)
Theorem complete_table_is_printed
    (W : Type) (tie_up : Q -> bool) (file_name content : string) (s : St W) :
  files s !! file_name = Some content ->
  let antichain := series "Mean antichain size" (readlines content) in
  let ce_antichain := series "CE mean antichain size" (readlines content) in
  let ao_antichain := series "AO mean antichain size" (readlines content) in
  let losing := series "Mean number losing payoffs" (readlines content) in
  let realizable := series "Mean number realizable payoffs" (readlines content) in
  antichain <> [] -> ce_antichain <> [] -> ao_antichain <> [] -> realizable <> [] ->
  all_ratios losing realizable ->
  exists s',
    generate_tables W tie_up file_name s = Ok tt s'
    /\ files s' = files s
    /\ stdout s'
       = (stdout s
          ++ fst (header_out (Z.of_nat (List.length realizable)))
          ++ fst (series_out "$|\paretoSet{G}|$" antichain)
          ++ fst (series_out "$|A|$ in Algorithm \ref{algo:fpt}" ce_antichain)
          ++ fst (series_out "$|A|$ in Algorithm \ref{algo:fpt-CE}" ao_antichain)
          ++ fst (ratios_out tie_up losing realizable))%string.
Proof.
  intros Hf antichain ce_antichain ao_antichain losing realizable Ha Hce Hao Hre Hall.
  pose proof (generate_tables_eq W tie_up _ _ _ Hf) as Hrun.
  pose proof (header_ok (Z.of_nat (List.length realizable))) as Hh.
  destruct (rows_ok _ Ha Hce Hao) as [Hrs Hrf].
  pose proof (ratios_ok tie_up _ _ Hre Hall) as Hr.
  assert (Hsnd : snd (table tie_up (readlines content)) = None).
  { unfold table. fold losing realizable. now rewrite !snd_and_then, Hh, Hrs, Hr. }
  assert (Hfst : fst (table tie_up (readlines content))
                 = (fst (header_out (Z.of_nat (List.length realizable)))
                    ++ fst (rows_out (readlines content))
                    ++ fst (ratios_out tie_up losing realizable))%string).
  { unfold table. fold losing realizable. rewrite fst_and_then by exact Hh.
    now rewrite fst_and_then by exact Hrs. }
  unfold finish in Hrun. rewrite Hsnd in Hrun. eexists. split; [exact Hrun|].
  split; [reflexivity|].
  cbn [stdout printed with_locals]. rewrite Hfst, Hrf. fold antichain ce_antichain ao_antichain.
  now rewrite !append_assoc.
Qed.

Lemma complete_table_is_printed_witness :
  exists s',
    generate_tables unit (fun _ => true) "report.txt"
      (Samples.holding "report.txt" two_blocks initial_frame) = Ok tt s'
    /\ stdout s'
       = ("t  &  1 &  2 \\" ++ nl
          ++ "$|\paretoSet{G}|$ &  5.000 &  1.000 \\" ++ nl
          ++ "$|A|$ in Algorithm \ref{algo:fpt} &  6.000 &  2.000 \\" ++ nl
          ++ "$|A|$ in Algorithm \ref{algo:fpt-CE} &  7.000 &  3.000 \\" ++ nl
          ++ "Ratio of lost payoffs &  1.500 &  0.250 \\" ++ nl)%string.
Proof.
  destruct (complete_table_is_printed unit (fun _ => true) "report.txt" two_blocks
              (Samples.holding "report.txt" two_blocks initial_frame) eq_refl
              ltac:(discriminate) ltac:(discriminate) ltac:(discriminate)
              ltac:(discriminate))
    as (s' & Hrun & _ & Hout).
  - intros i Hi. change (i < 2)%nat in Hi.
    destruct i as [|[|i]]; [| |lia].
    + exists " 3.000", " 2.000", (Dec3 false 3000), (Dec3 false 2000).
      repeat split; try reflexivity. discriminate.
    + exists " 1.000", " 4.000", (Dec3 false 1000), (Dec3 false 4000).
      repeat split; try reflexivity. discriminate.
  - exists s'. split; [exact Hrun|]. rewrite Hout. vm_compute. reflexivity.
Defined.

(** X19.  When the report does not exist, [generate_tables] raises
    [FileNotFoundError] at the first pattern: nothing is printed. *)
Theorem table_of_missing_report_is_not_found
    (W : Type) (tie_up : Q -> bool) (file_name : string) (s : St W) :
  files s !! file_name = None ->
  exists s',
    generate_tables W tie_up file_name s = Raised FileNotFoundError s'
    /\ stdout s' = stdout s /\ files s' = files s.
Proof.
  intros Hf. rewrite (generate_tables_no_file W tie_up _ _ Hf).
  eexists. split; [reflexivity|]. split; reflexivity.
Qed.

Lemma table_of_missing_report_is_not_found_witness :
  exists s',
    generate_tables unit (fun _ => true) "report.txt"
      (Samples.holding "other.txt" two_blocks initial_frame)
    = Raised FileNotFoundError s'
    /\ stdout s' = EmptyString.
Proof.
  destruct (table_of_missing_report_is_not_found unit (fun _ => true) "report.txt"
              (Samples.holding "other.txt" two_blocks initial_frame) eq_refl)
    as (s' & Hrun & Hout & _).
  exists s'. split; [exact Hrun | exact Hout].
Defined.

(** X20.  A report with no line of mean antichain size: the first series
    row subscripts an empty list with -1 (line 409), so
    [generate_tables] raises [IndexError] once the header row and the
    name of that series are printed, whatever else the report holds. *)
Theorem empty_series_is_an_index_error
    (W : Type) (tie_up : Q -> bool) (file_name content : string) (s : St W) :
  files s !! file_name = Some content ->
  series "Mean antichain size" (readlines content) = [] ->
  exists s',
    generate_tables W tie_up file_name s = Raised IndexError s'
    /\ stdout s'
       = (stdout s
          ++ fst (header_out
                    (Z.of_nat (List.length
                       (series "Mean number realizable payoffs" (readlines content)))))
          ++ ("$|\paretoSet{G}|$" ++ " & ") ++ " ")%string.
Proof.
  intros Hf Hempty.
  pose proof (generate_tables_eq W tie_up _ _ _ Hf) as Hrun.
  pose proof (header_ok (Z.of_nat (List.length
                (series "Mean number realizable payoffs" (readlines content))))) as Hh.
  assert (Hrows : rows_out (readlines content)
                  = ((("$|\paretoSet{G}|$" ++ " & ") ++ " ") ++ "", Some IndexError)%string).
  { unfold rows_out, dict_pattern_names. cbn [fold_right fst snd]. rewrite Hempty.
    reflexivity. }
  assert (Htable : table tie_up (readlines content)
                   = ((fst (header_out
                              (Z.of_nat (List.length
                                 (series "Mean number realizable payoffs"
                                    (readlines content)))))
                       ++ (("$|\paretoSet{G}|$" ++ " & ") ++ " ") ++ "")%string,
                      Some IndexError)).
  { unfold table. rewrite Hrows. unfold and_then at 1. rewrite Hh.
    unfold and_then. reflexivity. }
  rewrite Htable in Hrun. eexists. split; [exact Hrun|].
  cbn [stdout printed with_locals fst]. now rewrite append_nil_r.
Qed.

Lemma empty_series_is_an_index_error_witness :
  exists s',
    generate_tables unit (fun _ => true) "report.txt"
      (Samples.holding "report.txt"
         ("Mean number realizable payoffs 2.000" ++ nl
          ++ "Mean number losing payoffs 1.000" ++ nl) initial_frame)
    = Raised IndexError s'
    /\ stdout s' = ("t  &  1 \\" ++ nl ++ "$|\paretoSet{G}|$ &  ")%string.
Proof.
  destruct (empty_series_is_an_index_error unit (fun _ => true) "report.txt"
              ("Mean number realizable payoffs 2.000" ++ nl
               ++ "Mean number losing payoffs 1.000" ++ nl)
              (Samples.holding "report.txt"
                 ("Mean number realizable payoffs 2.000" ++ nl
                  ++ "Mean number losing payoffs 1.000" ++ nl) initial_frame)
              eq_refl eq_refl)
    as (s' & Hrun & Hout).
  exists s'. split; [exact Hrun|]. rewrite Hout. vm_compute. reflexivity.
Defined.

Lemma readlines_not_nil c t : readlines (String c t) <> [].
Proof.
  cbn [readlines]. destruct (Ascii.eqb c nl_char); [discriminate|].
  destruct (readlines t); discriminate.
Qed.

Lemma readlines_app a rest :
  readlines ((a ++ nl) ++ rest) = readlines (a ++ nl) ++ readlines rest.
Proof.
  induction a as [|c a IH]; [reflexivity|].
  change ((String c a ++ nl) ++ rest)%string with (String c ((a ++ nl) ++ rest)).
  change (String c a ++ nl)%string with (String c (a ++ nl)).
  cbn [readlines]. destruct (Ascii.eqb c nl_char); rewrite IH; [reflexivity|].
  assert (Hne : readlines (a ++ nl) <> []).
  { destruct a; [discriminate | apply readlines_not_nil]. }
  destruct (readlines (a ++ nl)); [congruence | reflexivity].
Qed.

Lemma series_app pattern l1 l2 :
  series pattern (l1 ++ l2) = series pattern l2 ++ series pattern l1.
Proof. unfold series. now rewrite flat_map_app, rev_app_distr. Qed.

(** X21.  The series are reversed once extracted (line 395): of two
    parts of a report, the values of the part that comes last are the
    first of the series, so that the first column of the table is the
    last block of the report. *)
Theorem later_lines_come_first
    (W : Type) (file_name pattern first_part second_part : string) (s : St W) :
  files s !! file_name = Some ((first_part ++ nl) ++ second_part)%string ->
  locals s !! pattern = Some [] ->
  exists s',
    extract W file_name pattern s = Ok tt s'
    /\ locals s' !! pattern
       = Some (series pattern (readlines second_part)
               ++ series pattern (readlines (first_part ++ nl)))
    /\ stdout s' = stdout s /\ files s' = files s.
Proof.
  intros Hf Hl. rewrite (extract_eq W _ _ _ _ _ Hf Hl). eexists. split; [reflexivity|].
  split; [|split; reflexivity].
  cbn [locals with_locals app]. rewrite frame_lookup_insert.
  fold (series pattern (readlines ((first_part ++ nl) ++ second_part))).
  now rewrite readlines_app, series_app.
Qed.

Lemma later_lines_come_first_witness :
  exists s',
    extract unit "report.txt" "CE mean antichain size"
      (Samples.holding "report.txt" two_blocks initial_frame) = Ok tt s'
    /\ locals s' !! "CE mean antichain size" = Some [" 6.000"; " 2.000"].
Proof.
  destruct (later_lines_come_first unit "report.txt" "CE mean antichain size"
              ("Mean antichain size 1.000" ++ nl ++ "Mean number losing payoffs 1.000" ++ nl
               ++ "Mean number realizable payoffs 4.000" ++ nl
               ++ "CE mean antichain size 2.000" ++ nl ++ "AO mean antichain size 3.000")
              ("Mean antichain size 5.000" ++ nl ++ "Mean number losing payoffs 3.000" ++ nl
               ++ "Mean number realizable payoffs 2.000" ++ nl
               ++ "CE mean antichain size 6.000" ++ nl ++ "AO mean antichain size 7.000" ++ nl)
              (Samples.holding "report.txt" two_blocks initial_frame) eq_refl eq_refl)
    as (s' & Hrun & Hl & _).
  exists s'. split; [exact Hrun|]. rewrite Hl. vm_compute. reflexivity.
Defined.

End TablesEdges.
